(** * logcat: the multiplexed log-stream pipeline of [logcat/logcat.cpp]

    A shallow embedding of the output sink and its rotation ([rotateLogs],
    [processBuffer], [printBinary], [setupOutput]), the divider tracker
    ([maybePrintStart]), the device registry built by the [-b] option, the
    steady-state read loop of [main] and the growing-buffer query of the
    statistics / prune-list commands.

    The process state is passed explicitly: the globals of namespace
    [android] and a small model of the operating system (directory, inodes,
    descriptor table, [errno], the system calls issued so far).  [exit] is a
    second kind of result, so code after a fatal error is never run. *)

From stdpp Require Import gmap strings list.
From Stdlib Require Import ZArith Ascii String Lia.

Open Scope Z_scope.

(** ** Constants of the C library and of liblog *)

Definition ENOENT : Z := 2.
Definition EINTR : Z := 4.
Definition EIO : Z := 5.
Definition EBADF : Z := 9.
Definition EAGAIN : Z := 11.
Definition EACCES : Z := 13.
Definition EINVAL : Z := 22.
Definition EPIPE : Z := 32.
Definition SIGABRT : Z := 6.
Definition SIGPIPE : Z := 13.
Definition EXIT_FAILURE : Z := 1.
Definition STDOUT_FILENO : Z := 1.

Definition DEFAULT_LOG_ROTATE_SIZE_KBYTES : Z := 16.
Definition DEFAULT_MAX_ROTATED_LOGS : Z := 4.

(** The status a parent process sees: the low eight bits of [exit]'s argument. *)
Definition exit_status (code : Z) : Z := Z.land code 255.

(** [int] and [off_t] arithmetic, two's complement on 32 and 64 bits. *)
Definition wrap (bits : Z) (z : Z) : Z :=
  (z + 2 ^ (bits - 1)) mod 2 ^ bits - 2 ^ (bits - 1).
Definition int_wrap : Z → Z := wrap 32.
Definition off_wrap : Z → Z := wrap 64.

Definition newline : string := String "010"%char EmptyString.

(** ** The operating system *)

Inductive syscall : Type :=
| SysWrite (fd : Z) (data : string)
| SysClose (fd : Z)
| SysRename (src dst : string)
| SysOpen (path : string).

Global Instance syscall_eq_dec : EqDecision syscall.
Proof. solve_decision. Defined.

(** [os_dir] maps a path to its inode, [os_inodes] holds the contents of
    every inode (an inode number is an index), [os_fds] the open descriptors.
    [os_fault] lets the environment fail any call with an [errno] of its
    choice; a call it lets through behaves as the file system dictates.
    [os_trace] lists the calls issued, oldest first, and [os_stderr] the
    diagnostics printed by [perror] and [fprintf(stderr, ...)]. *)
Record os : Type := mkOs {
  os_dir : gmap string nat;
  os_inodes : list string;
  os_fds : gmap Z nat;
  os_errno : Z;
  os_fault : syscall → option Z;
  os_trace : list syscall;
  os_stderr : list string
}.

Definition os_log (c : syscall) (w : os) : os :=
  mkOs (os_dir w) (os_inodes w) (os_fds w) (os_errno w) (os_fault w)
       (os_trace w ++ [c]) (os_stderr w).

Definition os_fail (e : Z) (w : os) : os :=
  mkOs (os_dir w) (os_inodes w) (os_fds w) e (os_fault w)
       (os_trace w) (os_stderr w).

Definition os_perror (msg : string) (w : os) : os :=
  mkOs (os_dir w) (os_inodes w) (os_fds w) (os_errno w) (os_fault w)
       (os_trace w) (os_stderr w ++ [msg]).

(** An interruption does not repeat: once a call was made to fail with
    [EINTR], the same call made again is let through. *)
Definition os_resume (c : syscall) (w : os) : os :=
  mkOs (os_dir w) (os_inodes w) (os_fds w) (os_errno w)
       (fun c' => if decide (c' = c) then None else os_fault w c')
       (os_trace w) (os_stderr w).

(** The lowest descriptor that is not open, as [open] returns it. *)
Fixpoint lowest_unused (fds : gmap Z nat) (fuel : nat) (n : Z) : Z :=
  match fuel with
  | O => n
  | S fuel' =>
      match fds !! n with
      | Some _ => lowest_unused fds fuel' (n + 1)
      | None => n
      end
  end.

Definition fresh_fd (fds : gmap Z nat) : Z := lowest_unused fds (size fds) 0.

(** The system call [write(fd, data, strlen(data))] on a descriptor opened
    with [O_APPEND] (or on a stream): all of [data] is appended, or the call
    fails.  What a failure with [EPIPE] does to the process is in [write]
    below. *)
Definition sys_write (fd : Z) (data : string) (w : os) : Z * os :=
  let w := os_log (SysWrite fd data) w in
  match os_fault w (SysWrite fd data) with
  | Some e =>
      (-1, os_fail e (if e =? EINTR then os_resume (SysWrite fd data) w else w))
  | None =>
      match os_fds w !! fd with
      | None => (-1, os_fail EBADF w)
      | Some ino =>
          let old := default EmptyString (os_inodes w !! ino) in
          (Z.of_nat (String.length data),
           mkOs (os_dir w) (<[ino := (old +:+ data)%string]> (os_inodes w))
                (os_fds w) (os_errno w) (os_fault w) (os_trace w) (os_stderr w))
      end
  end.

Definition sys_close (fd : Z) (w : os) : os :=
  let w := os_log (SysClose fd) w in
  mkOs (os_dir w) (os_inodes w) (delete fd (os_fds w)) (os_errno w)
       (os_fault w) (os_trace w) (os_stderr w).

(** [rename(src, dst)]: [ENOENT] when [src] does not exist; otherwise [dst]
    names the inode [src] named and [src] is gone. *)
Definition sys_rename (src dst : string) (w : os) : Z * os :=
  let w := os_log (SysRename src dst) w in
  match os_fault w (SysRename src dst) with
  | Some e => (-1, os_fail e w)
  | None =>
      match os_dir w !! src with
      | None => (-1, os_fail ENOENT w)
      | Some ino =>
          (0, mkOs (<[dst := ino]> (delete src (os_dir w))) (os_inodes w)
                   (os_fds w) (os_errno w) (os_fault w) (os_trace w)
                   (os_stderr w))
      end
  end.

(** [open(path, O_WRONLY | O_APPEND | O_CREAT, S_IRUSR | S_IWUSR)]: an
    existing file is opened as it is (no [O_TRUNC]); a missing one is created
    empty. *)
Definition sys_open (path : string) (w : os) : Z * os :=
  let w := os_log (SysOpen path) w in
  match os_fault w (SysOpen path) with
  | Some e => (-1, os_fail e w)
  | None =>
      let fd := fresh_fd (os_fds w) in
      match os_dir w !! path with
      | Some ino =>
          (fd, mkOs (os_dir w) (os_inodes w) (<[fd := ino]> (os_fds w))
                    (os_errno w) (os_fault w) (os_trace w) (os_stderr w))
      | None =>
          let ino := List.length (os_inodes w) in
          (fd, mkOs (<[path := ino]> (os_dir w)) (os_inodes w ++ [EmptyString])
                    (<[fd := ino]> (os_fds w)) (os_errno w) (os_fault w)
                    (os_trace w) (os_stderr w))
      end
  end.

(** [fstat(fd, &statbuf); statbuf.st_size]. *)
Definition sys_fstat_size (fd : Z) (w : os) : Z :=
  match os_fds w !! fd with
  | Some ino => Z.of_nat (String.length (default EmptyString (os_inodes w !! ino)))
  | None => 0
  end.

(** ** The globals of namespace [android] *)

Record state : Type := mkState {
  g_outputFileName : option string;
  g_logRotateSizeKBytes : Z;
  g_maxRotatedLogs : Z;
  g_outFD : Z;
  g_outByteCount : Z;
  g_printBinary : Z;
  g_devCount : Z;
  sys : os
}.

Definition initial_state (w : os) : state :=
  mkState None 0 DEFAULT_MAX_ROTATED_LOGS (-1) 0 0 0 w.

Definition set_outFD (fd : Z) (s : state) : state :=
  mkState (g_outputFileName s) (g_logRotateSizeKBytes s) (g_maxRotatedLogs s)
          fd (g_outByteCount s) (g_printBinary s) (g_devCount s) (sys s).

Definition set_outByteCount (n : Z) (s : state) : state :=
  mkState (g_outputFileName s) (g_logRotateSizeKBytes s) (g_maxRotatedLogs s)
          (g_outFD s) n (g_printBinary s) (g_devCount s) (sys s).

Definition set_devCount (n : Z) (s : state) : state :=
  mkState (g_outputFileName s) (g_logRotateSizeKBytes s) (g_maxRotatedLogs s)
          (g_outFD s) (g_outByteCount s) (g_printBinary s) n (sys s).

Definition set_sys (w : os) (s : state) : state :=
  mkState (g_outputFileName s) (g_logRotateSizeKBytes s) (g_maxRotatedLogs s)
          (g_outFD s) (g_outByteCount s) (g_printBinary s) (g_devCount s) w.

(** ** Sequencing with [exit] *)

Inductive result (A : Type) : Type :=
| Ret (a : A) (s : state)
| Exit (code : Z) (s : state).
Arguments Ret {A} a s.
Arguments Exit {A} code s.

Definition prog (A : Type) : Type := state → result A.

Definition ret {A} (a : A) : prog A := fun s => Ret a s.

Definition bind {A B} (c : prog A) (k : A → prog B) : prog B :=
  fun s => match c s with
           | Ret a s' => k a s'
           | Exit code s' => Exit code s'
           end.

Definition exit {A} (code : Z) : prog A := fun s => Exit code s.

Definition get : prog state := fun s => Ret s s.
Definition modify (f : state → state) : prog unit := fun s => Ret tt (f s).

(** A system call runs on the [sys] component. *)
Definition call {A} (f : os → A * os) : prog A :=
  fun s => let '(a, w) := f (sys s) in Ret a (set_sys w s).

Definition perror (msg : string) : prog unit :=
  modify (fun s => set_sys (os_perror msg (sys s)) s).

Notation "'let*' x ':=' c 'in' k" := (bind c (fun x => k))
  (at level 10, x pattern, c at level 100, k at level 200, only parsing).
Notation "c ';;' k" := (bind c (fun _ => k))
  (at level 100, k at level 200, only parsing).

(** ** Signals *)

(** [signal(SIGPIPE, exit)], the first statement of [main]: from then on a
    SIGPIPE runs [exit] with the signal number for argument, so the process
    exits with status 13 inside the call that raised it. *)
Definition on_sigpipe {A} : prog A := exit SIGPIPE.

(** [write] as the process makes it under that disposition: a write on a
    pipe nobody reads fails with [EPIPE] and raises SIGPIPE, and then never
    returns; any other failure returns -1. *)
Definition write (fd : Z) (data : string) : prog Z :=
  let* n := call (sys_write fd data) in
  let* s := get in
  if (n <? 0) && (os_errno (sys s) =? EPIPE) then on_sigpipe else ret n.

(** [TEMP_FAILURE_RETRY(exp)]:
    [do { rc = (exp); } while (rc == -1 && errno == EINTR);]
    with [fuel] further passes allowed. *)
Fixpoint temp_failure_retry (fuel : nat) (exp : prog Z) : prog Z :=
  let* rc := exp in
  let* s := get in
  match fuel with
  | S fuel' =>
      if (rc =? -1) && (os_errno (sys s) =? EINTR)
      then temp_failure_retry fuel' exp
      else ret rc
  | O => ret rc
  end.

(** An exception nobody catches ends in [std::terminate], which calls
    [abort]: the process is killed by SIGABRT, with nothing flushed or
    reported by the program.  The code is the status a shell shows for it. *)
Definition abort {A} : prog A := exit (128 + SIGABRT).

Definition final_state {A} (r : result A) : state :=
  match r with Ret _ s => s | Exit _ s => s end.

(** ** [printf]'s [%.*d] *)

Definition digit_char (d : Z) : ascii := ascii_of_nat (48 + Z.to_nat d).

(** The decimal digits of [n >= 0], most significant first, in front of [acc]. *)
Fixpoint decimal_go (fuel : nat) (n : Z) (acc : string) : string :=
  match fuel with
  | O => acc
  | S fuel' =>
      let acc' := String (digit_char (n mod 10)) acc in
      if n <? 10 then acc' else decimal_go fuel' (n / 10) acc'
  end.

Definition decimal (n : Z) : string :=
  decimal_go (S (Z.to_nat (Z.log2 n))) n EmptyString.

Fixpoint zeros (n : nat) : string :=
  match n with
  | O => EmptyString
  | S n' => String "0"%char (zeros n')
  end.

(** [%.*d] with precision [prec]: at least [prec] digits, zeros in front; a
    zero value with precision zero prints nothing; the sign does not count. *)
Definition fmt_prec_d (prec : Z) (i : Z) : string :=
  let ds := if (i =? 0) && (prec =? 0) then EmptyString else decimal (Z.abs i) in
  let pad := zeros (Z.to_nat prec - String.length ds) in
  let sign : string := if i <? 0 then "-"%string else EmptyString in
  (sign +:+ pad +:+ ds)%string.

(** [floor(log10(n))] for [n >= 1]. *)
Fixpoint ilog10_go (fuel : nat) (n : Z) : Z :=
  match fuel with
  | O => 0
  | S fuel' => if n <? 10 then 0 else 1 + ilog10_go fuel' (n / 10)
  end.

Definition ilog10 (n : Z) : Z := ilog10_go (S (Z.to_nat (Z.log2 n))) n.

(** [(g_maxRotatedLogs > 0) ? (int) (floor(log10(g_maxRotatedLogs) + 1)) : 0].
    The source computes the logarithm in [double].  On the range of [int]
    that value is an integer only at the powers of ten, where [log10] is
    exact, and is otherwise further from one than a [double] can err, so the
    floor of the sum is the integer taken here: the number of decimal digits. *)
Definition maxRotationCountDigits (maxRotatedLogs : Z) : Z :=
  if 0 <? maxRotatedLogs then ilog10 maxRotatedLogs + 1 else 0.

(** [asprintf(&file, "%s.%.*d", g_outputFileName, maxRotationCountDigits, i)] *)
Definition backup_name (name : string) (digits i : Z) : string :=
  (name +:+ "." +:+ fmt_prec_d digits i)%string.

(** ** The rotating output sink *)

Definition openLogFile (pathname : string) : prog Z := call (sys_open pathname).

(** [file0] for index [i]: the bare name when [i - 1 == 0]. *)
Definition shift_source (name : string) (digits i : Z) : string :=
  if i - 1 =? 0 then name else backup_name name digits (i - 1).

(** One pass of the loop body of [rotateLogs] for index [i]. *)
Definition rotate_step (name : string) (digits : Z) (i : Z) : prog unit :=
  let file1 := backup_name name digits i in
  let file0 := shift_source name digits i in
  let* err := call (sys_rename file0 file1) in
  let* s := get in
  if (err <? 0) && negb (os_errno (sys s) =? ENOENT)
  then perror "while rotating log files"
  else ret tt.

(** [for (int i = g_maxRotatedLogs ; i > 0 ; i--)], [n] passes left. *)
Fixpoint rotate_loop (name : string) (digits : Z) (n : nat) : prog unit :=
  match n with
  | O => ret tt
  | S n' => rotate_step name digits (Z.of_nat n);; rotate_loop name digits n'
  end.

Definition rotateLogs : prog unit :=
  let* s := get in
  match g_outputFileName s with
  | None => ret tt
  | Some name =>
      modify (fun s => set_sys (sys_close (g_outFD s) (sys s)) s);;
      let digits := maxRotationCountDigits (g_maxRotatedLogs s) in
      rotate_loop name digits (Z.to_nat (g_maxRotatedLogs s));;
      let* fd := openLogFile name in
      modify (set_outFD fd);;
      if fd <? 0
      then perror "couldn't open output file";; exit (-1)
      else modify (set_outByteCount 0)
  end.

Definition setupOutput : prog unit :=
  let* s := get in
  match g_outputFileName s with
  | None => modify (set_outFD STDOUT_FILENO)
  | Some name =>
      let* fd := openLogFile name in
      modify (set_outFD fd);;
      if fd <? 0
      then perror "couldn't open output file";; exit (-1)
      else modify (fun s => set_outByteCount (sys_fstat_size fd (sys s)) s)
  end.

(** ** Devices and records *)

Record log_device_t : Type := mkDev {
  device : string;
  binary : bool;
  printed : bool
}.

(** [log_device_t(const char* d, bool b)] *)
Definition new_log_device_t (d : string) (b : bool) : log_device_t :=
  mkDev d b false.

Definition set_printed (p : bool) (d : log_device_t) : log_device_t :=
  mkDev (device d) (binary d) p.

Definition set_binary (b : bool) (d : log_device_t) : log_device_t :=
  mkDev (device d) b (printed d).

(** A record as [android_logger_list_read] delivers it: [msg_id] is
    [log_msg.id()], [msg_raw] the first [log_msg.len()] bytes of the structure,
    that is the header, which starts with the length field, and the payload. *)
Record log_msg : Type := mkMsg {
  msg_id : Z;
  msg_raw : string
}.

(** The formatting and filter collaborator (liblog's logprint), with the
    format [g_logformat] fixed: decoding fails with [None] (a negative
    return), [android_log_formatLogLine] renders an entry. *)
Class LogPrint : Type := {
  AndroidLogEntry : Type;
  android_log_processLogBuffer : log_msg → option AndroidLogEntry;
  android_log_processBinaryLogBuffer : log_msg → option AndroidLogEntry;
  android_log_shouldPrintLine : AndroidLogEntry → bool;
  android_log_formatLogLine : AndroidLogEntry → string
}.

(** [snprintf(buf, sizeof(buf), ...)] with [char buf[1024]] keeps 1023 bytes. *)
Definition snprintf_1024 (s : string) : string := String.substring 0 1023 s.

Definition banner (dev : log_device_t) : string :=
  snprintf_1024
    ("--------- " +:+ (if printed dev then "switch to" else "beginning of")
       +:+ " " +:+ device dev +:+ newline)%string.

(** [dev] is passed by pointer in the source: the device returned is the
    object after the call. *)
Definition maybePrintStart (dev : log_device_t) (printDividers : bool)
  : prog log_device_t :=
  if negb (printed dev) || printDividers then
    let* s := get in
    (if (1 <? g_devCount s) && (g_printBinary s =? 0) then
       let* r := write (g_outFD s) (banner dev) in
       if r <? 0 then perror "output error";; exit (-1) else ret tt
     else ret tt);;
    ret (set_printed true dev)
  else ret dev.

(** Whether a call of [maybePrintStart] writes a banner. *)
Definition emits (dev : log_device_t) (printDividers : bool) (s : state) : bool :=
  (negb (printed dev) || printDividers)
  && (1 <? g_devCount s) && (g_printBinary s =? 0).

(** [TEMP_FAILURE_RETRY(write(g_outFD, buf, size))]: the write is made
    again as long as it is interrupted, and its result is dropped.  One
    further pass is all the loop can take, since an interruption does not
    repeat. *)
Definition printBinary (buf : log_msg) : prog unit :=
  let* s := get in
  let* _ := temp_failure_retry 1 (write (g_outFD s) (msg_raw buf)) in
  ret tt.

Section Formatting.
Context `{LogPrint}.

(** Modelled from the spec: [android_log_printLogLine] of liblog, which is
    not part of the sources.  It renders the entry to the destination and
    returns the bytes written, negative when that failed. *)
Definition android_log_printLogLine (fd : Z) (entry : AndroidLogEntry)
  : prog Z :=
  write fd (android_log_formatLogLine entry).

Definition processBuffer (dev : log_device_t) (buf : log_msg) : prog unit :=
  let decoded :=
    if binary dev then android_log_processBinaryLogBuffer buf
    else android_log_processLogBuffer buf in
  match decoded with
  | None => ret tt
  | Some entry =>
      let* bytesWritten :=
        (if android_log_shouldPrintLine entry then
           let* s := get in
           let* n := android_log_printLogLine (g_outFD s) entry in
           if n <? 0 then perror "output error";; exit (-1) else ret n
         else ret 0) in
      modify (fun s => set_outByteCount (off_wrap (g_outByteCount s + bytesWritten)) s);;
      let* s := get in
      if (0 <? g_logRotateSizeKBytes s)
         && (g_logRotateSizeKBytes s <=? Z.quot (g_outByteCount s) 1024)
      then rotateLogs
      else ret tt
  end.
End Formatting.

(** ** The device registry *)

(** The buffers of liblog ([log/log.h], not part of the sources):
    identifiers run from [LOG_ID_MIN = 0] up to [LOG_ID_MAX], excluded;
    [android_logger_open] tells whether the buffer of an identifier can be
    opened (a null logger otherwise). *)
Class LogIds : Type := {
  LOG_ID_MAX : nat;
  LOG_ID_EVENTS : Z;
  LOG_ID_SYSTEM : Z;
  LOG_ID_CRASH : Z;
  android_log_id_to_name : Z → string;
  android_name_to_log_id : string → Z;
  android_logger_open : Z → bool
}.

Definition LOG_ID_MIN : Z := 0.

Definition fprintf_stderr (msg : string) : prog unit := perror msg.

(** [show_help] prints the usage text on [stderr]; its first line stands for it. *)
Definition show_help : prog unit :=
  fprintf_stderr "Usage: logcat [options] [filterspecs]".

Section Registry.
Context `{LogIds}.

(** [android::g_devCount++] *)
Definition devCount_incr : prog unit :=
  modify (fun s => set_devCount (int_wrap (g_devCount s + 1)) s).

(** One pass of the loop of [-b all] for identifier [i]; [devices] is the
    list built so far, the new device goes to its end. *)
Definition select_all_step (i : Z) (devices : list log_device_t)
  : prog (list log_device_t) :=
  let name := android_log_id_to_name i in
  let log_id := android_name_to_log_id name in
  if bool_decide (log_id ≠ i) then ret devices
  else
    let binary := bool_decide (name = "events"%string) in
    let d := new_log_device_t name binary in
    devCount_incr;; ret (devices ++ [d]).

Fixpoint select_all_loop (ids : list Z) (devices : list log_device_t)
  : prog (list log_device_t) :=
  match ids with
  | [] => ret devices
  | i :: ids' =>
      let* devices' := select_all_step i devices in
      select_all_loop ids' devices'
  end.

(** [case 'b'] of the option loop. *)
Definition option_b (optarg : string) (devices : list log_device_t)
  : prog (list log_device_t) :=
  if bool_decide (optarg = "all"%string) then
    (* every device is deleted, then the list is built anew *)
    modify (set_devCount 0);;
    select_all_loop (seqZ LOG_ID_MIN (Z.of_nat LOG_ID_MAX)) []
  else
    let binary := bool_decide (optarg = "events"%string) in
    devCount_incr;; ret (devices ++ [new_log_device_t optarg binary]).

(** The [-b] options of a command line, in order. *)
Fixpoint options_b (optargs : list string) (devices : list log_device_t)
  : prog (list log_device_t) :=
  match optargs with
  | [] => ret devices
  | a :: rest =>
      let* devices' := option_b a devices in
      options_b rest devices'
  end.

(** [if (!devices) { ... }] after the option loop. *)
Definition default_devices (devices : list log_device_t)
  : prog (list log_device_t) :=
  match devices with
  | _ :: _ => ret devices
  | [] =>
      modify (set_devCount 1);;
      let devices := [new_log_device_t "main" false] in
      let* devices :=
        (if bool_decide (android_name_to_log_id "system" = LOG_ID_SYSTEM)
         then devCount_incr;; ret (devices ++ [new_log_device_t "system" false])
         else ret devices) in
      if bool_decide (android_name_to_log_id "crash" = LOG_ID_CRASH)
      then devCount_incr;; ret (devices ++ [new_log_device_t "crash" false])
      else ret devices
  end.

(** [main] from the end of the option loop to [setupOutput()]. *)
Definition main_setup (devices : list log_device_t)
  : prog (list log_device_t) :=
  let* devices := default_devices devices in
  let* s := get in
  if negb (g_logRotateSizeKBytes s =? 0)
     && bool_decide (g_outputFileName s = None)
  then
    fprintf_stderr "-r requires -f as well";;
    show_help;;
    exit (-1)
  else
    setupOutput;; ret devices.

Definition names (devices : list log_device_t) : list string :=
  device <$> devices.
End Registry.

(** ** The steady-state read loop *)

(** The pointers [dev] and [d] of [main]: a device of the list, by position,
    or the local [unexpected]. *)
Inductive dev_ref : Type :=
| DevAt (i : nat)
| DevUnexpected.

Global Instance dev_ref_eq_dec : EqDecision dev_ref.
Proof. solve_decision. Defined.

Record loop_vars : Type := mkVars {
  devices : list log_device_t;
  unexpected : log_device_t;
  dev : option dev_ref
}.

Definition deref (v : loop_vars) (r : dev_ref) : log_device_t :=
  match r with
  | DevAt i => default (unexpected v) (devices v !! i)
  | DevUnexpected => unexpected v
  end.

Definition store (v : loop_vars) (r : dev_ref) (d : log_device_t) : loop_vars :=
  match r with
  | DevAt i => mkVars (<[i := d]> (devices v)) (unexpected v) (dev v)
  | DevUnexpected => mkVars (devices v) d (dev v)
  end.

Definition set_dev (r : dev_ref) (v : loop_vars) : loop_vars :=
  mkVars (devices v) (unexpected v) (Some r).

(** What one pass of [while (1)] leads to. *)
Inductive pass : Type :=
| Continue (v : loop_vars)
| Break.

(** How the loop ends on the reads supplied: [main] returns, or the reads
    are used up and the process waits in [android_logger_list_read]. *)
Inductive loop_end : Type :=
| Returned (code : Z)
| Waiting (v : loop_vars).

Section ReadLoop.
Context `{LogIds} `{LogPrint}.
Variable printDividers : bool.

(** [for(d = devices; d; d = d->next)]: the first device whose name maps
    to the record's identifier. *)
Definition find_device (devices : list log_device_t) (id : Z) : option nat :=
  fst <$> list_find (fun d => android_name_to_log_id (device d) = id) devices.

(** One pass of the loop, [ret] and [log_msg] being what
    [android_logger_list_read] delivered. *)
Definition loop_pass (v : loop_vars) (ret_ : Z) (msg : log_msg) : prog pass :=
  if ret_ =? 0 then
    fprintf_stderr "read: unexpected EOF!";; exit EXIT_FAILURE
  else if ret_ <? 0 then
    if ret_ =? - EAGAIN then ret Break
    else if ret_ =? - EIO then
      fprintf_stderr "read: unexpected EOF!";; exit EXIT_FAILURE
    else if ret_ =? - EINVAL then
      fprintf_stderr "read: unexpected length.";; exit EXIT_FAILURE
    else perror "logcat read failure";; exit EXIT_FAILURE
  else
    let* (d, v) :=
      (match find_device (devices v) (msg_id msg) with
       | Some i => ret (DevAt i, v)
       | None =>
           modify (set_devCount 2);;
           ret (DevUnexpected,
                store v DevUnexpected
                  (set_binary (msg_id msg =? LOG_ID_EVENTS) (unexpected v)))
       end) in
    let* v :=
      (if bool_decide (dev v ≠ Some d) then
         let v := set_dev d v in
         let* d' := maybePrintStart (deref v d) printDividers in
         ret (store v d d')
       else ret v) in
    let* s := get in
    (if negb (g_printBinary s =? 0) then printBinary msg
     else processBuffer (deref v d) msg);;
    ret (Continue v).

Fixpoint read_loop (reads : list (Z * log_msg)) (v : loop_vars)
  : prog loop_end :=
  match reads with
  | [] => ret (Waiting v)
  | (ret_, msg) :: rest =>
      let* p := loop_pass v ret_ msg in
      match p with
      | Break => ret (Returned 0)
      | Continue v' => read_loop rest v'
      end
  end.

(** [dev = NULL; log_device_t unexpected("unexpected", false);] *)
Definition loop_start (devices : list log_device_t) : loop_vars :=
  mkVars devices (new_log_device_t "unexpected" false) None.
End ReadLoop.

(** [while (dev) { ... }] before the loop, for a command line without
    [-c], [-g] and [-G]: every device gets its logger, and the first that
    cannot be opened ends the process. *)
Fixpoint open_loggers `{LogIds} (devices : list log_device_t) : prog unit :=
  match devices with
  | [] => ret tt
  | d :: rest =>
      if android_logger_open (android_name_to_log_id (device d))
      then open_loggers rest
      else
        fprintf_stderr ("Unable to open log device '" +:+ device d +:+ "'");;
        exit EXIT_FAILURE
  end.

(** [main] for a command line whose [-b] options are [optargs], with or
    without [-D] and with no filter, on the reads the transport delivers.
    [signal(SIGPIPE, exit)] comes first: it is what [write] does on a
    broken pipe, all the way.  Then the registry, the check of [-r], the
    sink, the loggers, the loop.  (The format and the filters are the
    collaborators' business.) *)
Definition main_session `{LogIds} `{LogPrint}
    (optargs : list string) (printDividers : bool) (reads : list (Z * log_msg))
  : prog loop_end :=
  let* devices := options_b optargs [] in
  let* devices := main_setup devices in
  open_loggers devices;;
  read_loop printDividers reads (loop_start devices).

(** ** The growing-buffer query of [-S] and [-p] *)

Definition NUL : ascii := "000"%char.
Definition FF : ascii := "012"%char.
Definition LF : ascii := "010"%char.

Definition code (c : ascii) : Z := Z.of_nat (nat_of_ascii c).

Definition isdigit (c : ascii) : bool := (48 <=? code c) && (code c <=? 57).
Definition isspace (c : ascii) : bool :=
  (code c =? 32) || ((9 <=? code c) && (code c <=? 13)).

Definition LONG_MAX : Z := 2 ^ 63 - 1.
Definition LONG_MIN : Z := - 2 ^ 63.

Fixpoint skip_spaces (l : list ascii) : list ascii :=
  match l with
  | c :: l' => if isspace c then skip_spaces l' else l
  | [] => []
  end.

Fixpoint read_digits (l : list ascii) (acc : Z) : Z :=
  match l with
  | c :: l' => if isdigit c then read_digits l' (acc * 10 + (code c - 48)) else acc
  | [] => acc
  end.

(** [atol], that is [strtol(s, NULL, 10)]: blanks, a sign, digits; a value
    out of range is [LONG_MAX] or [LONG_MIN]. *)
Definition atol (l : list ascii) : Z :=
  let clamp z := Z.max LONG_MIN (Z.min LONG_MAX z) in
  match skip_spaces l with
  | c :: l' =>
      if bool_decide (c = "-"%char) then clamp (- read_digits l' 0)
      else if bool_decide (c = "+"%char) then clamp (read_digits l' 0)
      else clamp (read_digits (c :: l') 0)
  | [] => 0
  end.

(** Conversion to [size_t] (64 bits). *)
Definition size_t (z : Z) : Z := z mod 2 ^ 64.

(** [size_t ret = atol(buf) + 1]: the buffer size the response asks for. *)
Definition declared_size (buf : list ascii) : Z := size_t (atol buf + 1).

(** [buf[len-1] = '\0'] *)
Definition terminate (len : Z) (buf : list ascii) : list ascii :=
  <[Z.to_nat (len - 1) := NUL]> buf.

(** The pointer [buf] after the loop; [BufThrown] when the loop was left
    by the [std::bad_alloc] of a [new char [len]] that found no memory. *)
Inductive buf_ptr : Type :=
| BufNull
| BufLive (b : list ascii)
| BufDeleted
| BufThrown.

Record query_end : Type := mkQueryEnd {
  q_buf : buf_ptr;
  q_len : Z;
  q_attempts : list Z   (* the capacities the query was issued with, in order *)
}.

Section GrowingBuffer.
(** [alloc len] tells whether [new char [len]] yields a buffer (it throws
    otherwise: the test of its result in the loop condition never fails);
    [service retry len] is that buffer as [android_logger_get_statistics]
    or [android_logger_get_prune_list] leaves it ([len] bytes). *)
Variable alloc : Z → bool.
Variable service : Z → Z → list ascii.

(** The [for] loop, entered with [retry = Z.of_nat k - 1]. *)
Fixpoint query_loop (k : nat) (len : Z) (attempts : list Z) : query_end :=
  match k with
  | O => mkQueryEnd BufDeleted len attempts          (* retry >= 0 fails *)
  | S k' =>
      let retry := Z.of_nat k' in
      if negb (alloc len) then mkQueryEnd BufThrown len attempts
      else
        let buf := service retry len in
        let attempts := attempts ++ [len] in
        let buf := terminate len buf in
        let ret_ := declared_size buf in
        if ret_ <? 4 then mkQueryEnd BufNull len attempts
        else
          let check := ret_ <=? len in
          if check then mkQueryEnd (BufLive buf) ret_ attempts
          else query_loop k' ret_ attempts
  end.

(** [size_t len = 8192; for(int retry = 32; ...)] *)
Definition query : query_end := query_loop 33 8192 [].

(** Capacities of consecutive attempts, the first made with [retry]: each
    is larger than the one before and is the size its response declared. *)
Fixpoint grown_by_declared (retry : Z) (caps : list Z) : Prop :=
  match caps with
  | c :: rest =>
      match rest with
      | c' :: _ =>
          c' = declared_size (terminate c (service retry c)) ∧ c < c'
          ∧ grown_by_declared (retry - 1) rest
      | [] => True
      end
  | [] => True
  end.

(** The text up to the first NUL. *)
Fixpoint cstring (l : list ascii) : list ascii :=
  match l with
  | c :: l' => if bool_decide (c = NUL) then [] else c :: cstring l'
  | [] => []
  end.

Fixpoint skip_digits (l : list ascii) : list ascii :=
  match l with
  | c :: l' => if isdigit c then skip_digits l' else l
  | [] => []
  end.

(** From [// remove trailing FF] to the argument of [printf("%s", cp)]. *)
Definition response_text (buf : list ascii) (len : Z) : list ascii :=
  let buf := terminate len buf in
  let truncated :=
    negb (bool_decide (buf !! Z.to_nat (len - 2) = Some FF)) in
  let buf := if truncated then buf else <[Z.to_nat (len - 2) := NUL]> buf in
  let cp :=
    if truncated then buf
    else
      match skip_digits buf with
      | c :: l' => if bool_decide (c = LF) then l' else c :: l'
      | [] => []
      end in
  cstring cp.

(** [if (printStatistics || getPruneList) { ... }].  [None]: the program
    goes on to read a buffer it has deleted, which has no defined result.
    [printf] hands the text to [stdio], which writes it on standard output
    by [exit(0)] at the latest: one [write], under the disposition of
    SIGPIPE. *)
Definition query_command : state → option (result unit) :=
  fun s =>
    let q := query in
    match q_buf q with
    | BufNull => Some ((perror "failed to read data";; exit EXIT_FAILURE) s)
    | BufLive buf =>
        Some ((let* _ := write STDOUT_FILENO
                           (string_of_list_ascii (response_text buf (q_len q))) in
               exit 0) s)
    | BufDeleted => None
    | BufThrown => Some (abort s)
    end.
End GrowingBuffer.

(** ** The retry budget of the query *)

Section Budget.
Variable alloc : Z → bool.
Variable service : Z → Z → list ascii.

(** Whether [k] attempts in a row, the first with capacity [len], are all
    allocated and all answered with a demand that is not degenerate and
    exceeds the capacity. *)
Fixpoint insatiable (k : nat) (len : Z) : bool :=
  match k with
  | O => true
  | S k' =>
      let ret_ := declared_size (terminate len (service (Z.of_nat k') len)) in
      alloc len && negb (ret_ <? 4) && negb (ret_ <=? len) && insatiable k' ret_
  end.

End Budget.

(** ** Sizes: [-g] and [-G] *)

(** [static const char multipliers[][2]] *)
Definition multipliers : list string := [""; "K"; "M"; "G"]%string.

(** The loop shared by [value_of_size] and [multiplier_of_size]:
    [for (i = 0; (i < 4) && (value >= 1024); value /= 1024, ++i) ;]
    with [fuel] passes allowed; it yields [i] and [value]. *)
Fixpoint size_loop (fuel : nat) (i : Z) (value : Z) : Z * Z :=
  match fuel with
  | O => (i, value)
  | S fuel' =>
      if (i <? Z.of_nat (List.length multipliers)) && (1024 <=? value)
      then size_loop fuel' (i + 1) (value / 1024)
      else (i, value)
  end.

Definition value_of_size (value : Z) : Z := (size_loop 5 0 value).2.

(** [return multipliers[i]]: [None] when [i] is past the end of the table. *)
Definition multiplier_of_size (value : Z) : option string :=
  multipliers !! Z.to_nat (size_loop 5 0 value).1.

(** The digit loop of [case 'G'], which runs while the character at [cp] is
    between 0 and 9, in [unsigned long]: the value read and what is left of
    the argument. *)
Fixpoint size_digits (cp : string) (setLogSize : Z) : Z * string :=
  match cp with
  | String c rest =>
      if isdigit c
      then size_digits rest (size_t (size_t (setLogSize * 10) + (code c - 48)))
      else (setLogSize, cp)
  | EmptyString => (setLogSize, cp)
  end.

(** The [switch] on the character at [cp], with its fall-through: the
    factor for that character, [None] for [default]. *)
Definition size_suffix (cp : string) : option Z :=
  match cp with
  | EmptyString => Some 1
  | String c _ =>
      if bool_decide (c = "g"%char) || bool_decide (c = "G"%char)
      then Some (1024 * 1024 * 1024)
      else if bool_decide (c = "m"%char) || bool_decide (c = "M"%char)
      then Some (1024 * 1024)
      else if bool_decide (c = "k"%char) || bool_decide (c = "K"%char)
      then Some 1024
      else None
  end.

(** [case 'G'] of the option loop: the new [setLogSize]. *)
Definition option_G (optarg : string) : prog Z :=
  let '(digits, cp) := size_digits optarg 0 in
  let setLogSize :=
    match size_suffix cp with
    | Some factor => size_t (digits * factor)
    | None => 0
    end in
  if setLogSize =? 0
  then fprintf_stderr "ERROR: -G <num><multiplier>";; exit 1
  else ret setLogSize.

(** ** A session of one channel *)

Section Lines.
Context `{LogIds} `{LogPrint}.

(** What [processBuffer] prints for a record of a registered buffer: the
    line of the entry, when the record decodes and passes the filter. *)
Definition line_of (devices : list log_device_t) (fd : Z) (msg : log_msg)
  : list syscall :=
  match find_device devices (msg_id msg) with
  | Some i =>
      match devices !! i with
      | Some d =>
          match (if binary d then android_log_processBinaryLogBuffer msg
                 else android_log_processLogBuffer msg) with
          | Some entry =>
              if android_log_shouldPrintLine entry
              then [SysWrite fd (android_log_formatLogLine entry)]
              else []
          | None => []
          end
      | None => []
      end
  | None => []
  end.

(** The same for a record handed to [processBuffer] with device [d]. *)
Definition record_line (d : log_device_t) (fd : Z) (msg : log_msg)
  : list syscall :=
  match (if binary d then android_log_processBinaryLogBuffer msg
         else android_log_processLogBuffer msg) with
  | Some entry =>
      if android_log_shouldPrintLine entry
      then [SysWrite fd (android_log_formatLogLine entry)]
      else []
  | None => []
  end.
End Lines.

(** The name and the kind of every device, which the loop never changes. *)
Definition registry_view (devices : list log_device_t) : list (string * bool) :=
  (λ d, (device d, binary d)) <$> devices.

(** ** What a session does to the system *)

(** Whether a call is a [write] on descriptor [fd]. *)
Definition is_write_to (fd : Z) (c : syscall) : bool :=
  match c with
  | SysWrite fd' _ => fd' =? fd
  | _ => false
  end.

(** [s'] comes from [s] by writes on [g_outFD] alone: no other system call
    was made, and the descriptor, the directory, the descriptor table and
    the threshold are the same. *)
Definition wrote_only (s s' : state) : Prop :=
  (∃ ws, os_trace (sys s') = os_trace (sys s) ++ ws
         ∧ forallb (is_write_to (g_outFD s)) ws = true)
  ∧ g_outFD s' = g_outFD s
  ∧ os_dir (sys s') = os_dir (sys s)
  ∧ os_fds (sys s') = os_fds (sys s)
  ∧ g_logRotateSizeKBytes s' = g_logRotateSizeKBytes s.


(** A device as the option loop creates it: binary exactly when it is the
    events buffer, and not announced yet. *)
Definition as_created (d : log_device_t) : Prop :=
  binary d = bool_decide (device d = "events"%string) ∧ printed d = false.

(** [g_devCount] is the number of devices, all as created. *)
Definition counted (devices : list log_device_t) (s : state) : Prop :=
  g_devCount s = Z.of_nat (List.length devices) ∧ Forall as_created devices.

(** The loop variables after [if (dev != d) { dev = d; maybePrintStart(dev, printDividers); }]. *)
Definition announced (pd : bool) (r : dev_ref) (v : loop_vars) : loop_vars :=
  if bool_decide (dev v ≠ Some r) then
    store (set_dev r v) r
      (if negb (printed (deref v r)) || pd then set_printed true (deref v r)
       else deref v r)
  else v.

(** The output is never refused: [g_outFD] is open and no write on it is
    made to fail. *)
Definition writable (s : state) : Prop :=
  is_Some (os_fds (sys s) !! g_outFD s)
  ∧ ∀ data, os_fault (sys s) (SysWrite (g_outFD s) data) = None.

(** One device counted, text mode, no threshold. *)
Definition plain_session (s : state) : Prop :=
  g_devCount s ≤ 1 ∧ g_printBinary s = 0 ∧ g_logRotateSizeKBytes s ≤ 0.

(** [s'] has the globals, the descriptors and the failures of [s]. *)
Definition same_sink (s s' : state) : Prop :=
  g_devCount s' = g_devCount s
  ∧ g_printBinary s' = g_printBinary s
  ∧ g_logRotateSizeKBytes s' = g_logRotateSizeKBytes s
  ∧ g_outFD s' = g_outFD s
  ∧ os_fds (sys s') = os_fds (sys s)
  ∧ os_fault (sys s') = os_fault (sys s)
  ∧ os_stderr (sys s') = os_stderr (sys s).

(** ** A concrete environment, for running the model *)

(** The identifiers of [log/log.h]: main, radio, events, system, crash. *)
Definition std_id_to_name (i : Z) : string :=
  match i with
  | 0 => "main"
  | 1 => "radio"
  | 2 => "events"
  | 3 => "system"
  | 4 => "crash"
  | _ => "UNKNOWN"
  end.

Definition std_name_to_id (n : string) : Z :=
  if bool_decide (n = "main"%string) then 0
  else if bool_decide (n = "radio"%string) then 1
  else if bool_decide (n = "events"%string) then 2
  else if bool_decide (n = "system"%string) then 3
  else if bool_decide (n = "crash"%string) then 4
  else -1.

Definition std_ids : LogIds :=
  {| LOG_ID_MAX := 5; LOG_ID_EVENTS := 2; LOG_ID_SYSTEM := 3; LOG_ID_CRASH := 4;
     android_log_id_to_name := std_id_to_name;
     android_name_to_log_id := std_name_to_id;
     android_logger_open := fun i => (LOG_ID_MIN <=? i) && (i <? 5) |}.

(** A formatter whose entries are the records' bytes: an empty record does
    not decode, every entry passes the filter and prints as one line. *)
Definition raw_logprint : LogPrint :=
  {| AndroidLogEntry := string;
     android_log_processLogBuffer :=
       fun m => if bool_decide (msg_raw m = EmptyString) then None else Some (msg_raw m);
     android_log_processBinaryLogBuffer :=
       fun m => if bool_decide (msg_raw m = EmptyString) then None else Some (msg_raw m);
     android_log_shouldPrintLine := fun _ => true;
     android_log_formatLogLine := fun e => (e +:+ newline)%string |}.

(** A service that holds [text] and copies what fits of it into a zeroed
    buffer of [len] bytes. *)
Definition mock_response (text : string) (len : Z) : list ascii :=
  take (Z.to_nat len) (list_ascii_of_string text ++ replicate (Z.to_nat len) NUL).

(** The reply of the log service to a statistics or prune-list query: the
    byte count in decimal, a newline, the payload, a form feed. *)
Definition framed (n : Z) (payload : list ascii) : list ascii :=
  list_ascii_of_string (decimal n) ++ LF :: payload ++ [FF].

(** What a service holding [text] leaves in a zeroed buffer of [len]
    bytes: what fits of it. *)
Definition copy_out (text : list ascii) (len : Z) : list ascii :=
  take (Z.to_nat len) (text ++ replicate (Z.to_nat len) NUL).

(** Standard output open on inode 0, nothing else, no call made to fail. *)
Definition os_stdout_only : os :=
  mkOs ∅ [EmptyString] {[ 1 := 0%nat ]} 0 (fun _ => None) [] [].



(** A directory holding [out] (open on descriptor 3), [out.1] and [out.2]. *)
Definition os_out_files : os :=
  mkOs (<["out"%string := 1%nat]> (<["out.1"%string := 2%nat]> (<["out.2"%string := 3%nat]> ∅)))
       [EmptyString; "A"; "B"; "C"]%string
       (<[1 := 0%nat]> {[ 3 := 1%nat ]}) 0 (fun _ => None) [] [].

(** [logcat -f out -r 1 -n 2] with [out] open on descriptor 3 and 1023
    bytes counted so far; [binary] is the value of [g_printBinary]. *)
Definition sink_state (binary : Z) : state :=
  mkState (Some "out"%string) 1 2 3 1023 binary 2 os_out_files.

(** Whether [rename(src, dst)] fails with an [errno] other than [ENOENT]. *)
Definition reported (src dst : string) (w : os) : bool :=
  match os_fault w (SysRename src dst) with
  | Some e => negb (e =? ENOENT)
  | None => false
  end.

(** The records the loop gets to handle: those read before the first status
    that is not positive. *)
Fixpoint delivered (reads : list (Z * log_msg)) : list log_msg :=
  match reads with
  | (ret_, msg) :: rest => if 0 <? ret_ then msg :: delivered rest else []
  | [] => []
  end.

(** * Properties *)

(** ** Running programs *)

Ltac run :=
  repeat (progress (unfold bind, ret, exit, get, modify, call, perror,
                    fprintf_stderr, show_help, openLogFile, write, on_sigpipe;
                    cbn)).

Lemma bind_Ret {A B} (c : prog A) (k : A → prog B) s a s' :
  c s = Ret a s' → bind c k s = k a s'.
Proof. unfold bind. intros ->. reflexivity. Qed.

Lemma bind_Exit {A B} (c : prog A) (k : A → prog B) s code s' :
  c s = Exit code s' → bind c k s = Exit code s'.
Proof. unfold bind. intros ->. reflexivity. Qed.

Lemma exit_status_minus_one : exit_status (-1) = 255.
Proof. reflexivity. Qed.

Lemma exit_status_failure : exit_status EXIT_FAILURE = 1.
Proof. reflexivity. Qed.

(** ** Rotation without a pathname, and [-r] without [-f] *)

Lemma rotateLogs_no_file s :
  g_outputFileName s = None → rotateLogs s = Ret tt s.
Proof. intros Hn. unfold rotateLogs. run. rewrite Hn. reflexivity. Qed.

Section RegistryFacts.
Context `{LogIds}.

Lemma default_devices_sys devs s :
  ∃ devs' s', default_devices devs s = Ret devs' s'
    ∧ sys s' = sys s
    ∧ g_outputFileName s' = g_outputFileName s
    ∧ g_logRotateSizeKBytes s' = g_logRotateSizeKBytes s
    ∧ g_outFD s' = g_outFD s.
Proof.
  unfold default_devices. destruct devs as [|d devs].
  - run. repeat case_bool_decide; run; eauto 10.
  - run. eauto 10.
Qed.

(** C7. Without an output pathname [rotateLogs] changes nothing, whatever
    the threshold; and [main], given a rotation threshold and no pathname,
    prints "-r requires -f as well" and the usage text and exits with -1
    (status 255) before [setupOutput] runs: no system call is made and
    [g_outFD] and the descriptor table are as they were. *)
Theorem rotation_requires_pathname :
  (∀ s, g_outputFileName s = None → rotateLogs s = Ret tt s)
  ∧ (∀ devs s,
       g_logRotateSizeKBytes s ≠ 0 →
       g_outputFileName s = None →
       ∃ s', main_setup devs s = Exit (-1) s'
         ∧ exit_status (-1) ≠ 0
         ∧ os_trace (sys s') = os_trace (sys s)
         ∧ os_fds (sys s') = os_fds (sys s)
         ∧ g_outFD s' = g_outFD s
         ∧ os_stderr (sys s') =
             os_stderr (sys s)
               ++ ["-r requires -f as well"%string;
                   "Usage: logcat [options] [filterspecs]"%string]).
Proof.
  split; [exact rotateLogs_no_file|].
  intros devs s Hr Hf.
  destruct (default_devices_sys devs s) as (devs' & s1 & Hd & Hsys & Hn & Hk & Hfd).
  unfold main_setup. rewrite (bind_Ret _ _ _ _ _ Hd). run.
  rewrite Hn, Hk, Hf.
  destruct (Z.eqb_spec (g_logRotateSizeKBytes s) 0) as [?|_]; [done|].
  cbn. eexists. split; [reflexivity|]. cbn. rewrite Hsys, Hfd.
  rewrite <- app_assoc. done.
Qed.
End RegistryFacts.

(** ** The statuses of [android_logger_list_read] *)

(** [write] spelled out. *)
Lemma write_eq fd data s :
  write fd data s
  = (if ((sys_write fd data (sys s)).1 <? 0)
        && (os_errno (sys_write fd data (sys s)).2 =? EPIPE)
     then Exit SIGPIPE (set_sys (sys_write fd data (sys s)).2 s)
     else Ret (sys_write fd data (sys s)).1
            (set_sys (sys_write fd data (sys s)).2 s)).
Proof.
  unfold write, bind, call, get, on_sigpipe, exit, ret.
  destruct (sys_write fd data (sys s)) as [n w]. cbn. by destruct (_ && _).
Qed.

(** The codes of an exit on output: [exit(-1)] after "output error" or a
    failed open, and [exit(SIGPIPE)] from the handler. *)
Lemma output_exit_nonzero code :
  code = -1 ∨ code = SIGPIPE → exit_status code ≠ 0.
Proof. by intros [->| ->]. Qed.

Section ReadStatus.
Context `{LogIds} `{LogPrint}.
Variable printDividers : bool.

Lemma maybePrintStart_exit dev pd s code s' :
  maybePrintStart dev pd s = Exit code s' → code = -1 ∨ code = SIGPIPE.
Proof.
  unfold maybePrintStart. destruct (negb (printed dev) || pd); [|done].
  unfold bind at 1. cbn [get]. unfold bind at 1.
  destruct ((1 <? g_devCount s) && (g_printBinary s =? 0)); [|done].
  unfold bind at 1. rewrite write_eq.
  destruct (sys_write _ _ _) as [r w]. cbn [fst snd].
  destruct ((r <? 0) && (os_errno w =? EPIPE)); [intros [= <- _]; by right|].
  destruct (r <? 0); run; [intros [= <- _]; by left|done].
Qed.

Lemma rotate_loop_Ret name digits n s :
  ∃ s', rotate_loop name digits n s = Ret tt s'.
Proof.
  revert s. induction n as [|n IH]; intros s; [by eexists|].
  cbn [rotate_loop]. unfold rotate_step. run.
  destruct (sys_rename _ _ _) as [err w]. cbn.
  destruct ((err <? 0) && negb (os_errno w =? ENOENT)); cbn; apply IH.
Qed.

Lemma rotateLogs_exit s code s' :
  rotateLogs s = Exit code s' → code = -1.
Proof.
  unfold rotateLogs. run. destruct (g_outputFileName s) as [name|]; [|done].
  run.
  destruct (rotate_loop_Ret name (maxRotationCountDigits (g_maxRotatedLogs s))
              (Z.to_nat (g_maxRotatedLogs s))
              (set_sys (sys_close (g_outFD s) (sys s)) s)) as [s1 ->].
  run. destruct (sys_open _ _) as [fd w]. cbn.
  destruct (fd <? 0); cbn; congruence.
Qed.

Lemma processBuffer_exit dev msg s code s' :
  processBuffer dev msg s = Exit code s' → code = -1 ∨ code = SIGPIPE.
Proof.
  unfold processBuffer.
  destruct (if binary dev then _ else _) as [entry|]; [|done].
  unfold android_log_printLogLine.
  destruct (android_log_shouldPrintLine entry).
  - unfold bind at 1. unfold bind at 1. cbn [get]. unfold bind at 1.
    rewrite write_eq. destruct (sys_write _ _ _) as [n w]. cbn [fst snd].
    destruct ((n <? 0) && (os_errno w =? EPIPE)); [intros [= <- _]; by right|].
    destruct (n <? 0); run; [intros [= <- _]; by left|].
    destruct (_ && _); [|done]. intros Hrot. left. by eapply rotateLogs_exit.
  - run. destruct (_ && _); [|done]. intros Hrot. left. by eapply rotateLogs_exit.
Qed.

(** [printBinary] spelled out: one write, and one more when the first was
    interrupted. *)
Lemma printBinary_eq msg s :
  let fd := g_outFD s in
  let r1 := sys_write fd (msg_raw msg) (sys s) in
  let r2 := sys_write fd (msg_raw msg) r1.2 in
  printBinary msg s
  = (if (r1.1 <? 0) && (os_errno r1.2 =? EPIPE) then Exit SIGPIPE (set_sys r1.2 s)
     else if (r1.1 =? -1) && (os_errno r1.2 =? EINTR) then
       (if (r2.1 <? 0) && (os_errno r2.2 =? EPIPE) then Exit SIGPIPE (set_sys r2.2 s)
        else Ret tt (set_sys r2.2 s))
     else Ret tt (set_sys r1.2 s)).
Proof.
  cbv zeta. unfold printBinary. cbn [temp_failure_retry].
  unfold bind, get, ret. rewrite write_eq.
  destruct (sys_write (g_outFD s) (msg_raw msg) (sys s)) as [n w]. cbn [fst snd].
  destruct ((n <? 0) && (os_errno w =? EPIPE)); [done|].
  cbn [sys set_sys].
  destruct ((n =? -1) && (os_errno w =? EINTR)); [|done].
  rewrite write_eq. cbn [sys set_sys g_outFD].
  destruct (sys_write (g_outFD s) (msg_raw msg) w) as [n' w']. cbn [fst snd].
  by destruct ((n' <? 0) && (os_errno w' =? EPIPE)).
Qed.

(** [printBinary] touches the system only. *)
Lemma printBinary_state msg s :
  ∃ w, final_state (printBinary msg s) = set_sys w s.
Proof.
  rewrite printBinary_eq. cbv zeta.
  destruct (_ && _); [by eexists|].
  destruct (_ && _); [|by eexists].
  destruct (_ && _); by eexists.
Qed.

(** [printBinary] returns, unless the pipe is broken. *)
Lemma printBinary_outcome msg s :
  (∃ s', printBinary msg s = Ret tt s')
  ∨ (∃ s', printBinary msg s = Exit SIGPIPE s').
Proof.
  rewrite printBinary_eq. cbv zeta.
  destruct (_ && _); [right; by eexists|].
  destruct (_ && _); [|left; by eexists].
  destruct (_ && _); [right|left]; by eexists.
Qed.

(** A record that was read ([ret > 0]) never ends the loop normally. *)
Lemma loop_pass_record v ret_ msg s :
  0 < ret_ →
  (∃ v' s', loop_pass printDividers v ret_ msg s = Ret (Continue v') s')
  ∨ (∃ code s', loop_pass printDividers v ret_ msg s = Exit code s'
                ∧ (code = -1 ∨ code = SIGPIPE)).
Proof.
  intros Hpos. unfold loop_pass.
  destruct (Z.eqb_spec ret_ 0); [lia|].
  destruct (Z.ltb_spec ret_ 0); [lia|].
  set (pick := match find_device _ _ with Some i => _ | None => _ end).
  assert (∃ d v1 s1, pick s = Ret (d, v1) s1) as (d & v1 & s1 & Hpick).
  { unfold pick. destruct (find_device _ _); run; eauto. }
  rewrite (bind_Ret _ _ _ _ _ Hpick). cbn beta iota.
  set (announce := if bool_decide _ then _ else _).
  destruct (announce s1) as [v2 s2|c s2] eqn:Han.
  2:{ right. rewrite (bind_Exit _ _ _ _ _ Han).
      unfold announce in Han. case_bool_decide; [|done].
      unfold bind in Han.
      destruct (maybePrintStart _ _ _) eqn:Hm; [done|].
      injection Han as <- <-. apply maybePrintStart_exit in Hm. eauto. }
  rewrite (bind_Ret _ _ _ _ _ Han). unfold bind, get.
  destruct (negb (g_printBinary s2 =? 0)).
  - destruct (printBinary_outcome msg s2) as [[s3 Hp]|[s3 Hp]];
      rewrite Hp; [left|right]; eauto.
  - destruct (processBuffer _ _ _) eqn:Hp; [left; eauto|].
    apply processBuffer_exit in Hp. right. eauto.
Qed.

(** Reads that were all handled are gone: the loop goes on with what
    follows them. *)
Lemma read_loop_app before rest v s v1 s1 :
  read_loop printDividers before v s = Ret (Waiting v1) s1 →
  read_loop printDividers (before ++ rest) v s = read_loop printDividers rest v1 s1.
Proof.
  revert v s. induction before as [|[ret_ msg] before IH]; intros v s Hrun.
  { by injection Hrun as <- <-. }
  cbn [read_loop app] in *. unfold bind in *.
  destruct (loop_pass printDividers v ret_ msg s) as [[v'|] s'|]; [|done|done].
  by apply IH.
Qed.

(** C3. Of all the statuses [android_logger_list_read] can return,
    [-EAGAIN] alone ends the loop normally: [main] then returns 0.  A zero
    status, [-EIO], [-EINVAL] and every other negative status make the
    process exit with [EXIT_FAILURE]; a positive status (a record) either
    keeps the loop going or exits on output, with -1 or with the status of
    the SIGPIPE handler.  The loop passes every read to that test in turn:
    after records that were all handled, [-EAGAIN] makes it return 0 in
    the state they left, and any other status that is not positive makes
    it exit with [EXIT_FAILURE] with no further call; a record that is
    handled hands the rest of the reads to the loop, and an exit of a pass
    is the exit of the loop.  Hence a run that returns has read [-EAGAIN]
    after records only, and every exit carries a nonzero status. *)
Theorem read_status_outcomes :
  (∀ v ret_ msg s,
     (ret_ = - EAGAIN → loop_pass printDividers v ret_ msg s = Ret Break s)
     ∧ (ret_ = 0 ∨ (ret_ < 0 ∧ ret_ ≠ - EAGAIN) →
        ∃ s', loop_pass printDividers v ret_ msg s = Exit EXIT_FAILURE s'
              ∧ exit_status EXIT_FAILURE ≠ 0
              ∧ os_trace (sys s') = os_trace (sys s))
     ∧ (0 < ret_ →
        (∃ v' s', loop_pass printDividers v ret_ msg s = Ret (Continue v') s')
        ∨ (∃ code s', loop_pass printDividers v ret_ msg s = Exit code s'
                      ∧ (code = -1 ∨ code = SIGPIPE))))
  ∧ (∀ before ret_ msg after v s v1 s1,
       read_loop printDividers before v s = Ret (Waiting v1) s1 →
       ret_ ≤ 0 →
       (ret_ = - EAGAIN →
        read_loop printDividers (before ++ (ret_, msg) :: after) v s
        = Ret (Returned 0) s1)
       ∧ (ret_ ≠ - EAGAIN →
          ∃ s', read_loop printDividers (before ++ (ret_, msg) :: after) v s
                = Exit EXIT_FAILURE s'
                ∧ os_trace (sys s') = os_trace (sys s1)))
  ∧ (∀ ret_ msg rest v s,
       (∀ v' s', loop_pass printDividers v ret_ msg s = Ret (Continue v') s' →
                 read_loop printDividers ((ret_, msg) :: rest) v s
                 = read_loop printDividers rest v' s')
       ∧ (∀ code s', loop_pass printDividers v ret_ msg s = Exit code s' →
                     read_loop printDividers ((ret_, msg) :: rest) v s
                     = Exit code s'))
  ∧ (∀ reads v s code s',
       read_loop printDividers reads v s = Ret (Returned code) s' →
       code = 0
       ∧ ∃ before msg after,
           reads = before ++ (- EAGAIN, msg) :: after
           ∧ Forall (fun r => 0 < fst r) before)
  ∧ (∀ reads v s code s',
       read_loop printDividers reads v s = Exit code s' →
       exit_status code ≠ 0).
Proof.
  assert (∀ v ret_ msg s,
            ret_ = 0 ∨ (ret_ < 0 ∧ ret_ ≠ - EAGAIN) →
            ∃ s', loop_pass printDividers v ret_ msg s = Exit EXIT_FAILURE s'
                  ∧ exit_status EXIT_FAILURE ≠ 0
                  ∧ os_trace (sys s') = os_trace (sys s)) as Hbadread.
  { intros v ret_ msg s Hbad. unfold loop_pass.
    destruct (Z.eqb_spec ret_ 0) as [->|Hnz].
    { run. eexists. split; [reflexivity|done]. }
    destruct Hbad as [?|[Hneg Hne]]; [done|].
    destruct (Z.ltb_spec ret_ 0); [|lia].
    destruct (Z.eqb_spec ret_ (- EAGAIN)); [done|].
    destruct (ret_ =? - EIO); [run; eexists; split; [reflexivity|done]|].
    destruct (ret_ =? - EINVAL); run; eexists; (split; [reflexivity|done]). }
  split; [|split; [|split; [|split]]].
  - intros v ret_ msg s. split; [|split].
    + intros ->. reflexivity.
    + apply Hbadread.
    + apply loop_pass_record.
  - intros before ret_ msg after v s v1 s1 Hbefore Hle.
    rewrite (read_loop_app _ ((ret_, msg) :: after) _ _ _ _ Hbefore).
    cbn [read_loop]. split.
    + intros ->. reflexivity.
    + intros Hne.
      destruct (Hbadread v1 ret_ msg s1) as (s' & Hexit & _ & Ht); [lia|].
      exists s'. by rewrite (bind_Exit _ _ _ _ _ Hexit).
  - intros ret_ msg rest v s. split.
    + intros v' s' Hp. cbn [read_loop]. by rewrite (bind_Ret _ _ _ _ _ Hp).
    + intros code s' Hp. cbn [read_loop]. by rewrite (bind_Exit _ _ _ _ _ Hp).
  - intros reads. induction reads as [|[ret_ msg] rest IH]; intros v s code s' Hrun.
    { discriminate. }
    cbn [read_loop] in Hrun.
    destruct (Z.lt_trichotomy ret_ 0) as [Hneg|[->|Hpos]].
    + destruct (Z.eq_dec ret_ (- EAGAIN)) as [->|Hne].
      * cbn in Hrun. injection Hrun as <- <-. split; [done|].
        exists [], msg, rest. split; [done|constructor].
      * exfalso.
        destruct (Hbadread v ret_ msg s) as (s1 & Hexit & _); [lia|].
        rewrite (bind_Exit _ _ _ _ _ Hexit) in Hrun. discriminate.
    + discriminate.
    + destruct (loop_pass_record v ret_ msg s Hpos)
        as [(v' & s1 & Hr)|(c & s1 & Hr & _)].
      * rewrite (bind_Ret _ _ _ _ _ Hr) in Hrun.
        destruct (IH _ _ _ _ Hrun) as (-> & before & m & after & -> & Hall).
        split; [done|].
        exists ((ret_, msg) :: before), m, after. split; [done|].
        constructor; [exact Hpos|exact Hall].
      * rewrite (bind_Exit _ _ _ _ _ Hr) in Hrun. discriminate.
  - intros reads. induction reads as [|[ret_ msg] rest IH]; intros v s code s' Hrun.
    { discriminate. }
    cbn [read_loop] in Hrun.
    destruct (loop_pass printDividers v ret_ msg s) as [p s1|c s1] eqn:Hp.
    + rewrite (bind_Ret _ _ _ _ _ Hp) in Hrun. destruct p as [v'|]; [eauto|discriminate].
    + rewrite (bind_Exit _ _ _ _ _ Hp) in Hrun. injection Hrun as <- <-.
      destruct (Z.lt_trichotomy ret_ 0) as [Hneg|[->|Hpos]].
      * destruct (Z.eq_dec ret_ (- EAGAIN)) as [->|Hne]; [discriminate|].
        destruct (Hbadread v ret_ msg s) as (s2 & Hexit & Hnz & _); [lia|].
        rewrite Hexit in Hp. by injection Hp as <- _.
      * injection Hp as <- _. done.
      * destruct (loop_pass_record v ret_ msg s Hpos)
          as [(v' & s2 & Hr)|(c' & s2 & Hr & Hc)];
          rewrite Hr in Hp; [discriminate|]. injection Hp as <- _.
        by apply output_exit_nonzero.
Qed.
End ReadStatus.

(** ** Names in the device registry *)

Section RegistryNames.
Context `{LogIds}.

Lemma select_all_loop_names ids devs s :
  ∃ devs' s',
    select_all_loop ids devs s = Ret devs' s'
    ∧ names devs' =
      names devs ++
      (android_log_id_to_name
         <$> filter (λ i, android_name_to_log_id (android_log_id_to_name i) = i) ids).
Proof.
  revert devs s. induction ids as [|i ids IH]; intros devs s.
  - cbn. exists devs, s. split; [done|]. by rewrite app_nil_r.
  - cbn [select_all_loop]. unfold select_all_step.
    rewrite filter_cons.
    destruct (decide (android_name_to_log_id (android_log_id_to_name i) = i)) as [Heq|Hne].
    + case_bool_decide; [done|].
      unfold devCount_incr. run.
      edestruct IH as (devs' & s' & Hrun & Hnames). rewrite Hrun.
      do 2 eexists. split; [done|]. rewrite Hnames.
      unfold names. rewrite fmap_app, fmap_cons. cbn. by rewrite <- app_assoc.
    + case_bool_decide; [|done]. run. apply IH.
Qed.

Lemma resolved_names_NoDup ids :
  NoDup ids →
  NoDup (android_log_id_to_name
           <$> filter (λ i, android_name_to_log_id (android_log_id_to_name i) = i) ids).
Proof.
  intros Hnd. set (kept := filter _ ids).
  apply (NoDup_fmap_1 android_name_to_log_id).
  rewrite <- list_fmap_compose.
  assert (android_name_to_log_id ∘ android_log_id_to_name <$> kept = kept) as ->.
  { rewrite <- (list_fmap_id kept) at 2. apply list_fmap_ext.
    intros k i Hi. apply list_elem_of_lookup_2, list_elem_of_filter in Hi as [Hi _].
    exact Hi. }
  by apply NoDup_filter.
Qed.

(** C9, as amended.  After [-b all] the names in the registry are pairwise
    distinct, whatever was registered before, and so are the names of the
    default set.  Any other [-b name] puts [name] at the end of the list
    without looking for it there: the names stay distinct exactly when
    they were distinct and [name] was not among them. *)
Theorem registry_names :
  (∀ devs s, ∃ devs' s',
     option_b "all" devs s = Ret devs' s' ∧ NoDup (names devs'))
  ∧ (∀ s, ∃ devs' s',
       default_devices [] s = Ret devs' s' ∧ NoDup (names devs'))
  ∧ (∀ a devs s,
       a ≠ "all"%string →
       ∃ s', option_b a devs s
             = Ret (devs ++ [new_log_device_t a (bool_decide (a = "events"%string))]) s'
         ∧ (NoDup (names (devs ++ [new_log_device_t a (bool_decide (a = "events"%string))]))
            ↔ NoDup (names devs) ∧ a ∉ names devs)).
Proof.
  split; [|split].
  - intros devs s. unfold option_b. rewrite bool_decide_eq_true_2 by done. run.
    edestruct (select_all_loop_names (seqZ LOG_ID_MIN (Z.of_nat LOG_ID_MAX)) [])
      as (devs' & s' & -> & Hn).
    do 2 eexists. split; [done|]. rewrite Hn. cbn.
    apply resolved_names_NoDup, NoDup_seqZ.
  - intros s. unfold default_devices, devCount_incr. run.
    repeat case_bool_decide; run; do 2 eexists; (split; [done|]); cbn;
      apply (bool_decide_unpack _); by vm_compute.
  - intros a devs s Ha. unfold option_b, devCount_incr.
    rewrite bool_decide_eq_false_2 by done. run.
    eexists. split; [done|]. unfold names. rewrite fmap_app. cbn.
    rewrite NoDup_app. split.
    + intros (Hd & Hdis & _). split; [done|]. intros Hin. apply (Hdis _ Hin). constructor.
    + intros [Hd Hni]. split; [done|]. split; [|apply NoDup_singleton].
      intros x Hx Hx'. apply list_elem_of_singleton in Hx'. by subst.
Qed.
End RegistryNames.

(** C9 as stated fails: [-b main -b main] registers two devices named main. *)
Lemma duplicate_selection_registers_twice :
  ∃ devs s',
    options_b (H := std_ids) ["main"; "main"]%string [] (initial_state os_stdout_only)
      = Ret devs s'
    ∧ names devs = ["main"; "main"]%string
    ∧ ¬ NoDup (names devs).
Proof.
  do 2 eexists. split; [reflexivity|]. split; [reflexivity|].
  cbn. intros Hnd. apply NoDup_cons in Hnd as [Hni _]. apply Hni. constructor.
Qed.

(** ** The growing-buffer query *)

Lemma atol_range l : LONG_MIN ≤ atol l ≤ LONG_MAX.
Proof.
  unfold atol, LONG_MIN, LONG_MAX.
  destruct (skip_spaces l) as [|c l']; [lia|].
  repeat case_bool_decide; lia.
Qed.

Lemma declared_size_degenerate buf :
  declared_size buf < 4 ↔ -1 ≤ atol buf ≤ 2.
Proof.
  unfold declared_size, size_t.
  pose proof (atol_range buf) as Hr. unfold LONG_MIN, LONG_MAX in Hr.
  destruct (Z.le_gt_cases 0 (atol buf + 1)) as [Hnn|Hneg].
  - rewrite Z.mod_small by lia. lia.
  - replace (atol buf + 1) with (atol buf + 1 + 2 ^ 64 - 1 * 2 ^ 64) by lia.
    rewrite Zminus_mod, Z_mod_mult, Z.sub_0_r, Z.mod_mod by lia.
    rewrite Z.mod_small by lia. lia.
Qed.

Section GrowingBufferFacts.
Variable alloc : Z → bool.
Variable service : Z → Z → list ascii.

Lemma query_loop_attempts k len atts :
  ∃ caps,
    q_attempts (query_loop alloc service k len atts) = atts ++ caps
    ∧ grown_by_declared service (Z.of_nat k - 1) caps
    ∧ (caps = [] ∨ ∃ rest, caps = len :: rest).
Proof.
  revert len atts. induction k as [|k IH]; intros len atts.
  { exists []. cbn. rewrite app_nil_r. auto. }
  cbn [query_loop].
  destruct (alloc len); cbn [negb].
  2:{ exists []. cbn. rewrite app_nil_r. auto. }
  destruct (Z.ltb_spec (declared_size (terminate len (service (Z.of_nat k) len))) 4).
  { exists [len]. cbn. eauto. }
  destruct (Z.leb_spec (declared_size (terminate len (service (Z.of_nat k) len))) len).
  { exists [len]. cbn. eauto. }
  destruct (IH (declared_size (terminate len (service (Z.of_nat k) len))) (atts ++ [len]))
    as (caps & Heq & Hgrown & Hhead).
  exists (len :: caps). rewrite Heq, <- app_assoc. split; [done|]. split; [|eauto].
  destruct Hhead as [->|[rest ->]]; [done|].
  cbn [grown_by_declared].
  replace (Z.of_nat (S k) - 1) with (Z.of_nat k) by lia.
  split; [done|]. split; [lia|]. exact Hgrown.
Qed.

Lemma query_loop_grow k retry len atts :
  retry = Z.of_nat k →
  alloc len = true →
  4 ≤ declared_size (terminate len (service retry len)) →
  len < declared_size (terminate len (service retry len)) →
  query_loop alloc service (S k) len atts
    = query_loop alloc service k
        (declared_size (terminate len (service retry len))) (atts ++ [len]).
Proof.
  intros -> Ha Hfour Hgt. cbn [query_loop]. rewrite Ha. cbn [negb].
  destruct (Z.ltb_spec (declared_size (terminate len (service (Z.of_nat k) len))) 4);
    [lia|].
  destruct (Z.leb_spec (declared_size (terminate len (service (Z.of_nat k) len))) len);
    [lia|done].
Qed.

Lemma query_loop_accept k retry len atts :
  retry = Z.of_nat k →
  alloc len = true →
  4 ≤ declared_size (terminate len (service retry len)) →
  declared_size (terminate len (service retry len)) ≤ len →
  query_loop alloc service (S k) len atts
    = mkQueryEnd (BufLive (terminate len (service retry len)))
        (declared_size (terminate len (service retry len))) (atts ++ [len]).
Proof.
  intros -> Ha Hfour Hle. cbn [query_loop]. rewrite Ha. cbn [negb].
  destruct (Z.ltb_spec (declared_size (terminate len (service (Z.of_nat k) len))) 4);
    [lia|].
  destruct (Z.leb_spec (declared_size (terminate len (service (Z.of_nat k) len))) len);
    [done|lia].
Qed.

Lemma declared_size_count buf :
  0 ≤ atol buf → declared_size buf = atol buf + 1.
Proof.
  intros Hnn. pose proof (atol_range buf) as Hr. unfold LONG_MIN, LONG_MAX in Hr.
  unfold declared_size, size_t. rewrite Z.mod_small; lia.
Qed.

(** C4, as amended.  The size the source takes from a response is the
    count the response starts with plus one, for the terminator.  The
    capacities of the attempts start at 8192 and each later one is exactly
    that size for the response before.  So with a service whose responses
    start with the same count [n >= 8192] at both capacities, as one that
    declares [n] at every attempt does, there are exactly two attempts, at
    8192 and at [n + 1], and the second response is accepted; a count from
    3 to 8191 is accepted at once. *)
Theorem growing_buffer_two_attempts :
  (∀ buf, 0 ≤ atol buf → declared_size buf = atol buf + 1)
  ∧ (grown_by_declared service 32 (q_attempts (query alloc service))
     ∧ (q_attempts (query alloc service) = []
        ∨ ∃ rest, q_attempts (query alloc service) = 8192 :: rest))
  ∧ (∀ n,
       atol (terminate 8192 (service 32 8192)) = n →
       atol (terminate (n + 1) (service 31 (n + 1))) = n →
       8192 ≤ n →
       alloc 8192 = true →
       alloc (n + 1) = true →
       q_attempts (query alloc service) = [8192; n + 1]
       ∧ q_len (query alloc service) = n + 1
       ∧ q_buf (query alloc service)
         = BufLive (terminate (n + 1) (service 31 (n + 1))))
  ∧ (∀ n,
       atol (terminate 8192 (service 32 8192)) = n →
       3 ≤ n < 8192 →
       alloc 8192 = true →
       q_attempts (query alloc service) = [8192]
       ∧ q_len (query alloc service) = n + 1
       ∧ q_buf (query alloc service) = BufLive (terminate 8192 (service 32 8192))).
Proof.
  split; [exact declared_size_count|]. split; [|split].
  - destruct (query_loop_attempts 33 8192 []) as (caps & Heq & Hg & Hh).
    unfold query. rewrite Heq. cbn [app]. split; [exact Hg|exact Hh].
  - intros n Hn1 Hn2 Hbig Ha1 Ha2. unfold query.
    assert (declared_size (terminate 8192 (service 32 8192)) = n + 1) as Hd1
      by (rewrite declared_size_count; lia).
    assert (declared_size (terminate (n + 1) (service 31 (n + 1))) = n + 1) as Hd2
      by (rewrite declared_size_count; lia).
    rewrite (query_loop_grow 32 32 8192 []); [|reflexivity|exact Ha1|lia|lia].
    rewrite Hd1.
    rewrite (query_loop_accept 31 31 (n + 1)); [|reflexivity|exact Ha2|lia|lia].
    rewrite Hd2. done.
  - intros n Hn Hfit Ha. unfold query.
    assert (declared_size (terminate 8192 (service 32 8192)) = n + 1) as Hd
      by (rewrite declared_size_count; lia).
    rewrite (query_loop_accept 32 32 8192 []); [|reflexivity|exact Ha|lia|lia].
    rewrite Hd. done.
Qed.

(** C5, as amended.  The size the source derives from a response is its
    leading count plus one, and it is degenerate (below 4) exactly when
    the count is between -1 and 2.  The query then stops with no further
    attempt and a null buffer; and a null buffer makes the command report
    "failed to read data" and exit with [EXIT_FAILURE], a nonzero status,
    with nothing written: so does a first response that is degenerate. *)
Theorem degenerate_response_is_fatal :
  (∀ buf, declared_size buf < 4 ↔ -1 ≤ atol buf ≤ 2)
  ∧ (∀ k len atts,
       alloc len = true →
       declared_size (terminate len (service (Z.of_nat k) len)) < 4 →
       query_loop alloc service (S k) len atts
         = mkQueryEnd BufNull len (atts ++ [len]))
  ∧ (∀ s,
       q_buf (query alloc service) = BufNull →
       ∃ s', query_command alloc service s = Some (Exit EXIT_FAILURE s')
         ∧ exit_status EXIT_FAILURE ≠ 0
         ∧ os_trace (sys s') = os_trace (sys s)
         ∧ os_inodes (sys s') = os_inodes (sys s)
         ∧ os_stderr (sys s') = os_stderr (sys s) ++ ["failed to read data"%string])
  ∧ (∀ s,
       alloc 8192 = true →
       -1 ≤ atol (terminate 8192 (service 32 8192)) ≤ 2 →
       q_attempts (query alloc service) = [8192]
       ∧ ∃ s', query_command alloc service s = Some (Exit EXIT_FAILURE s')
           ∧ os_trace (sys s') = os_trace (sys s)
           ∧ os_stderr (sys s') = os_stderr (sys s) ++ ["failed to read data"%string]).
Proof.
  assert (∀ k len atts,
            alloc len = true →
            declared_size (terminate len (service (Z.of_nat k) len)) < 4 →
            query_loop alloc service (S k) len atts
            = mkQueryEnd BufNull len (atts ++ [len])) as Hstop.
  { intros k len atts Ha Hdeg. cbn [query_loop]. rewrite Ha. cbn [negb].
    destruct (Z.ltb_spec (declared_size (terminate len (service (Z.of_nat k) len))) 4);
      [done|lia]. }
  assert (∀ s,
            q_buf (query alloc service) = BufNull →
            ∃ s', query_command alloc service s = Some (Exit EXIT_FAILURE s')
              ∧ exit_status EXIT_FAILURE ≠ 0
              ∧ os_trace (sys s') = os_trace (sys s)
              ∧ os_inodes (sys s') = os_inodes (sys s)
              ∧ os_stderr (sys s')
                = os_stderr (sys s) ++ ["failed to read data"%string]) as Hfatal.
  { intros s Hnull. unfold query_command. rewrite Hnull. run.
    eexists. split; [reflexivity|]. cbn. done. }
  split; [exact declared_size_degenerate|]. split; [exact Hstop|].
  split; [exact Hfatal|].
  intros s Ha Hdeg. apply declared_size_degenerate in Hdeg.
  pose proof (Hstop 32%nat 8192 [] Ha Hdeg) as Hq.
  split; [unfold query; rewrite Hq; reflexivity|].
  destruct (Hfatal s) as (s' & Hrun & _ & Ht & _ & He).
  { unfold query. rewrite Hq. reflexivity. }
  exists s'. split; [exact Hrun|]. split; [exact Ht|exact He].
Qed.
End GrowingBufferFacts.

(** C4 as stated fails: a service that declares 9999 at every attempt is
    asked again with 10000 bytes, not 9999; and one that declares 8192,
    which is not more than the 8192 bytes it was given, is asked again
    all the same, with 8193. *)
Lemma retry_capacity_is_count_plus_one :
  atol (terminate 8192 (mock_response "9999" 8192)) = 9999
  ∧ q_attempts (query (fun _ => true) (fun _ => mock_response "9999"))
    = [8192; 10000]
  ∧ atol (terminate 8192 (mock_response "8192" 8192)) = 8192
  ∧ q_attempts (query (fun _ => true) (fun _ => mock_response "8192"))
    = [8192; 8193].
Proof. by vm_compute. Qed.

(** C5 as stated fails: a response whose leading count is 0 is degenerate,
    and the command exits with [EXIT_FAILURE], a nonzero status. *)
Lemma degenerate_response_exits_nonzero :
  atol (terminate 8192 (mock_response "0" 8192)) = 0
  ∧ ∃ s', query_command (fun _ => true) (fun _ => mock_response "0")
            (initial_state os_stdout_only)
          = Some (Exit EXIT_FAILURE s')
    ∧ exit_status EXIT_FAILURE ≠ 0.
Proof.
  split; [by vm_compute|].
  eexists. split; [by vm_compute|]. done.
Qed.

(** A service whose response always starts with the count 9999. *)
Lemma growing_buffer_two_attempts_witness :
  q_attempts (query (fun _ => true) (fun _ => mock_response "9999")) = [8192; 10000]
  ∧ q_len (query (fun _ => true) (fun _ => mock_response "9999")) = 10000
  ∧ q_buf (query (fun _ => true) (fun _ => mock_response "9999"))
    = BufLive (terminate 10000 (mock_response "9999" 10000)).
Proof.
  apply (proj1 (proj2 (proj2 (growing_buffer_two_attempts (fun _ => true)
                                (fun _ => mock_response "9999")))) 9999).
  - vm_compute. reflexivity.
  - vm_compute. reflexivity.
  - lia.
  - reflexivity.
  - reflexivity.
Defined.

(** ** The divider tracker *)

Lemma sys_write_trace fd data w :
  os_trace (sys_write fd data w).2 = os_trace w ++ [SysWrite fd data].
Proof.
  unfold sys_write. cbn.
  destruct (os_fault w _) as [e|]; [by destruct (e =? EINTR)|].
  destruct (os_fds w !! fd); done.
Qed.

(** A write leaves the descriptors, the directory and the diagnostics
    alone, and what the environment does to every other call. *)
Lemma sys_write_fds fd data w :
  os_fds (sys_write fd data w).2 = os_fds w
  ∧ os_dir (sys_write fd data w).2 = os_dir w
  ∧ (∀ c, c ≠ SysWrite fd data → os_fault (sys_write fd data w).2 c = os_fault w c)
  ∧ os_stderr (sys_write fd data w).2 = os_stderr w.
Proof.
  unfold sys_write. cbn.
  destruct (os_fault w _) as [e|].
  - destruct (e =? EINTR); cbn; split_and!; try done.
    intros c Hc. by rewrite decide_False.
  - destruct (os_fds w !! fd); done.
Qed.

(** A write that is let through leaves the environment as it was. *)
Lemma sys_write_fault fd data w :
  os_fault w (SysWrite fd data) = None →
  os_fault (sys_write fd data w).2 = os_fault w.
Proof.
  intros Hf. unfold sys_write. cbn. rewrite Hf.
  destruct (os_fds w !! fd); done.
Qed.

(** A write that fails returns -1, with [errno] telling why. *)
Lemma sys_write_result fd data w :
  match os_fault w (SysWrite fd data) with
  | Some e =>
      (sys_write fd data w).1 = -1 ∧ os_errno (sys_write fd data w).2 = e
      ∧ os_inodes (sys_write fd data w).2 = os_inodes w
  | None =>
      match os_fds w !! fd with
      | None =>
          (sys_write fd data w).1 = -1 ∧ os_errno (sys_write fd data w).2 = EBADF
          ∧ os_inodes (sys_write fd data w).2 = os_inodes w
      | Some _ =>
          (sys_write fd data w).1 = Z.of_nat (String.length data)
          ∧ os_errno (sys_write fd data w).2 = os_errno w
      end
  end.
Proof.
  unfold sys_write. cbn.
  destruct (os_fault w _) as [e|]; [by destruct (e =? EINTR)|].
  destruct (os_fds w !! fd); done.
Qed.

(** The two tests made on a failed write: they hold exactly when the
    environment made the call fail with that [errno]. *)
Lemma sys_write_tests fd data w :
  ((sys_write fd data w).1 <? 0) && (os_errno (sys_write fd data w).2 =? EPIPE)
  = bool_decide (os_fault w (SysWrite fd data) = Some EPIPE)
  ∧ ((sys_write fd data w).1 =? -1) && (os_errno (sys_write fd data w).2 =? EINTR)
    = bool_decide (os_fault w (SysWrite fd data) = Some EINTR).
Proof.
  pose proof (sys_write_result fd data w) as Hres.
  destruct (os_fault w (SysWrite fd data)) as [e|].
  - destruct Hres as (-> & -> & _). cbn [Z.ltb Z.compare Z.eqb andb].
    split; case_bool_decide as He.
    + injection He as ->. done.
    + apply Z.eqb_neq. congruence.
    + injection He as ->. done.
    + apply Z.eqb_neq. congruence.
  - rewrite !bool_decide_eq_false_2 by done.
    destruct (os_fds w !! fd).
    + destruct Hres as [-> _].
      destruct (Z.ltb_spec (Z.of_nat (String.length data)) 0); [lia|].
      destruct (Z.eqb_spec (Z.of_nat (String.length data)) (-1)); [lia|done].
    + destruct Hres as (-> & -> & _). done.
Qed.

(** A write made to fail otherwise than by an interruption leaves the
    environment as it was. *)
Lemma sys_write_fault_kept fd data w :
  os_fault w (SysWrite fd data) ≠ Some EINTR →
  os_fault (sys_write fd data w).2 = os_fault w.
Proof.
  intros Hf. unfold sys_write. cbn.
  destruct (os_fault w (SysWrite fd data)) as [e|].
  - destruct (Z.eqb_spec e EINTR) as [->|]; done.
  - destruct (os_fds w !! fd); done.
Qed.

(** A write that was interrupted is let through when made again. *)
Lemma sys_write_resumed fd data w :
  os_fault w (SysWrite fd data) = Some EINTR →
  os_fault (sys_write fd data w).2 (SysWrite fd data) = None.
Proof.
  intros Hf. unfold sys_write. cbn. rewrite Hf. cbn. by rewrite decide_True.
Qed.

(** One further pass is all [TEMP_FAILURE_RETRY] can take on a write: an
    interruption does not repeat. *)
Lemma temp_failure_retry_write n fd data s :
  temp_failure_retry (S n) (write fd data) s
  = temp_failure_retry 1 (write fd data) s.
Proof.
  cbn [temp_failure_retry]. unfold bind, get, ret. rewrite write_eq.
  destruct (sys_write_tests fd data (sys s)) as [Hp Hi].
  set (r1 := sys_write fd data (sys s)) in *.
  rewrite Hp. clear Hp.
  destruct (bool_decide (os_fault (sys s) (SysWrite fd data) = Some EPIPE)); [done|].
  cbn [sys set_sys]. rewrite Hi. clear Hi.
  case_bool_decide as Hintr; [|done].
  pose proof (sys_write_resumed _ _ _ Hintr) as Hres. fold r1 in Hres.
  destruct n as [|n]; [done|].
  cbn [temp_failure_retry]. unfold bind, get, ret. rewrite write_eq.
  cbn [sys set_sys].
  destruct (sys_write_tests fd data r1.2) as [Hp2 Hi2].
  rewrite Hp2. clear Hp2.
  destruct (bool_decide (os_fault r1.2 (SysWrite fd data) = Some EPIPE)); [done|].
  cbn [sys set_sys]. rewrite Hi2.
  rewrite bool_decide_eq_false_2; [done|]. by rewrite Hres.
Qed.

(** [maybePrintStart] spelled out. *)
Lemma maybePrintStart_eq dev pd s :
  let r := sys_write (g_outFD s) (banner dev) (sys s) in
  maybePrintStart dev pd s
  = (if negb (printed dev) || pd then
       if (1 <? g_devCount s) && (g_printBinary s =? 0) then
         if (r.1 <? 0) && (os_errno r.2 =? EPIPE) then Exit SIGPIPE (set_sys r.2 s)
         else if r.1 <? 0
              then Exit (-1) (set_sys (os_perror "output error" r.2) s)
              else Ret (set_printed true dev) (set_sys r.2 s)
       else Ret (set_printed true dev) s
     else Ret dev s).
Proof.
  cbv zeta. unfold maybePrintStart.
  destruct (negb (printed dev) || pd); [|done].
  unfold bind at 1. cbn [get]. unfold bind at 1.
  destruct ((1 <? g_devCount s) && (g_printBinary s =? 0)); [|done].
  unfold bind at 1. rewrite write_eq.
  destruct (sys_write _ _ _) as [n w]. cbn [fst snd].
  destruct ((n <? 0) && (os_errno w =? EPIPE)); [done|].
  by destruct (n <? 0).
Qed.

Lemma maybePrintStart_trace dev pd s :
  os_trace (sys (final_state (maybePrintStart dev pd s)))
  = os_trace (sys s)
    ++ (if emits dev pd s then [SysWrite (g_outFD s) (banner dev)] else []).
Proof.
  rewrite maybePrintStart_eq. cbv zeta. unfold emits.
  destruct (negb (printed dev) || pd); cbn [andb]; [|by rewrite app_nil_r].
  destruct ((1 <? g_devCount s) && (g_printBinary s =? 0)); [|by rewrite app_nil_r].
  pose proof (sys_write_trace (g_outFD s) (banner dev) (sys s)) as Ht.
  destruct (_ && _); [exact Ht|]. destruct (_ <? 0); exact Ht.
Qed.

Lemma maybePrintStart_device dev pd s d' s' :
  maybePrintStart dev pd s = Ret d' s' →
  d' = (if negb (printed dev) || pd then set_printed true dev else dev).
Proof.
  rewrite maybePrintStart_eq. cbv zeta.
  destruct (negb (printed dev) || pd); [|congruence].
  destruct ((1 <? g_devCount s) && (g_printBinary s =? 0)); [|congruence].
  destruct (_ && _); [done|]. destruct (_ <? 0); congruence.
Qed.

Lemma maybePrintStart_suppressed dev pd s :
  (1 <? g_devCount s) && (g_printBinary s =? 0) = false →
  maybePrintStart dev pd s
  = Ret (if negb (printed dev) || pd then set_printed true dev else dev) s.
Proof.
  intros Hs. rewrite maybePrintStart_eq. cbv zeta. rewrite Hs.
  by destruct (negb (printed dev) || pd).
Qed.

Lemma maybePrintStart_globals dev pd s :
  let s' := final_state (maybePrintStart dev pd s) in
  g_outputFileName s' = g_outputFileName s
  ∧ g_logRotateSizeKBytes s' = g_logRotateSizeKBytes s
  ∧ g_maxRotatedLogs s' = g_maxRotatedLogs s
  ∧ g_outFD s' = g_outFD s
  ∧ g_outByteCount s' = g_outByteCount s
  ∧ g_printBinary s' = g_printBinary s
  ∧ g_devCount s' = g_devCount s.
Proof.
  rewrite maybePrintStart_eq. cbv zeta.
  destruct (negb (printed dev) || pd); [|done].
  destruct ((1 <? g_devCount s) && (g_printBinary s =? 0)); [|done].
  destruct (_ && _); [done|]. by destruct (_ <? 0).
Qed.

Lemma banner_beginning dev :
  printed dev = false →
  banner dev
  = snprintf_1024 ("--------- beginning of " +:+ device dev +:+ newline)%string.
Proof. unfold banner. intros ->. reflexivity. Qed.

Lemma banner_switch dev :
  printed dev = true →
  banner dev
  = snprintf_1024 ("--------- switch to " +:+ device dev +:+ newline)%string.
Proof. unfold banner. intros ->. reflexivity. Qed.

Lemma banner_switch_ne_beginning dev :
  banner (set_printed true dev) ≠ banner (set_printed false dev).
Proof. unfold banner, snprintf_1024. cbn. discriminate. Qed.

Lemma deref_store_printed v r0 d r :
  (printed (deref v r0) = true → printed d = true) →
  printed (deref v r) = true →
  printed (deref (store v r0 d) r) = true.
Proof.
  intros Hmono Hr. destruct r0 as [i|], r as [j|]; cbn in *; try done.
  - destruct (decide (i = j)) as [->|Hne].
    + destruct (decide (j < List.length (devices v))%nat) as [Hlt|Hge].
      * rewrite list_lookup_insert_eq by done. cbn.
        destruct (lookup_lt_is_Some_2 (devices v) j Hlt) as [x Hx].
        rewrite Hx in Hmono, Hr. cbn in *. auto.
      * rewrite list_insert_ge by lia. done.
    + rewrite list_lookup_insert_ne by done. done.
  - destruct (devices v !! j); cbn in *; auto.
  - auto.
Qed.

Section LoopFacts.
Context `{LogIds} `{LogPrint}.
Variable printDividers : bool.

(** A record of the device the previous record came from: no call of
    [maybePrintStart], only the record's output. *)
Lemma loop_pass_same_device v ret_ msg s i :
  0 < ret_ →
  find_device (devices v) (msg_id msg) = Some i →
  dev v = Some (DevAt i) →
  loop_pass printDividers v ret_ msg s
  = ((if negb (g_printBinary s =? 0) then printBinary msg
      else processBuffer (deref v (DevAt i)) msg);;
     ret (Continue v)) s.
Proof.
  intros Hpos Hfind Hdev. unfold loop_pass.
  destruct (Z.eqb_spec ret_ 0); [lia|].
  destruct (Z.ltb_spec ret_ 0); [lia|].
  rewrite Hfind. run. rewrite Hdev.
  rewrite bool_decide_eq_false_2 by (intros Hc; by apply Hc). run. done.
Qed.

(** The flag [printed] of a device is never cleared by the loop. *)
Lemma loop_pass_printed v ret_ msg s v' s' r :
  loop_pass printDividers v ret_ msg s = Ret (Continue v') s' →
  printed (deref v r) = true →
  printed (deref v' r) = true.
Proof.
  unfold loop_pass.
  destruct (ret_ =? 0); [discriminate|].
  destruct (ret_ <? 0).
  { destruct (ret_ =? - EAGAIN); [discriminate|].
    destruct (ret_ =? - EIO); [discriminate|].
    destruct (ret_ =? - EINVAL); discriminate. }
  intros Hrun Hr.
  set (pick := match find_device _ _ with Some i => _ | None => _ end) in Hrun.
  assert (∃ d v1 s1, pick s = Ret (d, v1) s1 ∧ printed (deref v1 r) = true)
    as (d & v1 & s1 & Hpick & Hr1).
  { unfold pick. destruct (find_device _ _); run; [eauto 6|].
    do 3 eexists. split; [done|].
    apply (deref_store_printed v DevUnexpected _ r); [|done]. cbn. done. }
  rewrite (bind_Ret _ _ _ _ _ Hpick) in Hrun. cbn beta iota in Hrun.
  set (announce := if bool_decide _ then _ else _) in Hrun.
  assert (∀ v2 s2, announce s1 = Ret v2 s2 → printed (deref v2 r) = true) as Hann.
  { unfold announce. intros v2 s2. case_bool_decide; [|by intros [= <- _]].
    unfold bind. destruct (maybePrintStart _ _ _) as [d' s3|] eqn:Hm; [|done].
    intros [= <- _]. apply maybePrintStart_device in Hm.
    apply deref_store_printed; [|cbn; destruct r; exact Hr1].
    intros Hp. subst d'. destruct (negb _ || _); [done|exact Hp]. }
  destruct (announce s1) as [v2 s2|] eqn:Ha; [|by rewrite (bind_Exit _ _ _ _ _ Ha) in Hrun].
  rewrite (bind_Ret _ _ _ _ _ Ha) in Hrun. unfold bind in Hrun at 1. cbn in Hrun.
  unfold bind in Hrun.
  destruct (if negb _ then _ else _) as [[] s3|]; [|done].
  cbn in Hrun. injection Hrun as <- _. eauto.
Qed.
End LoopFacts.

(** ** Numbered backups *)

Lemma string_length_app (a b : string) :
  String.length (a +:+ b) = (String.length a + String.length b)%nat.
Proof. induction a as [|c a IH]; simpl; [done|]. by f_equal. Qed.


Lemma backup_name_ne name digits i : backup_name name digits i ≠ name.
Proof.
  unfold backup_name. intros Heq.
  apply (f_equal String.length) in Heq.
  rewrite !string_length_app in Heq. cbn in Heq. lia.
Qed.

Lemma decimal_go_length fuel n acc :
  0 ≤ n < 10 ^ Z.of_nat (S fuel) →
  Z.of_nat (String.length (decimal_go (S fuel) n acc))
  = ilog10_go (S fuel) n + 1 + Z.of_nat (String.length acc).
Proof.
  revert n acc. induction fuel as [|fuel IH]; intros n acc Hn.
  - cbn [decimal_go ilog10_go]. change (10 ^ Z.of_nat 1) with 10 in Hn.
    destruct (Z.ltb_spec n 10); [|lia]. cbn [String.length]. lia.
  - cbn [decimal_go ilog10_go] in *.
    destruct (Z.ltb_spec n 10) as [Hlt|Hge]; [cbn [String.length]; lia|].
    assert (0 ≤ n / 10 < 10 ^ Z.of_nat (S fuel)) as Hdiv.
    { split; [apply Z.div_pos; lia|].
      apply Z.div_lt_upper_bound; [lia|].
      replace (Z.of_nat (S (S fuel))) with (Z.succ (Z.of_nat (S fuel))) in Hn by lia.
      rewrite Z.pow_succ_r in Hn by lia. lia. }
    specialize (IH (n / 10) (String (digit_char (n mod 10)) acc) Hdiv).
    cbn [decimal_go ilog10_go] in IH. rewrite IH. cbn [String.length]. lia.
Qed.

Lemma ilog10_go_spec fuel n :
  1 ≤ n < 10 ^ Z.of_nat (S fuel) →
  0 ≤ ilog10_go (S fuel) n
  ∧ 10 ^ ilog10_go (S fuel) n ≤ n < 10 ^ (ilog10_go (S fuel) n + 1).
Proof.
  revert n. induction fuel as [|fuel IH]; intros n Hn.
  - cbn [ilog10_go]. change (10 ^ Z.of_nat 1) with 10 in Hn.
    destruct (Z.ltb_spec n 10); [|lia]. cbn. lia.
  - cbn [ilog10_go] in *.
    destruct (Z.ltb_spec n 10) as [Hlt|Hge]; [cbn; lia|].
    assert (1 ≤ n / 10 < 10 ^ Z.of_nat (S fuel)) as Hdiv.
    { split; [apply Z.div_le_lower_bound; lia|].
      apply Z.div_lt_upper_bound; [lia|].
      replace (Z.of_nat (S (S fuel))) with (Z.succ (Z.of_nat (S fuel))) in Hn by lia.
      rewrite Z.pow_succ_r in Hn by lia. lia. }
    destruct (IH (n / 10) Hdiv) as (Hnn & Hlo & Hhi).
    set (r := if n / 10 <? 10 then 0 else 1 + ilog10_go fuel (n / 10 / 10)) in *.
    split; [lia|].
    replace (1 + r) with (Z.succ r) by lia.
    replace (Z.succ r + 1) with (Z.succ (r + 1)) by lia.
    rewrite !Z.pow_succ_r by lia.
    pose proof (Z.div_mod n 10 ltac:(lia)) as Hdm.
    pose proof (Z.mod_pos_bound n 10 ltac:(lia)) as Hmod.
    lia.
Qed.

Lemma log2_fuel n : 1 ≤ n → n < 10 ^ Z.of_nat (S (Z.to_nat (Z.log2 n))).
Proof.
  intros Hn.
  pose proof (Z.log2_nonneg n) as Hnn.
  destruct (Z.log2_spec n ltac:(lia)) as [_ Hhi].
  rewrite Nat2Z.inj_succ, Z2Nat.id by done.
  eapply Z.lt_le_trans; [exact Hhi|].
  apply Z.pow_le_mono_l. lia.
Qed.

Lemma ilog10_spec n :
  1 ≤ n → 0 ≤ ilog10 n ∧ 10 ^ ilog10 n ≤ n < 10 ^ (ilog10 n + 1).
Proof. intros Hn. apply ilog10_go_spec. split; [done|by apply log2_fuel]. Qed.

Lemma ilog10_mono i k : 1 ≤ i ≤ k → ilog10 i ≤ ilog10 k.
Proof.
  intros [Hi Hik].
  destruct (ilog10_spec i Hi) as (Hi0 & Hilo & _).
  destruct (ilog10_spec k ltac:(lia)) as (Hk0 & _ & Hkhi).
  assert (10 ^ ilog10 i < 10 ^ (ilog10 k + 1)) as Hlt by lia.
  apply Z.pow_lt_mono_r_iff in Hlt; lia.
Qed.

Lemma decimal_length n :
  1 ≤ n → Z.of_nat (String.length (decimal n)) = ilog10 n + 1.
Proof.
  intros Hn. unfold decimal, ilog10.
  rewrite decimal_go_length; [cbn [String.length]; lia|].
  split; [lia|by apply log2_fuel].
Qed.



(** ** The shift of [rotateLogs] *)

Lemma lowest_unused_ge fds fuel n : n ≤ lowest_unused fds fuel n.
Proof.
  revert n. induction fuel as [|fuel IH]; intros n; cbn; [lia|].
  destruct (fds !! n); [|lia]. specialize (IH (n + 1)). lia.
Qed.

Lemma fresh_fd_nonneg fds : 0 ≤ fresh_fd fds.
Proof. apply lowest_unused_ge. Qed.

Lemma set_sys_set_sys w w' s : set_sys w' (set_sys w s) = set_sys w' s.
Proof. reflexivity. Qed.

Lemma rotate_step_eq name digits i s :
  rotate_step name digits i s
  = Ret tt
      (set_sys
         (let w := (sys_rename (shift_source name digits i)
                      (backup_name name digits i) (sys s)).2 in
          if reported (shift_source name digits i) (backup_name name digits i) (sys s)
          then os_perror "while rotating log files" w else w)
         s).
Proof.
  unfold rotate_step, reported, sys_rename. run.
  set (src := shift_source name digits i).
  destruct (os_fault (sys s) (SysRename src _)) as [e|]; cbn.
  - destruct (e =? ENOENT); done.
  - destruct (os_dir (sys s) !! src); done.
Qed.

Lemma sys_rename_frame src dst w :
  let w' := (sys_rename src dst w).2 in
  os_trace w' = os_trace w ++ [SysRename src dst]
  ∧ os_inodes w' = os_inodes w
  ∧ os_fds w' = os_fds w
  ∧ os_fault w' = os_fault w
  ∧ os_stderr w' = os_stderr w.
Proof.
  unfold sys_rename. cbn.
  destruct (os_fault w _); [done|]. destruct (os_dir w !! src); done.
Qed.

Lemma sys_rename_dir_other src dst w p :
  p ≠ src → p ≠ dst →
  os_dir (sys_rename src dst w).2 !! p = os_dir w !! p.
Proof.
  intros Hs Hd. unfold sys_rename. cbn.
  destruct (os_fault w _); [done|]. destruct (os_dir w !! src); [|done].
  cbn. rewrite lookup_insert_ne, lookup_delete_ne by done. done.
Qed.

Lemma sys_rename_dir_moved src dst w :
  src ≠ dst →
  os_fault w (SysRename src dst) = None →
  os_dir (sys_rename src dst w).2 !! src = None
  ∧ ∀ ino, os_dir w !! src = Some ino →
           os_dir (sys_rename src dst w).2 !! dst = Some ino.
Proof.
  intros Hne Hf. unfold sys_rename. cbn. rewrite Hf.
  destruct (os_dir w !! src) as [ino|] eqn:Hsrc; cbn.
  - rewrite lookup_insert_ne, lookup_delete_eq by done. split; [done|].
    intros ? [= <-]. by rewrite lookup_insert_eq.
  - done.
Qed.

Lemma rotate_loop_spec name digits n s :
  ∃ w',
    rotate_loop name digits n s = Ret tt (set_sys w' s)
    ∧ os_trace w'
      = os_trace (sys s)
        ++ ((λ i, SysRename (shift_source name digits i) (backup_name name digits i))
              <$> reverse (seqZ 1 (Z.of_nat n)))
    ∧ os_inodes w' = os_inodes (sys s)
    ∧ os_fds w' = os_fds (sys s)
    ∧ os_fault w' = os_fault (sys s)
    ∧ (∃ m, os_stderr w'
            = os_stderr (sys s) ++ replicate m "while rotating log files"%string
          ∧ (m ≤ n)%nat)
    ∧ ((1 ≤ n)%nat →
       os_fault (sys s) (SysRename name (backup_name name digits 1)) = None →
       os_dir w' !! name = None
       ∧ ∀ ino, os_dir (sys s) !! name = Some ino →
                os_dir w' !! backup_name name digits 1 = Some ino).
Proof.
  revert s. induction n as [|n IH]; intros s.
  { exists (sys s). cbn. rewrite app_nil_r. destruct s; cbn.
    split; [done|]. repeat (split; [done|]). split; [|lia].
    exists 0%nat. cbn. by rewrite app_nil_r. }
  cbn [rotate_loop]. rewrite (bind_Ret _ _ _ _ _ (rotate_step_eq _ _ _ _)).
  set (src := shift_source name digits (Z.of_nat (S n))).
  set (dst := backup_name name digits (Z.of_nat (S n))).
  set (w1 := if reported src dst (sys s) then _ else _).
  destruct (sys_rename_frame src dst (sys s)) as (Ht & Hi & Hfd & Hfa & He).
  assert (os_trace w1 = os_trace (sys s) ++ [SysRename src dst]
          ∧ os_inodes w1 = os_inodes (sys s)
          ∧ os_fds w1 = os_fds (sys s)
          ∧ os_fault w1 = os_fault (sys s)
          ∧ os_dir w1 = os_dir (sys_rename src dst (sys s)).2
          ∧ ∃ m, os_stderr w1
                 = os_stderr (sys s) ++ replicate m "while rotating log files"%string
               ∧ (m ≤ 1)%nat)
    as (Ht1 & Hi1 & Hfd1 & Hfa1 & Hd1 & m1 & He1 & Hm1).
  { unfold w1. destruct (reported src dst (sys s)); cbn.
    - repeat (split; [done|]). exists 1%nat. cbn. rewrite He. split; [done|lia].
    - repeat (split; [done|]). exists 0%nat. cbn. rewrite app_nil_r. split; [done|lia]. }
  destruct (IH (set_sys w1 s)) as (w' & Hrun & Ht' & Hi' & Hfd' & Hfa' & (m & He' & Hm) & Hdir).
  cbn [sys set_sys] in *.
  exists w'. split; [exact Hrun|].
  split.
  { rewrite Ht', Ht1, seqZ_S, reverse_snoc, fmap_cons, <- app_assoc.
    replace (1 + Z.of_nat n) with (Z.of_nat (S n)) by lia. done. }
  split; [congruence|]. split; [congruence|]. split; [congruence|].
  split.
  { exists (m1 + m)%nat. split; [|lia].
    rewrite He', He1, <- app_assoc, replicate_add. done. }
  intros _ Hnf.
  destruct n as [|n].
  - (* the last step: the bare name moves to index 1 *)
    cbn in Hrun. injection Hrun as ->. rewrite Hd1.
    unfold src, dst, shift_source. cbn.
    apply sys_rename_dir_moved; [|done].
    intros Heq. by apply (backup_name_ne name digits 1).
  - (* an earlier step leaves the bare name alone *)
    assert (os_dir w1 !! name = os_dir (sys s) !! name) as Hkeep.
    { rewrite Hd1. apply sys_rename_dir_other.
      - unfold src, shift_source.
        destruct (Z.eqb_spec (Z.of_nat (S (S n)) - 1) 0); [lia|].
        intros Heq. symmetry in Heq. by apply backup_name_ne in Heq.
      - intros Heq. symmetry in Heq. by apply backup_name_ne in Heq. }
    destruct (Hdir ltac:(lia) ltac:(by rewrite Hfa1)) as [Hnone Hmoved].
    split; [done|]. intros ino Hino. apply Hmoved. by rewrite Hkeep.
Qed.

Lemma sys_open_spec path w :
  os_trace (sys_open path w).2 = os_trace w ++ [SysOpen path]
  ∧ os_stderr (sys_open path w).2 = os_stderr w
  ∧ os_fault (sys_open path w).2 = os_fault w
  ∧ (∀ e, os_fault w (SysOpen path) = Some e → (sys_open path w).1 = -1)
  ∧ (os_fault w (SysOpen path) = None →
     0 ≤ (sys_open path w).1
     ∧ ∃ ino,
         os_fds (sys_open path w).2 !! (sys_open path w).1 = Some ino
         ∧ os_dir (sys_open path w).2 !! path = Some ino
         ∧ (os_dir w !! path = None →
            ino = List.length (os_inodes w)
            ∧ os_inodes (sys_open path w).2 = os_inodes w ++ [EmptyString])
         ∧ (is_Some (os_dir w !! path) →
            os_dir w !! path = Some ino
            ∧ os_inodes (sys_open path w).2 = os_inodes w)).
Proof.
  unfold sys_open. cbn.
  destruct (os_fault w (SysOpen path)) as [e|]; cbn.
  { do 3 (split; [done|]). split; [done|]. intros [=]. }
  destruct (os_dir w !! path) as [ino|] eqn:Hp; cbn.
  - do 3 (split; [done|]). split; [intros ? [=]|]. intros _.
    split; [apply fresh_fd_nonneg|].
    exists ino. rewrite lookup_insert_eq. split; [done|]. split; [done|].
    split; [intros [=]|]. done.
  - do 3 (split; [done|]). split; [intros ? [=]|]. intros _.
    split; [apply fresh_fd_nonneg|].
    exists (List.length (os_inodes w)). rewrite !lookup_insert_eq.
    split; [done|]. split; [done|]. split; [done|]. intros [? [=]].
Qed.

(** [rotateLogs] with a pathname, step by step. *)
Lemma rotateLogs_eq s name :
  g_outputFileName s = Some name →
  ∃ w1,
    rotate_loop name (maxRotationCountDigits (g_maxRotatedLogs s))
      (Z.to_nat (g_maxRotatedLogs s))
      (set_sys (sys_close (g_outFD s) (sys s)) s)
    = Ret tt (set_sys w1 s)
    ∧ rotateLogs s
      = (if (sys_open name w1).1 <? 0
         then Exit (-1)
                (set_sys (os_perror "couldn't open output file" (sys_open name w1).2)
                   (set_outFD (sys_open name w1).1 s))
         else Ret tt
                (set_outByteCount 0
                   (set_sys (sys_open name w1).2 (set_outFD (sys_open name w1).1 s)))).
Proof.
  intros Hname.
  destruct (rotate_loop_spec name (maxRotationCountDigits (g_maxRotatedLogs s))
              (Z.to_nat (g_maxRotatedLogs s))
              (set_sys (sys_close (g_outFD s) (sys s)) s)) as (w1 & Hrun & _).
  rewrite set_sys_set_sys in Hrun.
  exists w1. split; [exact Hrun|].
  unfold rotateLogs. run. rewrite Hname. run. rewrite Hrun. run.
  destruct (sys_open name w1) as [fd w2]. cbn.
  destruct (fd <? 0); reflexivity.
Qed.


(** ** Where a record lands *)

(** What [rotateLogs] does to the files when neither the last rename nor the
    open is made to fail: the bare name designates a new, empty inode, on
    which [g_outFD] is open, and index 1 designates the old one. *)
Lemma rotateLogs_fresh s name :
  g_outputFileName s = Some name →
  1 ≤ g_maxRotatedLogs s →
  let first := backup_name name (maxRotationCountDigits (g_maxRotatedLogs s)) 1 in
  os_fault (sys s) (SysRename name first) = None →
  os_fault (sys s) (SysOpen name) = None →
  ∃ s',
    rotateLogs s = Ret tt s'
    ∧ g_outByteCount s' = 0
    ∧ os_fds (sys s') !! g_outFD s' = Some (List.length (os_inodes (sys s)))
    ∧ os_dir (sys s') !! name = Some (List.length (os_inodes (sys s)))
    ∧ os_inodes (sys s') = os_inodes (sys s) ++ [EmptyString]
    ∧ ∀ ino, os_dir (sys s) !! name = Some ino → os_dir (sys s') !! first = Some ino.
Proof.
  intros Hname Hk first Hren Hopen.
  destruct (rotateLogs_eq s name Hname) as (w1 & Hloop & Hrot).
  destruct (rotate_loop_spec name (maxRotationCountDigits (g_maxRotatedLogs s))
              (Z.to_nat (g_maxRotatedLogs s))
              (set_sys (sys_close (g_outFD s) (sys s)) s))
    as (w1' & Hloop' & _ & Hi & _ & Hfa & _ & Hdir).
  rewrite Hloop in Hloop'. injection Hloop' as Heq. subst w1'.
  unfold sys_close, os_log in Hi, Hfa, Hdir.
  cbn [sys set_sys os_dir os_inodes os_fds os_fault os_trace os_stderr] in Hi, Hfa, Hdir.
  fold first in Hdir.
  destruct (Hdir ltac:(lia) Hren) as [Hgone Hmoved].
  destruct (sys_open_spec name w1) as (_ & _ & _ & _ & Hook).
  rewrite Hfa in Hook. destruct (Hook Hopen) as (Hnn & ino' & Hfdl & Hdirl & Hnew & _).
  destruct (Hnew Hgone) as [-> Hin].
  eexists. split.
  { rewrite Hrot. destruct (Z.ltb_spec (sys_open name w1).1 0); [lia|reflexivity]. }
  cbn. rewrite <- Hi. split; [done|]. split; [exact Hfdl|]. split; [exact Hdirl|].
  split; [exact Hin|].
  intros ino Hino. specialize (Hmoved ino Hino).
  unfold sys_open. cbn. rewrite Hfa, Hopen, Hgone. cbn.
  rewrite lookup_insert_ne; [exact Hmoved|].
  intros Heq. symmetry in Heq. by apply backup_name_ne in Heq.
Qed.

(** [rotateLogs] leaves the contents of the inodes as they are. *)
Lemma rotateLogs_inodes s :
  ∃ tail, os_inodes (sys (final_state (rotateLogs s))) = os_inodes (sys s) ++ tail.
Proof.
  destruct (g_outputFileName s) as [name|] eqn:Hname.
  2:{ rewrite rotateLogs_no_file by done. exists []. by rewrite app_nil_r. }
  destruct (rotateLogs_eq s name Hname) as (w1 & Hloop & Hrot).
  destruct (rotate_loop_spec name (maxRotationCountDigits (g_maxRotatedLogs s))
              (Z.to_nat (g_maxRotatedLogs s))
              (set_sys (sys_close (g_outFD s) (sys s)) s))
    as (w1' & Hloop' & _ & Hi & _).
  rewrite Hloop in Hloop'. injection Hloop' as Heq. subst w1'.
  unfold sys_close, os_log in Hi. cbn in Hi.
  assert (os_inodes (sys (final_state (rotateLogs s))) = os_inodes (sys_open name w1).2)
    as ->.
  { rewrite Hrot. destruct (_ <? 0); reflexivity. }
  unfold sys_open. cbn. rewrite <- Hi.
  destruct (os_fault w1 _); cbn; [exists []; by rewrite app_nil_r|].
  destruct (os_dir w1 !! name); cbn; [exists []; by rewrite app_nil_r|].
  by eexists.
Qed.

(** The calls of [rotateLogs] start with closing [g_outFD]. *)
Lemma rotateLogs_trace s :
  ∃ rest,
    os_trace (sys (final_state (rotateLogs s))) = os_trace (sys s) ++ rest
    ∧ (rest = [] ∨ ∃ rest', rest = SysClose (g_outFD s) :: rest').
Proof.
  destruct (g_outputFileName s) as [name|] eqn:Hname.
  2:{ rewrite rotateLogs_no_file by done. exists []. rewrite app_nil_r. auto. }
  destruct (rotateLogs_eq s name Hname) as (w1 & Hloop & Hrot).
  destruct (rotate_loop_spec name (maxRotationCountDigits (g_maxRotatedLogs s))
              (Z.to_nat (g_maxRotatedLogs s))
              (set_sys (sys_close (g_outFD s) (sys s)) s))
    as (w1' & Hloop' & Ht & _).
  rewrite Hloop in Hloop'. injection Hloop' as Heq. subst w1'.
  unfold sys_close, os_log in Ht. cbn in Ht.
  destruct (sys_open_spec name w1) as (Hot & _).
  assert (os_trace (sys (final_state (rotateLogs s))) = os_trace (sys_open name w1).2)
    as ->.
  { rewrite Hrot. destruct (_ <? 0); reflexivity. }
  rewrite Hot, Ht, <- !app_assoc. eexists. split; [reflexivity|]. right.
  cbn. by eexists.
Qed.

Lemma sys_write_appends fd data w ino old :
  os_fault w (SysWrite fd data) = None →
  os_fds w !! fd = Some ino →
  os_inodes w !! ino = Some old →
  (sys_write fd data w).1 = Z.of_nat (String.length data)
  ∧ os_inodes (sys_write fd data w).2 !! ino = Some (old +:+ data)%string
  ∧ List.length (os_inodes (sys_write fd data w).2) = List.length (os_inodes w).
Proof.
  intros Hf Hfd Hold. unfold sys_write. cbn. rewrite Hf, Hfd, Hold. cbn.
  split; [done|]. rewrite length_insert. split; [|done].
  apply list_lookup_insert_eq. by eapply lookup_lt_Some.
Qed.

(** With no backup to keep, [rotateLogs] opens again the file it closed. *)
Lemma rotateLogs_reopen s name ino :
  g_outputFileName s = Some name →
  g_maxRotatedLogs s ≤ 0 →
  os_fault (sys s) (SysOpen name) = None →
  os_dir (sys s) !! name = Some ino →
  ∃ s',
    rotateLogs s = Ret tt s'
    ∧ os_dir (sys s') = os_dir (sys s)
    ∧ os_inodes (sys s') = os_inodes (sys s)
    ∧ os_fds (sys s') !! g_outFD s' = Some ino
    ∧ g_outByteCount s' = 0.
Proof.
  intros Hname Hk Hopen Hino.
  destruct (rotateLogs_eq s name Hname) as (w1 & Hloop & ->).
  replace (Z.to_nat (g_maxRotatedLogs s)) with 0%nat in Hloop by lia.
  cbn [rotate_loop] in Hloop. injection Hloop as Hw.
  assert (w1 = sys_close (g_outFD s) (sys s)) as -> by (by rewrite <- Hw).
  clear Hw. set (w1 := sys_close (g_outFD s) (sys s)).
  assert (os_fault w1 (SysOpen name) = None) as Hopen1 by done.
  assert (os_dir w1 !! name = Some ino) as Hino1 by done.
  destruct (sys_open_spec name w1) as (_ & _ & _ & _ & Hok).
  destruct (Hok Hopen1) as (Hfd & ino' & Hfds & Hdir & _ & Hsame).
  destruct (Hsame ltac:(by eexists)) as [Hino' Hinodes].
  assert (ino' = ino) as -> by congruence.
  destruct (Z.ltb_spec (sys_open name w1).1 0); [lia|].
  eexists. split; [done|].
  cbn [sys set_sys set_outByteCount set_outFD g_outFD g_outByteCount].
  rewrite Hinodes. split_and!; try done.
  unfold sys_open. cbn [os_log os_fault os_dir].
  change (os_fault (sys s) (SysOpen name)) with (os_fault w1 (SysOpen name)).
  rewrite Hopen1. change (os_dir (sys s)) with (os_dir w1). by rewrite Hino1.
Qed.

Section WriteThenRotate.
Context `{LogPrint}.

(** [processBuffer] on a record that decodes and passes the filter. *)
Lemma processBuffer_printed dev buf s entry :
  (if binary dev then android_log_processBinaryLogBuffer buf
   else android_log_processLogBuffer buf) = Some entry →
  android_log_shouldPrintLine entry = true →
  let line := android_log_formatLogLine entry in
  let n := (sys_write (g_outFD s) line (sys s)).1 in
  let w1 := (sys_write (g_outFD s) line (sys s)).2 in
  let s2 := set_outByteCount (off_wrap (g_outByteCount s + n)) (set_sys w1 s) in
  processBuffer dev buf s
  = (if (n <? 0) && (os_errno w1 =? EPIPE) then Exit SIGPIPE (set_sys w1 s)
     else if n <? 0 then Exit (-1) (set_sys (os_perror "output error" w1) s)
     else if (0 <? g_logRotateSizeKBytes s)
             && (g_logRotateSizeKBytes s <=? Z.quot (g_outByteCount s2) 1024)
          then rotateLogs s2 else Ret tt s2).
Proof.
  intros Hdec Hpr line n w1 s2. unfold processBuffer. rewrite Hdec, Hpr.
  unfold android_log_printLogLine.
  unfold bind at 1. unfold bind at 1. cbn [get]. unfold bind at 1.
  rewrite write_eq. subst s2 n w1 line.
  destruct (sys_write _ _ _) as [n w1]. cbn [fst snd].
  destruct ((n <? 0) && (os_errno w1 =? EPIPE)); [done|].
  destruct (n <? 0); run; [done|].
  destruct (_ && _); done.
Qed.

(** C1, as amended.  A record that decodes and passes the filter is
    written to the descriptor [g_outFD] holds on entry before anything
    else: the write is the first call made.  A write that fails ends the
    process, with the status of the SIGPIPE handler on a broken pipe and
    with -1 after "output error" otherwise.  A write that succeeds raises
    the counter by the bytes written, and [rotateLogs] runs on the
    resulting state exactly when [g_logRotateSizeKBytes > 0] and the
    counter divided by 1024 reaches it; its calls, which start with
    closing that descriptor, come after the write.  So the line is at the
    end of the file that was open on entry, rotated or not.  After a
    rotation that keeps at least one backup (and whose last rename and
    open are not made to fail) that file is the one index 1 designates,
    while [g_outFD] is open on another, empty file with the counter at
    zero; after a rotation that keeps none, the file opened is the same
    file, which holds the line, with the counter at zero. *)
Theorem write_precedes_rotation dev buf s entry :
  (if binary dev then android_log_processBinaryLogBuffer buf
   else android_log_processLogBuffer buf) = Some entry →
  android_log_shouldPrintLine entry = true →
  let line := android_log_formatLogLine entry in
  let fd := g_outFD s in
  let n := (sys_write fd line (sys s)).1 in
  let w1 := (sys_write fd line (sys s)).2 in
  let s2 := set_outByteCount (off_wrap (g_outByteCount s + n)) (set_sys w1 s) in
  let triggered :=
    (0 <? g_logRotateSizeKBytes s)
    && (g_logRotateSizeKBytes s <=? Z.quot (g_outByteCount s2) 1024) in
  let r := processBuffer dev buf s in
  (n < 0 →
   r = if os_errno w1 =? EPIPE then Exit SIGPIPE (set_sys w1 s)
       else Exit (-1) (set_sys (os_perror "output error" w1) s))
  ∧ (0 ≤ n → r = if triggered then rotateLogs s2 else Ret tt s2)
  ∧ (∃ rest,
       os_trace (sys (final_state r)) = os_trace (sys s) ++ SysWrite fd line :: rest
       ∧ (rest = []
          ∨ (triggered = true ∧ ∃ rest', rest = SysClose fd :: rest')))
  ∧ (∀ ino old,
       os_fault (sys s) (SysWrite fd line) = None →
       os_fds (sys s) !! fd = Some ino →
       os_inodes (sys s) !! ino = Some old →
       os_inodes (sys (final_state r)) !! ino = Some (old +:+ line)%string
       ∧ ∀ name,
           triggered = true →
           g_outputFileName s = Some name →
           os_dir (sys s) !! name = Some ino →
           os_fault (sys s) (SysOpen name) = None →
           (1 ≤ g_maxRotatedLogs s →
            let first :=
              backup_name name (maxRotationCountDigits (g_maxRotatedLogs s)) 1 in
            os_fault (sys s) (SysRename name first) = None →
            ∃ s' ino',
              r = Ret tt s'
              ∧ g_outByteCount s' = 0
              ∧ os_dir (sys s') !! first = Some ino
              ∧ os_dir (sys s') !! name = Some ino'
              ∧ os_fds (sys s') !! g_outFD s' = Some ino'
              ∧ ino' ≠ ino
              ∧ os_inodes (sys s') !! ino' = Some EmptyString)
           ∧ (g_maxRotatedLogs s ≤ 0 →
              ∃ s',
                r = Ret tt s'
                ∧ g_outByteCount s' = 0
                ∧ os_dir (sys s') !! name = Some ino
                ∧ os_fds (sys s') !! g_outFD s' = Some ino
                ∧ os_inodes (sys s') !! ino = Some (old +:+ line)%string)).
Proof.
  intros Hdec Hpr line fd n w1 s2 triggered r.
  pose proof (processBuffer_printed dev buf s entry Hdec Hpr) as Heq.
  cbn zeta in Heq. fold line fd in Heq. fold n w1 in Heq. fold s2 in Heq.
  fold triggered r in Heq.
  pose proof (sys_write_trace fd line (sys s)) as Hwt. fold w1 in Hwt.
  destruct (sys_write_fds fd line (sys s)) as (Hwfds & Hwdir & Hwfault & _).
  fold w1 in Hwfds, Hwdir, Hwfault.
  split; [|split; [|split]].
  - intros Hneg. rewrite Heq. destruct (Z.ltb_spec n 0); [|lia]. cbn [andb].
    by destruct (os_errno w1 =? EPIPE).
  - intros Hnn. rewrite Heq. destruct (Z.ltb_spec n 0); [lia|done].
  - rewrite Heq. destruct (n <? 0); cbn [andb].
    { exists []. destruct (os_errno w1 =? EPIPE); cbn; (split; [exact Hwt|by left]). }
    destruct triggered eqn:Htrig.
    + destruct (rotateLogs_trace s2) as (rest & Hrt & Hrest).
      exists rest. rewrite Hrt. cbn [sys s2 set_outByteCount set_sys].
      rewrite Hwt, <- app_assoc. split; [done|].
      destruct Hrest as [->|[rest' ->]]; [by left|right]. split; [done|by eexists].
    + exists []. cbn. split; [exact Hwt|by left].
  - intros ino old Hnf Hfd Hold.
    destruct (sys_write_appends fd line (sys s) ino old Hnf Hfd Hold)
      as (Hn & Hnew & Hlen).
    fold n in Hn. fold w1 in Hnew, Hlen.
    assert (0 ≤ n) as Hnn by lia.
    assert (r = if triggered then rotateLogs s2 else Ret tt s2) as Hr.
    { rewrite Heq. destruct (Z.ltb_spec n 0); [lia|done]. }
    split.
    + rewrite Hr. destruct triggered; [|exact Hnew].
      destruct (rotateLogs_inodes s2) as [tail ->].
      cbn [sys s2 set_outByteCount set_sys].
      by apply lookup_app_l_Some.
    + intros name Htrig Hname Hdir Hopen.
      rewrite Hr, Htrig. split.
      * intros Hk first Hren.
        destruct (rotateLogs_fresh s2 name Hname Hk)
          as (s' & Hrun & Hc & Hfdl & Hdirl & Hin & Hmoved).
        { cbn [sys s2 set_outByteCount set_sys]. by rewrite Hwfault. }
        { cbn [sys s2 set_outByteCount set_sys]. by rewrite Hwfault. }
        cbn [sys s2 set_outByteCount set_sys g_maxRotatedLogs] in Hfdl, Hdirl, Hin, Hmoved.
        exists s', (List.length (os_inodes w1)).
        split; [exact Hrun|]. split; [exact Hc|].
        split; [apply Hmoved; by rewrite Hwdir|].
        split; [exact Hdirl|]. split; [exact Hfdl|].
        split.
        -- apply lookup_lt_Some in Hnew. lia.
        -- rewrite Hin. by apply list_lookup_middle.
      * intros Hk.
        destruct (rotateLogs_reopen s2 name ino Hname Hk)
          as (s' & Hrun & Hd' & Hi' & Hfd' & Hc').
        { cbn [sys s2 set_outByteCount set_sys]. by rewrite Hwfault. }
        { cbn [sys s2 set_outByteCount set_sys]. by rewrite Hwdir. }
        cbn [sys s2 set_outByteCount set_sys] in Hd', Hi'.
        exists s'. split; [exact Hrun|]. split; [exact Hc'|].
        split; [by rewrite Hd', Hwdir|]. split; [exact Hfd'|].
        by rewrite Hi'.
Qed.
End WriteThenRotate.

(** C1 as stated fails with no backup to keep.  [logcat -f out -r 1 -n 0]
    with 1023 bytes counted: the record takes the counter past the
    threshold, [out] is closed and opened again, and the record is in the
    file just opened. *)
Lemma record_lands_in_reopened_file :
  ∃ s',
    processBuffer (H := raw_logprint) (new_log_device_t "main" false)
      (mkMsg 0 "hello") (mkState (Some "out"%string) 1 0 3 1023 0 2 os_out_files)
    = Ret tt s'
    ∧ os_trace (sys s')
      = [SysWrite 3 ("hello" +:+ newline); SysClose 3; SysOpen "out"]
    ∧ g_outByteCount s' = 0
    ∧ os_fds (sys s') !! g_outFD s' = Some 1%nat
    ∧ os_inodes (sys s') !! 1%nat = Some ("Ahello" +:+ newline)%string.
Proof. eexists. split; [by vm_compute|]. by vm_compute. Qed.

(** ** Binary pass-through *)

(** [printBinary]: one raw write, made twice when it was interrupted; the
    globals stay; the only exit is on a broken pipe. *)
Lemma printBinary_facts msg s :
  let r := printBinary msg s in
  let raw := SysWrite (g_outFD s) (msg_raw msg) in
  (os_trace (sys (final_state r))
   = os_trace (sys s)
     ++ (if bool_decide (os_fault (sys s) raw = Some EINTR) then [raw; raw] else [raw]))
  ∧ g_outByteCount (final_state r) = g_outByteCount s
  ∧ g_outFD (final_state r) = g_outFD s
  ∧ g_printBinary (final_state r) = g_printBinary s
  ∧ (∀ c, c ≠ raw → os_fault (sys (final_state r)) c = os_fault (sys s) c)
  ∧ (os_fault (sys s) raw ≠ Some EINTR →
     os_fault (sys (final_state r)) = os_fault (sys s))
  ∧ (if bool_decide (os_fault (sys s) raw = Some EPIPE)
     then ∃ s', r = Exit SIGPIPE s'
     else ∃ s', r = Ret tt s').
Proof.
  cbv zeta. rewrite printBinary_eq. cbv zeta.
  set (raw := SysWrite (g_outFD s) (msg_raw msg)).
  destruct (sys_write_tests (g_outFD s) (msg_raw msg) (sys s)) as [-> ->].
  pose proof (sys_write_trace (g_outFD s) (msg_raw msg) (sys s)) as Ht1.
  destruct (sys_write_fds (g_outFD s) (msg_raw msg) (sys s)) as (_ & _ & Hfa1 & _).
  fold raw in Ht1, Hfa1 |- *.
  case_bool_decide as Hpipe.
  { assert (os_fault (sys s) raw ≠ Some EINTR) as Hni.
    { rewrite Hpipe. vm_compute. by intros [=]. }
    rewrite bool_decide_eq_false_2 by done. cbn [final_state sys set_sys].
    split_and!; try done.
    - intros _. by apply sys_write_fault_kept.
    - by eexists. }
  case_bool_decide as Hintr.
  - pose proof (sys_write_resumed _ _ _ Hintr) as Hres. fold raw in Hres.
    set (w1 := (sys_write (g_outFD s) (msg_raw msg) (sys s)).2) in *.
    destruct (sys_write_tests (g_outFD s) (msg_raw msg) w1) as [-> _].
    fold raw. rewrite bool_decide_eq_false_2 by (rewrite Hres; done).
    pose proof (sys_write_trace (g_outFD s) (msg_raw msg) w1) as Ht2.
    destruct (sys_write_fds (g_outFD s) (msg_raw msg) w1) as (_ & _ & Hfa2 & _).
    fold raw in Ht2, Hfa2. cbn [final_state sys set_sys].
    split_and!; try done.
    + by rewrite Ht2, Ht1, <- app_assoc.
    + intros c Hc. by rewrite Hfa2, Hfa1.
    + by eexists.
  - cbn [final_state sys set_sys]. split_and!; try done.
    + intros _. by apply sys_write_fault_kept.
    + by eexists.
Qed.

Section BinaryMode.
Context `{LogIds} `{LogPrint}.
Variable printDividers : bool.

(** A record in binary mode: no banner, and [printBinary] on the globals
    and the system the pass found. *)
Lemma loop_pass_binary v ret_ msg s :
  g_printBinary s ≠ 0 →
  0 < ret_ →
  ∃ v2 s1,
    sys s1 = sys s
    ∧ g_printBinary s1 = g_printBinary s
    ∧ g_outFD s1 = g_outFD s
    ∧ g_outByteCount s1 = g_outByteCount s
    ∧ loop_pass printDividers v ret_ msg s
      = match printBinary msg s1 with
        | Ret _ s' => Ret (Continue v2) s'
        | Exit code s' => Exit code s'
        end.
Proof.
  intros Hbin Hpos. unfold loop_pass.
  destruct (Z.eqb_spec ret_ 0); [lia|].
  destruct (Z.ltb_spec ret_ 0); [lia|].
  set (pick := match find_device _ _ with Some i => _ | None => _ end).
  assert (∃ d v1 s1, pick s = Ret (d, v1) s1
                     ∧ sys s1 = sys s
                     ∧ g_printBinary s1 = g_printBinary s
                     ∧ g_outFD s1 = g_outFD s
                     ∧ g_outByteCount s1 = g_outByteCount s)
    as (d & v1 & s1 & Hpick & Hsys & Hb1 & Hfd1 & Hc1).
  { unfold pick. destruct (find_device _ _); run; eauto 10. }
  rewrite (bind_Ret _ _ _ _ _ Hpick). cbn beta iota.
  assert ((1 <? g_devCount s1) && (g_printBinary s1 =? 0) = false) as Hsup.
  { rewrite Hb1. destruct (Z.eqb_spec (g_printBinary s) 0); [done|].
    by rewrite andb_false_r. }
  set (announce := if bool_decide _ then _ else _).
  assert (∃ v2, announce s1 = Ret v2 s1) as [v2 Han].
  { unfold announce. case_bool_decide; [|by eexists].
    unfold bind. rewrite maybePrintStart_suppressed by done. by eexists. }
  rewrite (bind_Ret _ _ _ _ _ Han).
  exists v2, s1. split_and!; try done.
  unfold bind at 1. cbn [get]. rewrite Hb1.
  destruct (Z.eqb_spec (g_printBinary s) 0); [done|]. cbn [negb].
  unfold bind, ret. by destruct (printBinary msg s1).
Qed.

Lemma loop_pass_stop v ret_ msg s :
  ret_ ≤ 0 →
  let r := loop_pass printDividers v ret_ msg s in
  (∀ v' s', r ≠ Ret (Continue v') s')
  ∧ os_trace (sys (final_state r)) = os_trace (sys s)
  ∧ g_outFD (final_state r) = g_outFD s
  ∧ g_outByteCount (final_state r) = g_outByteCount s
  ∧ (∀ code s', r = Exit code s' → code = EXIT_FAILURE).
Proof.
  intros Hle. unfold loop_pass.
  destruct (Z.eqb_spec ret_ 0); [run; split_and!; try done; by intros ?? [= <- _]|].
  destruct (Z.ltb_spec ret_ 0); [|lia].
  destruct (ret_ =? - EAGAIN); [run; done|].
  destruct (ret_ =? - EIO); [run; split_and!; try done; by intros ?? [= <- _]|].
  destruct (ret_ =? - EINVAL); run; split_and!; try done; by intros ?? [= <- _].
Qed.

(** C8. In binary pass-through mode ([g_printBinary] set) every system
    call the loop makes is the write to [g_outFD] of the raw bytes (header
    with the length field, then payload) of a record it read: no filter
    is consulted, no banner is written, and nothing is closed, renamed or
    opened.  The byte counter keeps its value whatever the threshold, so
    rotation never starts.  A write on a broken pipe ends the process with
    the status of the SIGPIPE handler, there and then; a write that was
    interrupted is made again; any other failure is ignored.  So when no
    write of a record is interrupted or meets a broken pipe, every record
    read is written once, in order, and only a failing read makes the
    process exit. *)
Theorem binary_mode_never_counts reads v s :
  g_printBinary s ≠ 0 →
  let r := read_loop printDividers reads v s in
  let raw m := SysWrite (g_outFD s) (msg_raw m) in
  (∃ ws,
     os_trace (sys (final_state r)) = os_trace (sys s) ++ ws
     ∧ Forall (λ c, ∃ m, m ∈ delivered reads ∧ c = raw m) ws)
  ∧ g_outByteCount (final_state r) = g_outByteCount s
  ∧ g_outFD (final_state r) = g_outFD s
  ∧ (∀ code s', r = Exit code s' → code = EXIT_FAILURE ∨ code = SIGPIPE)
  ∧ ((∀ m, m ∈ delivered reads →
           os_fault (sys s) (raw m) ≠ Some EPIPE
           ∧ os_fault (sys s) (raw m) ≠ Some EINTR) →
     os_trace (sys (final_state r))
     = os_trace (sys s) ++ (raw <$> delivered reads)
     ∧ ∀ code s', r = Exit code s' → code = EXIT_FAILURE)
  ∧ (∀ ret_ m rest,
       reads = (ret_, m) :: rest →
       0 < ret_ →
       os_fault (sys s) (raw m) = Some EPIPE →
       ∃ s', r = Exit SIGPIPE s'
             ∧ os_trace (sys s') = os_trace (sys s) ++ [raw m]).
Proof.
  revert v s. induction reads as [|[ret_ msg] rest IH]; intros v s Hbin; cbv zeta.
  { cbn. split; [exists []; by rewrite app_nil_r|].
    split_and!; try done. intros _. by rewrite app_nil_r. }
  cbn [read_loop delivered].
  destruct (Z.ltb_spec 0 ret_) as [Hpos|Hle].
  - destruct (loop_pass_binary v ret_ msg s Hbin Hpos)
      as (v2 & s1 & Hsys & Hb1 & Hfd1 & Hc1 & Hpass).
    destruct (printBinary_facts msg s1) as (Ht & Hc & Hfd & Hb & Hfa & Hfa' & Hout).
    cbv zeta in Ht, Hc, Hfd, Hb, Hfa, Hfa', Hout.
    rewrite Hsys, Hfd1 in Ht, Hfa, Hfa', Hout. rewrite Hfd1 in Hfd.
    rewrite Hc1 in Hc. rewrite Hb1 in Hb.
    set (raw := λ m, SysWrite (g_outFD s) (msg_raw m)) in *.
    change (SysWrite (g_outFD s) (msg_raw msg)) with (raw msg) in *.
    unfold bind at 1 2 3 4 5 6 7. rewrite Hpass.
    destruct (printBinary msg s1) as [[] s'|code s'] eqn:Hp; cbn [final_state] in *.
    + (* the record was written: the loop goes on *)
      assert (os_fault (sys s) (raw msg) ≠ Some EPIPE) as Hnp.
      { intros Hpipe. rewrite bool_decide_eq_true_2 in Hout by done.
        by destruct Hout as [? [=]]. }
      destruct (IH v2 s' ltac:(by rewrite Hb))
        as ((ws & Ht' & Hws) & Hc' & Hfd' & Hex' & Hexact' & _).
      rewrite Hfd in Hws, Hexact'. fold raw in Hws, Hexact'.
      split.
      { eexists. rewrite Ht', Ht, <- app_assoc. split; [done|].
        apply Forall_app. split.
        - assert (∃ m, m ∈ msg :: delivered rest ∧ raw msg = raw m) as Hraw
            by (exists msg; split; [left|done]).
          destruct (bool_decide (os_fault (sys s) (raw msg) = Some EINTR));
            repeat (apply Forall_cons; split; [exact Hraw|]); constructor.
        - eapply Forall_impl; [exact Hws|]. intros c (m & Hm & ->).
          exists m. split; [by right|done]. }
      split; [by rewrite Hc'|]. split; [by rewrite Hfd'|]. split; [exact Hex'|].
      split.
      { intros Hok. destruct (Hok msg ltac:(left)) as [_ Hni].
        rewrite bool_decide_eq_false_2 in Ht by done.
        destruct Hexact' as [Hte Hee].
        { intros m Hm. rewrite (Hfa' Hni). apply Hok. by right. }
        split; [|exact Hee].
        rewrite Hte, Ht, <- app_assoc. done. }
      intros ret' m rest' [= -> -> ->] _ Hpipe. done.
    + (* the pipe is broken *)
      assert (os_fault (sys s) (raw msg) = Some EPIPE ∧ code = SIGPIPE) as [Hpipe ->].
      { case_bool_decide as Hpipe; destruct Hout as [s'' Hs'']; [|done].
        by injection Hs'' as <- _. }
      rewrite bool_decide_eq_false_2 in Ht
        by (rewrite Hpipe; vm_compute; by intros [=]).
      split.
      { exists [raw msg]. split; [done|].
        apply Forall_cons. split; [|constructor].
        exists msg. split; [left|done]. }
      split; [done|]. split; [done|].
      split; [intros ?? [= <- _]; by right|].
      split.
      { intros Hok. by destruct (Hok msg ltac:(left)) as [? _]. }
      intros ret' m rest' [= -> -> ->] _ _. by exists s'.
  - destruct (loop_pass_stop v ret_ msg s Hle) as (Hnc & Ht & Hfd & Hc & Hex).
    cbn zeta in *. unfold bind.
    destruct (loop_pass printDividers v ret_ msg s) as [[v'|] s'|c s'] eqn:Hp.
    + by destruct (Hnc v' s').
    + cbn in *. split; [exists []; by rewrite Ht, app_nil_r|].
      split_and!; try done.
      * intros _. by rewrite Ht, app_nil_r.
      * intros ret' m rest' [= -> -> ->] ?. lia.
    + cbn in *. split; [exists []; by rewrite Ht, app_nil_r|].
      split_and!; try done.
      * intros ?? [= <- <-]. left. by eapply Hex.
      * intros _. split; [by rewrite Ht, app_nil_r|].
        intros ?? [= <- <-]. by eapply Hex.
      * intros ret' m rest' [= -> -> ->] ?. lia.
Qed.
End BinaryMode.

(** ** Banners *)

Lemma rotateLogs_devCount s :
  g_devCount (final_state (rotateLogs s)) = g_devCount s.
Proof.
  destruct (g_outputFileName s) as [name|] eqn:Hname.
  2:{ by rewrite rotateLogs_no_file. }
  destruct (rotateLogs_eq s name Hname) as (w1 & _ & ->).
  destruct (_ <? 0); reflexivity.
Qed.

Section BannerFacts.
Context `{LogIds} `{LogPrint}.

Lemma processBuffer_devCount dev msg s :
  g_devCount (final_state (processBuffer dev msg s)) = g_devCount s.
Proof.
  destruct (if binary dev then android_log_processBinaryLogBuffer msg
            else android_log_processLogBuffer msg) as [entry|] eqn:Hdec.
  2:{ unfold processBuffer. by rewrite Hdec. }
  destruct (android_log_shouldPrintLine entry) eqn:Hshow.
  - rewrite (processBuffer_printed dev msg s entry Hdec Hshow). cbv zeta.
    destruct (_ && _); [done|]. destruct (_ <? 0); [done|].
    destruct (_ && _); [|done]. by rewrite rotateLogs_devCount.
  - unfold processBuffer. rewrite Hdec, Hshow. run.
    destruct (_ && _); [|done]. by rewrite rotateLogs_devCount.
Qed.

(** A record of a buffer that is not registered sets [g_devCount] to 2. *)
Lemma loop_pass_unexpected pd v ret_ msg s v' s' :
  0 < ret_ →
  find_device (devices v) (msg_id msg) = None →
  loop_pass pd v ret_ msg s = Ret (Continue v') s' →
  g_devCount s' = 2.
Proof.
  intros Hpos Hfind. unfold loop_pass.
  destruct (Z.eqb_spec ret_ 0); [lia|].
  destruct (Z.ltb_spec ret_ 0); [lia|].
  rewrite Hfind. run.
  set (s1 := set_devCount 2 s).
  set (v1 := mkVars _ _ _).
  set (announce := if bool_decide _ then _ else _).
  assert (g_devCount (final_state (announce s1)) = 2) as Hann.
  { unfold announce. case_bool_decide; [|done]. unfold bind.
    pose proof (maybePrintStart_globals
                  (deref (set_dev DevUnexpected v1) DevUnexpected) pd s1) as Hg.
    destruct (maybePrintStart _ _ _); cbn in *; tauto. }
  destruct (announce s1) as [v2 s2|]; [|done]. cbn in Hann.
  destruct (negb (g_printBinary s2 =? 0)).
  - pose proof (printBinary_eq msg s2) as Hpb. cbv zeta in Hpb.
    destruct (printBinary msg s2) as [[] s3|]; [|done].
    intros [= _ <-]. revert Hpb.
    destruct (_ && _); [done|]. destruct (_ && _).
    + destruct (_ && _); [done|]. by intros [= ->].
    + by intros [= ->].
  - pose proof (processBuffer_devCount (deref v2 DevUnexpected) msg s2) as Hd.
    destruct (processBuffer _ _ _); [|done]. cbn in *.
    intros [= _ <-]. congruence.
Qed.

(** C6, as amended.  [maybePrintStart] writes a banner exactly when the
    flag is clear or dividers are forced, and [g_devCount > 1], and the
    mode is not binary; the banner reads "beginning of X" when the flag is
    clear and "switch to X" when it is set; a call that passes the test
    sets the flag, banner or not.  With dividers forced every call writes
    one (more than one channel, formatted mode), flag set or not.  [main]
    makes no call for a record of the device the previous record came
    from: that pass is the record's output alone. *)
Theorem banner_rules :
  (∀ dev pd s,
     os_trace (sys (final_state (maybePrintStart dev pd s)))
     = os_trace (sys s)
       ++ (if emits dev pd s then [SysWrite (g_outFD s) (banner dev)] else [])
     ∧ (emits dev pd s = true ↔
        (printed dev = false ∨ pd = true) ∧ 1 < g_devCount s ∧ g_printBinary s = 0)
     ∧ (∀ d' s', maybePrintStart dev pd s = Ret d' s' →
                 d' = if negb (printed dev) || pd then set_printed true dev else dev))
  ∧ (∀ dev,
       (printed dev = false →
        banner dev
        = snprintf_1024 ("--------- beginning of " +:+ device dev +:+ newline)%string)
       ∧ (printed dev = true →
          banner dev
          = snprintf_1024 ("--------- switch to " +:+ device dev +:+ newline)%string))
  ∧ (∀ pd v ret_ msg s i,
       0 < ret_ →
       find_device (devices v) (msg_id msg) = Some i →
       dev v = Some (DevAt i) →
       loop_pass pd v ret_ msg s
       = ((if negb (g_printBinary s =? 0) then printBinary msg
           else processBuffer (deref v (DevAt i)) msg);;
          ret (Continue v)) s).
Proof.
  split; [|split].
  - intros dev pd s. split; [apply maybePrintStart_trace|]. split.
    + unfold emits. rewrite !andb_true_iff, orb_true_iff, negb_true_iff.
      rewrite Z.ltb_lt, Z.eqb_eq. tauto.
    + apply maybePrintStart_device.
  - intros dev. split; [apply banner_beginning|apply banner_switch].
  - intros pd. apply loop_pass_same_device.
Qed.
End BannerFacts.

(** C6 as stated fails.  [logcat -D -b main]: a record of main, one of
    radio (not registered), then two of main.  The first record of main gets
    no banner (one channel) yet sets the flag, so the only banner main ever
    gets reads "switch to main".  And [logcat -D -b main -b system] on two
    records of main: the second one, which follows a record of main, gets
    no banner although dividers are forced. *)
Lemma first_banner_reads_switch_to :
  os_trace (sys (final_state
    (main_session (H := std_ids) (H0 := raw_logprint) ["main"%string] true
       [(10, mkMsg 0 "m1"); (10, mkMsg 1 "r1"); (10, mkMsg 0 "m2");
        (10, mkMsg 0 "m3"); (- EAGAIN, mkMsg 0 "")]
       (initial_state os_stdout_only))))
  = [SysWrite 1 ("m1" +:+ newline)%string;
     SysWrite 1 ("--------- beginning of unexpected" +:+ newline)%string;
     SysWrite 1 ("r1" +:+ newline)%string;
     SysWrite 1 ("--------- switch to main" +:+ newline)%string;
     SysWrite 1 ("m2" +:+ newline)%string;
     SysWrite 1 ("m3" +:+ newline)%string]
  ∧ os_trace (sys (final_state
      (main_session (H := std_ids) (H0 := raw_logprint)
         ["main"%string; "system"%string] true
         [(10, mkMsg 0 "m1"); (10, mkMsg 0 "m2"); (- EAGAIN, mkMsg 0 "")]
         (initial_state os_stdout_only))))
    = [SysWrite 1 ("--------- beginning of main" +:+ newline)%string;
       SysWrite 1 ("m1" +:+ newline)%string;
       SysWrite 1 ("m2" +:+ newline)%string].
Proof. split; vm_compute; reflexivity. Qed.

(** ** The theorems at concrete inputs *)


(** The record that takes the counter from 1023 to 1029 bytes, with a
    threshold of 1 KB: it ends up in [out.1], and [out] is new and empty. *)
Lemma write_precedes_rotation_witness :
  ∃ s' ino',
    processBuffer (H := raw_logprint) (new_log_device_t "main" false)
      (mkMsg 0 "hello") (sink_state 0) = Ret tt s'
    ∧ g_outByteCount s' = 0
    ∧ os_dir (sys s') !! "out.1"%string = Some 1%nat
    ∧ os_dir (sys s') !! "out"%string = Some ino'
    ∧ os_fds (sys s') !! g_outFD s' = Some ino'
    ∧ ino' ≠ 1%nat
    ∧ os_inodes (sys s') !! ino' = Some EmptyString.
Proof.
  destruct (write_precedes_rotation (H := raw_logprint)
              (new_log_device_t "main" false) (mkMsg 0 "hello") (sink_state 0)
              "hello"%string eq_refl eq_refl) as (_ & _ & _ & Hlands).
  destruct (Hlands 1%nat "A"%string eq_refl eq_refl eq_refl) as [_ Hnew].
  destruct (Hnew "out"%string eq_refl eq_refl eq_refl eq_refl) as [Hkept _].
  exact (Hkept ltac:(vm_compute; discriminate) eq_refl).
Defined.

(** Two records in binary mode with a threshold of 1 KB and 1023 bytes
    counted: both are written raw, the counter stays, nothing rotates. *)
Lemma binary_mode_never_counts_witness :
  os_trace (sys (final_state
    (read_loop (H := std_ids) (H0 := raw_logprint) false
       [(10, mkMsg 0 "m1"); (10, mkMsg 2 "e1"); (- EAGAIN, mkMsg 0 "")]
       (loop_start [new_log_device_t "main" false; new_log_device_t "events" true])
       (sink_state 1))))
  = [SysWrite 3 "m1"; SysWrite 3 "e1"]
  ∧ g_outByteCount (final_state
      (read_loop (H := std_ids) (H0 := raw_logprint) false
         [(10, mkMsg 0 "m1"); (10, mkMsg 2 "e1"); (- EAGAIN, mkMsg 0 "")]
         (loop_start [new_log_device_t "main" false; new_log_device_t "events" true])
         (sink_state 1))) = 1023.
Proof.
  pose proof (binary_mode_never_counts (H := std_ids) (H0 := raw_logprint) false
                [(10, mkMsg 0 "m1"); (10, mkMsg 2 "e1"); (- EAGAIN, mkMsg 0 "")]
                (loop_start [new_log_device_t "main" false; new_log_device_t "events" true])
                (sink_state 1) ltac:(discriminate)) as (_ & Hc & _ & _ & Hexact & _).
  split; [|exact Hc].
  destruct Hexact as [Ht _]; [intros m _; split; by vm_compute|].
  vm_compute in Ht. vm_compute. exact Ht.
Defined.

(** A record, then [-EAGAIN]: [main] returns 0. *)
Lemma read_status_outcomes_witness :
  ∃ s', read_loop (H := std_ids) (H0 := raw_logprint) false
          [(10, mkMsg 0 "hello"); (- EAGAIN, mkMsg 0 "")]
          (loop_start [new_log_device_t "main" false])
          (mkState None 0 4 1 0 0 1 os_stdout_only)
        = Ret (Returned 0) s'.
Proof.
  destruct (read_loop (H := std_ids) (H0 := raw_logprint) false
              [(10, mkMsg 0 "hello")]
              (loop_start [new_log_device_t "main" false])
              (mkState None 0 4 1 0 0 1 os_stdout_only))
    as [[c|v1] s1|c s1] eqn:Hbefore;
    [vm_compute in Hbefore; discriminate| |vm_compute in Hbefore; discriminate].
  exists s1.
  exact (proj1 (proj1 (proj2 (read_status_outcomes (H := std_ids) (H0 := raw_logprint)
                                false))
                  [(10, mkMsg 0 "hello")] (- EAGAIN) (mkMsg 0 "") []
                  (loop_start [new_log_device_t "main" false])
                  (mkState None 0 4 1 0 0 1 os_stdout_only) v1 s1
                  Hbefore ltac:(vm_compute; discriminate))
           eq_refl).
Defined.

(** A response that starts with the count 0: no output, [EXIT_FAILURE]. *)
Lemma degenerate_response_is_fatal_witness :
  ∃ s', query_command (fun _ => true) (fun _ => mock_response "0")
          (initial_state os_stdout_only)
        = Some (Exit EXIT_FAILURE s')
    ∧ exit_status EXIT_FAILURE ≠ 0
    ∧ os_trace (sys s') = []
    ∧ os_inodes (sys s') = [EmptyString]
    ∧ os_stderr (sys s') = ["failed to read data"%string].
Proof.
  apply (proj1 (proj2 (proj2 (degenerate_response_is_fatal
                                (fun _ => true) (fun _ => mock_response "0"))))
           (initial_state os_stdout_only)).
  vm_compute. reflexivity.
Defined.

(** [-r 16] without [-f]. *)
Lemma rotation_requires_pathname_witness :
  ∃ s', main_setup (H := std_ids) []
          (mkState None 16 4 (-1) 0 0 0 os_stdout_only) = Exit (-1) s'
    ∧ exit_status (-1) ≠ 0
    ∧ os_trace (sys s') = []
    ∧ os_fds (sys s') = {[ 1 := 0%nat ]}
    ∧ g_outFD s' = -1
    ∧ os_stderr (sys s')
      = ["-r requires -f as well"%string;
         "Usage: logcat [options] [filterspecs]"%string].
Proof.
  apply (proj2 (rotation_requires_pathname (H := std_ids)) []
           (mkState None 16 4 (-1) 0 0 0 os_stdout_only)).
  - discriminate.
  - reflexivity.
Defined.

(** [-b main] on an empty registry. *)
Lemma registry_names_witness :
  ∃ s', option_b (H := std_ids) "main" [] (initial_state os_stdout_only)
        = Ret ([] ++ [new_log_device_t "main" (bool_decide ("main" = "events")%string)]) s'
    ∧ (NoDup (names ([] ++ [new_log_device_t "main"
                              (bool_decide ("main" = "events")%string)]))
       ↔ NoDup (names []) ∧ "main"%string ∉ names []).
Proof.
  apply (proj2 (proj2 (registry_names (H := std_ids)))
           "main"%string [] (initial_state os_stdout_only)).
  discriminate.
Defined.

(** A second record of main in [logcat -D -b main -b system]. *)
Lemma banner_rules_witness :
  loop_pass (H := std_ids) (H0 := raw_logprint) true
    (mkVars [set_printed true (new_log_device_t "main" false);
             new_log_device_t "system" false]
       (new_log_device_t "unexpected" false) (Some (DevAt 0)))
    10 (mkMsg 0 "m2") (mkState None 0 4 1 0 0 2 os_stdout_only)
  = (processBuffer (H := raw_logprint)
       (set_printed true (new_log_device_t "main" false)) (mkMsg 0 "m2");;
     ret (Continue
            (mkVars [set_printed true (new_log_device_t "main" false);
                     new_log_device_t "system" false]
               (new_log_device_t "unexpected" false) (Some (DevAt 0)))))
      (mkState None 0 4 1 0 0 2 os_stdout_only).
Proof.
  apply (proj2 (proj2 (banner_rules (H := std_ids) (H0 := raw_logprint))) true
           (mkVars [set_printed true (new_log_device_t "main" false);
                    new_log_device_t "system" false]
              (new_log_device_t "unexpected" false) (Some (DevAt 0)))
           10 (mkMsg 0 "m2") (mkState None 0 4 1 0 0 2 os_stdout_only) 0%nat).
  - lia.
  - reflexivity.
  - reflexivity.
Defined.

(** * Further properties of the code *)

(** ** The sizes shown by [-g] *)

Lemma size_loop_spec fuel i v :
  0 ≤ i → 0 ≤ v →
  let i' := (size_loop fuel i v).1 in
  let r := (size_loop fuel i v).2 in
  i ≤ i' ∧ i' ≤ Z.max i 4
  ∧ r = v / 1024 ^ (i' - i)
  ∧ (i' < 4 → i' - i < Z.of_nat fuel → r < 1024)
  ∧ (i < i' → 1 ≤ r).
Proof.
  revert i v. induction fuel as [|fuel IH]; intros i v Hi Hv.
  { cbn. rewrite Z.sub_diag, Z.pow_0_r, Z.div_1_r. lia. }
  cbn [size_loop]. change (Z.of_nat (List.length multipliers)) with 4.
  destruct (Z.ltb_spec i 4) as [Hi4|Hi4]; cbn [andb].
  2:{ cbn. rewrite Z.sub_diag, Z.pow_0_r, Z.div_1_r. lia. }
  destruct (Z.leb_spec 1024 v) as [Hbig|Hsmall].
  2:{ cbn. rewrite Z.sub_diag, Z.pow_0_r, Z.div_1_r. lia. }
  assert (0 ≤ v / 1024) as Hdiv by (apply Z.div_pos; lia).
  destruct (IH (i + 1) (v / 1024) ltac:(lia) Hdiv) as (Hle & Hmax & Hr & Hlt & Hge).
  cbn zeta. set (i' := (size_loop fuel (i + 1) (v / 1024)).1) in *.
  set (r := (size_loop fuel (i + 1) (v / 1024)).2) in *.
  split; [lia|]. split; [lia|]. split.
  { rewrite Hr, Z.div_div by (try apply Z.pow_nonneg; lia).
    replace (i' - i) with (Z.succ (i' - (i + 1))) by lia.
    rewrite Z.pow_succ_r by lia. done. }
  split; [intros; apply Hlt; lia|].
  intros _. destruct (Z.eq_dec i' (i + 1)) as [Heq|Hne]; [|apply Hge; lia].
  rewrite Hr, Heq, Z.sub_diag, Z.pow_0_r, Z.div_1_r.
  apply Z.div_le_lower_bound; lia.
Qed.

(** X1. For a size below 1024^4 (1 TiB) the loop of [value_of_size] and
    [multiplier_of_size] stops at an index inside the table of multipliers:
    the value printed is below 1024, at least 1 once the size reaches 1024,
    and it is the size divided by the unit of the multiplier printed,
    rounded down. *)
Theorem size_display_in_table v :
  0 ≤ v < 1024 ^ 4 →
  let i := (size_loop 5 0 v).1 in
  0 ≤ i ≤ 3
  ∧ is_Some (multiplier_of_size v)
  ∧ multiplier_of_size v = multipliers !! Z.to_nat i
  ∧ 0 ≤ value_of_size v < 1024
  ∧ (1024 ≤ v → 1 ≤ value_of_size v)
  ∧ value_of_size v * 1024 ^ i ≤ v < (value_of_size v + 1) * 1024 ^ i.
Proof.
  intros [Hv Hlt]. unfold value_of_size, multiplier_of_size.
  destruct (size_loop_spec 5 0 v ltac:(lia) Hv) as (Hle & Hmax & Hr & Hsmall & Hge).
  cbn zeta in *. set (i := (size_loop 5 0 v).1) in *.
  set (r := (size_loop 5 0 v).2) in *.
  rewrite Z.sub_0_r in Hr, Hsmall.
  assert (0 ≤ r) as Hrnn by (rewrite Hr; apply Z.div_pos; [lia|apply Z.pow_pos_nonneg; lia]).
  assert (i ≤ 3) as Hi3.
  { destruct (Z.eq_dec i 4) as [Hi4|]; [|lia].
    specialize (Hge ltac:(lia)). rewrite Hr, Hi4 in Hge.
    rewrite Z.div_small in Hge by lia. lia. }
  split; [lia|].
  assert (is_Some (multipliers !! Z.to_nat i)) as Hsome.
  { apply lookup_lt_is_Some. cbn. lia. }
  split; [exact Hsome|]. split; [done|].
  split; [split; [done|apply Hsmall; cbn; lia]|].
  split.
  { intros Hbig. destruct (Z.eq_dec i 0) as [Hi0|]; [|apply Hge; lia].
    specialize (Hsmall ltac:(lia) ltac:(cbn; lia)).
    rewrite Hr, Hi0, Z.pow_0_r, Z.div_1_r in Hsmall. lia. }
  assert (0 < 1024 ^ i) as Hpos by (apply Z.pow_pos_nonneg; lia).
  rewrite Hr. split.
  - rewrite Z.mul_comm. apply Z.mul_div_le. done.
  - rewrite Z.mul_comm. apply Z.mul_succ_div_gt. done.
Qed.

(** X2. From 1024^4 on, the loop runs through the whole table: the index
    it leaves is 4, one past the last multiplier, so [multiplier_of_size]
    reads outside [multipliers], and the value printed is the size divided
    by 1024^4, which is at least 1 and need not be below 1024. *)
Theorem size_display_past_table v :
  1024 ^ 4 ≤ v →
  (size_loop 5 0 v).1 = 4
  ∧ multiplier_of_size v = None
  ∧ value_of_size v = v / 1024 ^ 4
  ∧ 1 ≤ value_of_size v.
Proof.
  intros Hv. unfold value_of_size, multiplier_of_size.
  destruct (size_loop_spec 5 0 v ltac:(lia) ltac:(lia)) as (Hle & Hmax & Hr & Hsmall & Hge).
  cbn zeta in *. set (i := (size_loop 5 0 v).1) in *.
  set (r := (size_loop 5 0 v).2) in *.
  rewrite Z.sub_0_r in Hr, Hsmall.
  assert (i = 4) as Hi.
  { destruct (Z.eq_dec i 4) as [|Hne]; [done|]. exfalso.
    specialize (Hsmall ltac:(lia) ltac:(cbn; lia)).
    assert (1024 ≤ r); [|lia]. rewrite Hr.
    apply Z.div_le_lower_bound; [apply Z.pow_pos_nonneg; lia|].
    assert (i = 0 ∨ i = 1 ∨ i = 2 ∨ i = 3) as Hcases by lia.
    destruct Hcases as [Hc|[Hc|[Hc|Hc]]]; rewrite Hc; lia. }
  split; [done|]. rewrite Hi. split; [done|]. split; [by rewrite Hr, Hi|].
  apply Hge. lia.
Qed.

Lemma size_display_in_table_witness :
  multiplier_of_size (256 * 1024) = Some "K"%string
  ∧ value_of_size (256 * 1024) = 256.
Proof.
  destruct (size_display_in_table (256 * 1024) ltac:(lia)) as (_ & _ & Hm & _).
  split; [exact Hm|reflexivity].
Defined.

Lemma size_display_past_table_witness :
  multiplier_of_size (3 * 1024 ^ 4) = None ∧ value_of_size (3 * 1024 ^ 4) = 3.
Proof.
  destruct (size_display_past_table (3 * 1024 ^ 4) ltac:(lia)) as (_ & Hm & Hv & _).
  split; [exact Hm|exact Hv].
Defined.

(** ** Reading back what [%d] prints *)

Lemma digit_char_spec d :
  0 ≤ d ≤ 9 → isdigit (digit_char d) = true ∧ code (digit_char d) - 48 = d.
Proof.
  intros Hd.
  assert (d = 0 ∨ d = 1 ∨ d = 2 ∨ d = 3 ∨ d = 4 ∨ d = 5 ∨ d = 6 ∨ d = 7
          ∨ d = 8 ∨ d = 9) as Hcases by lia.
  repeat (destruct Hcases as [->|Hcases]; [by vm_compute|]). subst d. by vm_compute.
Qed.

Lemma ilog10_go_nonneg fuel n : 0 ≤ ilog10_go fuel n.
Proof.
  revert n. induction fuel as [|fuel IH]; intros n; cbn; [lia|].
  destruct (n <? 10); [lia|]. specialize (IH (n / 10)). lia.
Qed.

Lemma string_app_assoc (a b c : string) :
  ((a +:+ b) +:+ c = a +:+ (b +:+ c))%string.
Proof.
  induction a as [|x a IH]; [reflexivity|].
  change (String x ((a +:+ b) +:+ c) = String x (a +:+ (b +:+ c)))%string.
  by rewrite IH.
Qed.

Lemma decimal_go_app fuel n acc :
  decimal_go fuel n acc = (decimal_go fuel n EmptyString +:+ acc)%string.
Proof.
  revert n acc. induction fuel as [|fuel IH]; intros n acc; cbn [decimal_go]; [done|].
  destruct (n <? 10); [done|].
  rewrite IH, (IH _ (String _ EmptyString)).
  by rewrite string_app_assoc.
Qed.

Lemma decimal_go_S fuel n acc :
  decimal_go (S fuel) n acc
  = if n <? 10 then String (digit_char (n mod 10)) acc
    else decimal_go fuel (n / 10) (String (digit_char (n mod 10)) acc).
Proof. reflexivity. Qed.

Lemma ilog10_go_S fuel n :
  ilog10_go (S fuel) n = if n <? 10 then 0 else 1 + ilog10_go fuel (n / 10).
Proof. reflexivity. Qed.

Section DecimalReaders.
(** A reader of digit strings: [read s a] goes on from the value [a], and
    takes one digit as long as the value stays [within] bounds. *)
Context {T : Type}.
Variable read : string → Z → T.
Variable within : Z → Prop.
Hypothesis within_below : ∀ a b, 0 ≤ a ≤ b → within b → within a.
Hypothesis read_digit :
  ∀ d rest a, 0 ≤ d ≤ 9 → 0 ≤ a → within (a * 10 + d) →
              read (String (digit_char d) rest) a = read rest (a * 10 + d).

Lemma read_decimal_go fuel n rest a :
  0 ≤ n < 10 ^ Z.of_nat (S fuel) →
  0 ≤ a →
  within (a * 10 ^ (ilog10_go (S fuel) n + 1) + n) →
  read (decimal_go (S fuel) n rest) a
  = read rest (a * 10 ^ (ilog10_go (S fuel) n + 1) + n).
Proof.
  revert n rest a. induction fuel as [|fuel IH]; intros n rest a Hn Ha Hin.
  - change (10 ^ Z.of_nat 1) with 10 in Hn. cbn [decimal_go ilog10_go] in *.
    destruct (Z.ltb_spec n 10); [|lia].
    rewrite Z.mod_small by lia. change (10 ^ (0 + 1)) with 10 in *.
    by apply read_digit; [lia|..].
  - rewrite (decimal_go_S (S fuel)). rewrite (ilog10_go_S (S fuel)) in Hin |- *.
    destruct (Z.ltb_spec n 10) as [Hlt|Hge].
    { rewrite Z.mod_small by lia. change (10 ^ (0 + 1)) with 10 in *.
      by apply read_digit; [lia|..]. }
    pose proof (Z.div_mod n 10 ltac:(lia)) as Hdm.
    pose proof (Z.mod_pos_bound n 10 ltac:(lia)) as Hmod.
    assert (0 ≤ n / 10 < 10 ^ Z.of_nat (S fuel)) as Hdiv.
    { split; [apply Z.div_pos; lia|].
      apply Z.div_lt_upper_bound; [lia|].
      replace (Z.of_nat (S (S fuel))) with (Z.succ (Z.of_nat (S fuel))) in Hn by lia.
      rewrite Z.pow_succ_r in Hn by lia. lia. }
    pose proof (ilog10_go_nonneg (S fuel) (n / 10)) as Hk.
    set (k := ilog10_go (S fuel) (n / 10) + 1) in *.
    assert (0 < 10 ^ k) as Hpow by (apply Z.pow_pos_nonneg; lia).
    assert (0 ≤ a * 10 ^ k) as Hak by (apply Z.mul_nonneg_nonneg; lia).
    assert (a * 10 ^ (1 + ilog10_go (S fuel) (n / 10) + 1) + n
            = (a * 10 ^ k + n / 10) * 10 + n mod 10) as Hsplit.
    { replace (1 + ilog10_go (S fuel) (n / 10) + 1) with (Z.succ k) by (unfold k; lia).
      rewrite Z.pow_succ_r by lia. lia. }
    rewrite Hsplit in Hin |- *.
    rewrite (IH (n / 10) _ a Hdiv Ha).
    + fold k. apply read_digit; [lia|lia|done].
    + fold k. eapply within_below; [|exact Hin]. lia.
Qed.

(** [read] gives the number back from its decimal form. *)
Lemma read_decimal n rest :
  0 ≤ n → within n → read (decimal n +:+ rest)%string 0 = read rest n.
Proof.
  intros Hn Hin. unfold decimal. rewrite <- decimal_go_app.
  rewrite read_decimal_go; rewrite ?Z.mul_0_l, ?Z.add_0_l; try done.
  destruct (Z.eq_dec n 0) as [->|Hne]; [by cbn|].
  split; [done|]. apply log2_fuel. lia.
Qed.

Lemma read_zeros m rest : within 0 → read (zeros m +:+ rest)%string 0 = read rest 0.
Proof.
  intros H0. induction m as [|m IH]; [done|].
  change (zeros (S m) +:+ rest)%string
    with (String (digit_char 0) (zeros m +:+ rest)%string).
  rewrite read_digit by (done || lia). exact IH.
Qed.
End DecimalReaders.

Lemma size_digits_digit d rest a :
  0 ≤ d ≤ 9 → 0 ≤ a → a * 10 + d < 2 ^ 64 →
  size_digits (String (digit_char d) rest) a = size_digits rest (a * 10 + d).
Proof.
  intros Hd Ha Hlt. destruct (digit_char_spec d Hd) as [Hdig Hcode].
  cbn [size_digits]. rewrite Hdig, Hcode. unfold size_t.
  rewrite (Z.mod_small (a * 10)) by lia. by rewrite Z.mod_small by lia.
Qed.

Lemma read_digits_digit d rest a :
  0 ≤ d ≤ 9 →
  read_digits (list_ascii_of_string (String (digit_char d) rest)) a
  = read_digits (list_ascii_of_string rest) (a * 10 + d).
Proof.
  intros Hd. destruct (digit_char_spec d Hd) as [Hdig Hcode].
  cbn [list_ascii_of_string read_digits]. by rewrite Hdig, Hcode.
Qed.

Lemma string_app_nil_r (a : string) : (a +:+ EmptyString)%string = a.
Proof.
  induction a as [|x a IH]; [reflexivity|].
  change (String x (a +:+ EmptyString)%string = String x a). by rewrite IH.
Qed.

Lemma fmt_prec_d_value digits i :
  1 ≤ i → read_digits (list_ascii_of_string (fmt_prec_d digits i)) 0 = i.
Proof.
  intros Hi. unfold fmt_prec_d.
  destruct (Z.eqb_spec i 0); [lia|]. cbn [andb].
  destruct (Z.ltb_spec i 0); [lia|]. rewrite Z.abs_eq by lia.
  change (EmptyString +:+ ?x)%string with x.
  rewrite (read_zeros (λ s a, read_digits (list_ascii_of_string s) a) (λ _, True))
    by (done || (intros; by apply read_digits_digit)).
  rewrite <- (string_app_nil_r (decimal i)).
  rewrite (read_decimal (λ s a, read_digits (list_ascii_of_string s) a) (λ _, True))
    by (done || lia || (intros; by apply read_digits_digit)).
  reflexivity.
Qed.

Lemma backup_name_inj name digits i j :
  1 ≤ i → 1 ≤ j →
  backup_name name digits i = backup_name name digits j → i = j.
Proof.
  intros Hi Hj Heq. unfold backup_name in Heq.
  apply (inj (String.append name)) in Heq.
  apply (inj (String.append ".")) in Heq.
  rewrite <- (fmt_prec_d_value digits i Hi), <- (fmt_prec_d_value digits j Hj).
  by rewrite Heq.
Qed.

(** X3. The names [rotateLogs] builds for two different indices (from 1
    up) are different, whatever the width, and none of them is the bare
    name: no step of the shift renames a file onto itself or onto the live
    file. *)
Theorem backup_names_distinct name digits i j :
  1 ≤ i → 1 ≤ j →
  (backup_name name digits i = backup_name name digits j ↔ i = j)
  ∧ backup_name name digits i ≠ name
  ∧ shift_source name digits i ≠ backup_name name digits i.
Proof.
  intros Hi Hj. split; [|split].
  - split; [by apply backup_name_inj|by intros ->].
  - apply backup_name_ne.
  - unfold shift_source. destruct (Z.eqb_spec (i - 1) 0) as [H0|Hne].
    + intros Heq. symmetry in Heq. by apply backup_name_ne in Heq.
    + intros Heq. apply backup_name_inj in Heq; lia.
Qed.

Lemma backup_names_distinct_witness :
  (backup_name "out" 2 3 = backup_name "out" 2 12 ↔ 3 = 12)
  ∧ backup_name "out" 2 3 ≠ "out"%string
  ∧ shift_source "out" 2 3 ≠ backup_name "out" 2 3.
Proof. apply backup_names_distinct; lia. Defined.

(** ** The size given to [-G] *)

Lemma size_digits_decimal n rest :
  0 ≤ n < 2 ^ 64 → size_digits (decimal n +:+ rest)%string 0 = size_digits rest n.
Proof.
  intros [Hn Hlt].
  apply (read_decimal size_digits (λ x, x < 2 ^ 64)); try done.
  - intros a b Hab Hb. lia.
  - intros d rest' a Hd Ha Hin. by apply size_digits_digit.
Qed.

Lemma size_suffix_multiplier j suffix tail :
  multipliers !! j = Some suffix →
  (j = 0%nat → tail = EmptyString) →
  size_digits (suffix +:+ tail)%string = (λ n, (n, (suffix +:+ tail)%string))
  ∧ size_suffix (suffix +:+ tail)%string = Some (1024 ^ Z.of_nat j).
Proof.
  intros Hj Htail.
  destruct j as [|[|[|[|j]]]]; cbn in Hj; try discriminate;
    injection Hj as <-; try (rewrite Htail by done); split; reflexivity.
Qed.

Lemma size_loop_more fuel i v :
  i < 4 → 1024 ≤ v → size_loop (S fuel) i v = size_loop fuel (i + 1) (v / 1024).
Proof.
  intros Hi Hv. cbn [size_loop]. change (Z.of_nat (List.length multipliers)) with 4.
  destruct (Z.ltb_spec i 4); [|lia]. destruct (Z.leb_spec 1024 v); [done|lia].
Qed.

Lemma size_loop_stop fuel i v : v < 1024 → size_loop fuel i v = (i, v).
Proof.
  intros Hv. destruct fuel as [|fuel]; [done|]. cbn [size_loop].
  destruct (Z.leb_spec 1024 v); [lia|]. by rewrite andb_false_r.
Qed.

Lemma value_of_scaled n j :
  1 ≤ n < 1024 → (j ≤ 3)%nat →
  size_loop 5 0 (n * 1024 ^ Z.of_nat j) = (Z.of_nat j, n).
Proof.
  intros Hn Hj.
  destruct j as [|[|[|[|j]]]]; [| | | |lia].
  - change (1024 ^ Z.of_nat 0) with 1. rewrite Z.mul_1_r. apply size_loop_stop. lia.
  - change (1024 ^ Z.of_nat 1) with 1024.
    rewrite size_loop_more, Z.div_mul by lia. rewrite size_loop_stop by lia. reflexivity.
  - change (1024 ^ Z.of_nat 2) with (1024 * 1024).
    replace (n * (1024 * 1024)) with (n * 1024 * 1024) by lia.
    rewrite size_loop_more, Z.div_mul by lia.
    rewrite size_loop_more, Z.div_mul by lia. rewrite size_loop_stop by lia. reflexivity.
  - change (1024 ^ Z.of_nat 3) with (1024 * 1024 * 1024).
    replace (n * (1024 * 1024 * 1024)) with (n * 1024 * 1024 * 1024) by lia.
    rewrite size_loop_more, Z.div_mul by lia.
    rewrite size_loop_more, Z.div_mul by lia.
    rewrite size_loop_more, Z.div_mul by lia. rewrite size_loop_stop by lia. reflexivity.
Qed.

(** X4. What [-g] prints is what [-G] takes: for a value from 1 to 1023
    and a multiplier of the table, [-G] given the value in decimal followed
    by the multiplier sets the size to the value times the multiplier's
    unit, and [value_of_size] and [multiplier_of_size] turn that size back
    into the same value and multiplier.  After a multiplier letter the rest
    of the argument is not looked at. *)
Theorem option_G_round_trip n j suffix tail s :
  1 ≤ n < 1024 →
  multipliers !! j = Some suffix →
  (j = 0%nat → tail = EmptyString) →
  option_G (decimal n +:+ suffix +:+ tail)%string s
  = Ret (n * 1024 ^ Z.of_nat j) s
  ∧ value_of_size (n * 1024 ^ Z.of_nat j) = n
  ∧ multiplier_of_size (n * 1024 ^ Z.of_nat j) = Some suffix.
Proof.
  intros Hn Hj Htail.
  assert (j ≤ 3)%nat as Hj3.
  { apply lookup_lt_Some in Hj. cbn in Hj. lia. }
  destruct (size_suffix_multiplier j suffix tail Hj Htail) as [Hdig Hsuf].
  assert (1 ≤ 1024 ^ Z.of_nat j ≤ 1024 ^ 3) as Hpow.
  { split; [apply (Z.pow_le_mono_r 1024 0); lia|apply Z.pow_le_mono_r; lia]. }
  split; [|split].
  - unfold option_G. rewrite size_digits_decimal by lia. rewrite Hdig, Hsuf.
    unfold size_t. rewrite Z.mod_small by nia.
    destruct (Z.eqb_spec (n * 1024 ^ Z.of_nat j) 0); [nia|done].
  - unfold value_of_size. by rewrite value_of_scaled.
  - unfold multiplier_of_size. rewrite value_of_scaled by done. cbn [fst].
    by rewrite Nat2Z.id.
Qed.

Lemma option_G_round_trip_witness :
  option_G "256Kb" (initial_state os_stdout_only)
  = Ret (256 * 1024 ^ 1) (initial_state os_stdout_only)
  ∧ value_of_size (256 * 1024 ^ 1) = 256
  ∧ multiplier_of_size (256 * 1024 ^ 1) = Some "K"%string.
Proof.
  apply (option_G_round_trip 256 1 "K" "b" (initial_state os_stdout_only)).
  - lia.
  - reflexivity.
  - discriminate.
Defined.

(** X5. [-G] never yields a zero size: when the option is taken the state
    is untouched and the size is positive and fits [unsigned long].  An
    argument that does not start with a digit, and digits followed by a
    character that is neither the end nor one of g, G, m, M, k, K, print
    "ERROR: -G <num><multiplier>" and exit with status 1. *)
Theorem option_G_rejects :
  (∀ optarg s n s',
     option_G optarg s = Ret n s' → s' = s ∧ 0 < n < 2 ^ 64)
  ∧ (∀ optarg s,
       match optarg with
       | String c _ => isdigit c = false
       | EmptyString => True
       end →
       option_G optarg s
       = Exit 1 (set_sys (os_perror "ERROR: -G <num><multiplier>" (sys s)) s))
  ∧ (∀ n c tail s,
       0 ≤ n < 2 ^ 64 →
       isdigit c = false →
       size_suffix (String c tail) = None →
       option_G (decimal n +:+ String c tail)%string s
       = Exit 1 (set_sys (os_perror "ERROR: -G <num><multiplier>" (sys s)) s)).
Proof.
  split; [|split].
  - intros optarg s n s'. unfold option_G.
    destruct (size_digits optarg 0) as [digits cp].
    set (size := match size_suffix cp with Some f => _ | None => 0 end).
    assert (0 ≤ size < 2 ^ 64) as Hsize.
    { unfold size. destruct (size_suffix cp); [|lia].
      unfold size_t. apply Z.mod_pos_bound. lia. }
    destruct (Z.eqb_spec size 0); [discriminate|].
    intros [= <- <-]. split; [done|lia].
  - intros optarg s Hfirst. unfold option_G.
    assert (size_digits optarg 0 = (0, optarg)) as ->.
    { destruct optarg as [|c rest]; [done|]. cbn [size_digits]. by rewrite Hfirst. }
    destruct (size_suffix optarg); reflexivity.
  - intros n c tail s Hn Hc Hsuf. unfold option_G.
    rewrite size_digits_decimal by done. cbn [size_digits]. rewrite Hc, Hsuf.
    reflexivity.
Qed.

Lemma option_G_rejects_witness :
  option_G "64b" (initial_state os_stdout_only)
  = Exit 1 (set_sys (os_perror "ERROR: -G <num><multiplier>" os_stdout_only)
              (initial_state os_stdout_only)).
Proof.
  apply (proj2 (proj2 option_G_rejects) 64 "b"%char EmptyString
           (initial_state os_stdout_only)).
  - lia.
  - reflexivity.
  - reflexivity.
Defined.

(** ** The whole chain of backups *)

Lemma sys_rename_dir_dst src dst w :
  os_fault w (SysRename src dst) = None →
  os_dir (sys_rename src dst w).2 !! dst
  = match os_dir w !! src with
    | Some ino => Some ino
    | None => os_dir w !! dst
    end.
Proof.
  intros Hf. unfold sys_rename. cbn. rewrite Hf.
  destruct (os_dir w !! src) as [ino|]; cbn; [|done].
  by rewrite lookup_insert_eq.
Qed.

Lemma shift_source_ne_backup name digits i j :
  1 ≤ i → 1 ≤ j → i - 1 ≠ j →
  shift_source name digits i ≠ backup_name name digits j.
Proof.
  intros Hi Hj Hne. unfold shift_source.
  destruct (Z.eqb_spec (i - 1) 0).
  - intros Heq. symmetry in Heq. by apply backup_name_ne in Heq.
  - intros Heq. apply backup_name_inj in Heq; lia.
Qed.

Lemma rotate_loop_dir name digits n s :
  (∀ src dst, os_fault (sys s) (SysRename src dst) = None) →
  ∃ w',
    rotate_loop name digits n s = Ret tt (set_sys w' s)
    ∧ os_stderr w' = os_stderr (sys s)
    ∧ (∀ p, p ≠ name →
            (∀ i, 1 ≤ i ≤ Z.of_nat n → p ≠ backup_name name digits i) →
            os_dir w' !! p = os_dir (sys s) !! p)
    ∧ ((1 ≤ n)%nat → os_dir w' !! name = None)
    ∧ (∀ i, 1 ≤ i < Z.of_nat n →
            os_dir w' !! backup_name name digits i
            = os_dir (sys s) !! shift_source name digits i)
    ∧ ((1 ≤ n)%nat →
       os_dir w' !! backup_name name digits (Z.of_nat n)
       = match os_dir (sys s) !! shift_source name digits (Z.of_nat n) with
         | Some ino => Some ino
         | None => os_dir (sys s) !! backup_name name digits (Z.of_nat n)
         end).
Proof.
  revert s. induction n as [|n IH]; intros s Hnf.
  { exists (sys s). destruct s; cbn. split; [done|]. split; [done|].
    split; [done|]. split; [lia|]. split; [lia|lia]. }
  cbn [rotate_loop]. rewrite (bind_Ret _ _ _ _ _ (rotate_step_eq _ _ _ _)).
  set (m := Z.of_nat (S n)).
  set (src := shift_source name digits m).
  set (dst := backup_name name digits m).
  assert (reported src dst (sys s) = false) as Hrep
    by (unfold reported; by rewrite Hnf).
  rewrite Hrep. cbn zeta.
  set (w1 := (sys_rename src dst (sys s)).2).
  destruct (sys_rename_frame src dst (sys s)) as (_ & _ & _ & Hfa & He).
  fold w1 in Hfa, He.
  assert (src ≠ dst) as Hsd by (apply shift_source_ne_backup; lia).
  assert (dst ≠ name) as Hdn by apply backup_name_ne.
  destruct (sys_rename_dir_moved src dst (sys s) Hsd (Hnf _ _)) as [Hgone _].
  fold w1 in Hgone.
  pose proof (sys_rename_dir_dst src dst (sys s) (Hnf _ _)) as Hdst. fold w1 in Hdst.
  assert (∀ p, p ≠ src → p ≠ dst → os_dir w1 !! p = os_dir (sys s) !! p) as Hother.
  { intros p ??. by apply sys_rename_dir_other. }
  destruct (IH (set_sys w1 s)) as (w' & Hrun & Hst & H1 & H2 & H3 & H4).
  { intros ??. cbn. rewrite Hfa. apply Hnf. }
  cbn [sys set_sys] in Hrun, Hst, H1, H2, H3, H4.
  exists w'. split; [exact Hrun|]. split; [congruence|].
  assert (n = 0%nat → w' = w1) as Hzero.
  { intros ->. cbn in Hrun. by injection Hrun. }
  split; [|split; [|split]].
  - intros p Hpn Hpi. rewrite H1; [|done|intros i Hi; apply Hpi; lia].
    apply Hother; [|apply Hpi; lia].
    unfold src, shift_source. destruct (Z.eqb_spec (m - 1) 0); [done|].
    apply Hpi. lia.
  - intros _. destruct n as [|n]; [|apply H2; lia].
    rewrite (Hzero eq_refl).
    replace name with src at 2; [exact Hgone|]. done.
  - intros i Hi. destruct (Z.eq_dec i (Z.of_nat n)) as [->|Hne].
    + assert (1 ≤ n)%nat as Hn1 by lia.
      rewrite (H4 Hn1).
      assert (src = backup_name name digits (Z.of_nat n)) as Hsrc.
      { unfold src, shift_source. destruct (Z.eqb_spec (m - 1) 0); [lia|].
        f_equal. lia. }
      rewrite <- Hsrc, Hgone.
      rewrite Hother.
      * by destruct (os_dir (sys s) !! shift_source name digits (Z.of_nat n)).
      * rewrite Hsrc. apply shift_source_ne_backup; lia.
      * apply shift_source_ne_backup; lia.
    + rewrite H3 by lia. apply Hother.
      * assert (src = backup_name name digits (Z.of_nat n)) as ->.
        { unfold src, shift_source. destruct (Z.eqb_spec (m - 1) 0); [lia|].
          f_equal. lia. }
        apply shift_source_ne_backup; lia.
      * apply shift_source_ne_backup; lia.
  - intros _. rewrite H1; [exact Hdst|exact Hdn|].
    intros i Hi Heq. apply backup_name_inj in Heq; lia.
Qed.

(** X6. When no rename and not the open is made to fail, [rotateLogs] with
    [k >= 1] backups moves every file of the chain up by one: after it, the
    name of index [i < k] designates what the name below it designated
    (nothing, if that was missing), index [k] designates what index [k - 1]
    designated and keeps its own file only if there was none to take its
    place, the bare name designates a new empty file, every other name is
    as it was, no contents change and nothing is reported. *)
Theorem rotateLogs_shifts_chain s name k :
  g_outputFileName s = Some name →
  g_maxRotatedLogs s = k →
  1 ≤ k →
  (∀ src dst, os_fault (sys s) (SysRename src dst) = None) →
  os_fault (sys s) (SysOpen name) = None →
  let numbered := backup_name name (maxRotationCountDigits k) in
  let below i := if i =? 1 then name else numbered (i - 1) in
  ∃ s',
    rotateLogs s = Ret tt s'
    ∧ os_dir (sys s') !! name = Some (List.length (os_inodes (sys s)))
    ∧ os_inodes (sys s') = os_inodes (sys s) ++ [EmptyString]
    ∧ (∀ i, 1 ≤ i < k → os_dir (sys s') !! numbered i = os_dir (sys s) !! below i)
    ∧ os_dir (sys s') !! numbered k
      = match os_dir (sys s) !! below k with
        | Some ino => Some ino
        | None => os_dir (sys s) !! numbered k
        end
    ∧ (∀ p, p ≠ name → (∀ i, 1 ≤ i ≤ k → p ≠ numbered i) →
            os_dir (sys s') !! p = os_dir (sys s) !! p)
    ∧ os_stderr (sys s') = os_stderr (sys s).
Proof.
  intros Hname Hk Hpos Hnf Hopen numbered below.
  assert (∀ i, shift_source name (maxRotationCountDigits k) i = below i) as Hsrc.
  { intros i. unfold shift_source, below.
    destruct (Z.eqb_spec (i - 1) 0), (Z.eqb_spec i 1); (done || lia). }
  destruct (rotateLogs_eq s name Hname) as (w1 & Hloop & Hrot).
  destruct (rotate_loop_dir name (maxRotationCountDigits (g_maxRotatedLogs s))
              (Z.to_nat (g_maxRotatedLogs s))
              (set_sys (sys_close (g_outFD s) (sys s)) s))
    as (w1' & Hloop' & Hst & H1 & H2 & H3 & H4).
  { intros ??. apply Hnf. }
  rewrite Hloop in Hloop'. injection Hloop' as Heq. subst w1'.
  destruct (rotate_loop_spec name (maxRotationCountDigits (g_maxRotatedLogs s))
              (Z.to_nat (g_maxRotatedLogs s))
              (set_sys (sys_close (g_outFD s) (sys s)) s))
    as (w1' & Hloop' & _ & Hi & _ & Hfa & _).
  rewrite Hloop in Hloop'. injection Hloop' as Heq. subst w1'.
  rewrite Hk in *. fold numbered in H1, H3, H4.
  unfold sys_close, os_log in Hst, H1, H2, H3, H4, Hi, Hfa.
  cbn [sys set_sys os_dir os_inodes os_fds os_fault os_trace os_stderr]
    in Hst, H1, H2, H3, H4, Hi, Hfa.
  rewrite Z2Nat.id in H1, H3, H4 by lia.
  specialize (H2 ltac:(lia)). specialize (H4 ltac:(lia)).
  assert ((sys_open name w1).1 = fresh_fd (os_fds w1)
          ∧ os_dir (sys_open name w1).2
            = <[name := List.length (os_inodes w1)]> (os_dir w1)
          ∧ os_inodes (sys_open name w1).2 = os_inodes w1 ++ [EmptyString]
          ∧ os_stderr (sys_open name w1).2 = os_stderr w1)
    as (Hofd & Hodir & Hoin & Hoerr).
  { unfold sys_open. cbn. rewrite Hfa, Hopen, H2. done. }
  eexists. split.
  { rewrite Hrot, Hofd.
    destruct (Z.ltb_spec (fresh_fd (os_fds w1)) 0); [|reflexivity].
    pose proof (fresh_fd_nonneg (os_fds w1)). lia. }
  cbn [sys set_sys set_outFD set_outByteCount].
  rewrite Hodir, Hoin, Hoerr, Hi, Hst.
  split; [by rewrite lookup_insert_eq|]. split; [done|].
  split; [|split; [|split; [|done]]].
  - intros i Hi1. rewrite lookup_insert_ne
      by (intros Heq; symmetry in Heq; by apply backup_name_ne in Heq).
    rewrite H3 by done. by rewrite Hsrc.
  - rewrite lookup_insert_ne
      by (intros Heq; symmetry in Heq; by apply backup_name_ne in Heq).
    rewrite H4. by rewrite Hsrc.
  - intros p Hp Hpi. rewrite lookup_insert_ne by done. by apply H1.
Qed.

(** [out.1] takes the place of [out.2], [out] that of [out.1]. *)
Lemma rotateLogs_shifts_chain_witness :
  ∃ s',
    rotateLogs (sink_state 0) = Ret tt s'
    ∧ os_dir (sys s') !! "out"%string = Some 4%nat
    ∧ os_dir (sys s') !! "out.1"%string = Some 1%nat
    ∧ os_dir (sys s') !! "out.2"%string = Some 2%nat
    ∧ os_inodes (sys s') = [EmptyString; "A"; "B"; "C"; EmptyString]%string.
Proof.
  destruct (rotateLogs_shifts_chain (sink_state 0) "out" 2
              eq_refl eq_refl ltac:(lia) (λ _ _, eq_refl) eq_refl)
    as (s' & Hrun & Hbare & Hin & Hmid & Hlast & _).
  exists s'. split; [exact Hrun|]. split; [exact Hbare|].
  split; [exact (Hmid 1 ltac:(lia))|]. split; [exact Hlast|exact Hin].
Defined.

(** ** Opening the sink *)

(** X7. [setupOutput] without a pathname takes standard output and makes
    no system call.  With a pathname it opens the file without truncating
    it: an existing file keeps its contents and the byte counter starts at
    its length, a missing file is created empty with the counter at zero;
    [g_outFD] is open on the file the pathname designates.  When the open
    fails the process exits with -1 after a diagnostic. *)
Theorem setupOutput_counts_existing :
  (∀ s, g_outputFileName s = None →
        setupOutput s = Ret tt (set_outFD STDOUT_FILENO s))
  ∧ (∀ s name,
       g_outputFileName s = Some name →
       os_fault (sys s) (SysOpen name) = None →
       ∃ s' ino,
         setupOutput s = Ret tt s'
         ∧ os_fds (sys s') !! g_outFD s' = Some ino
         ∧ os_dir (sys s') !! name = Some ino
         ∧ (∀ ino0 content,
              os_dir (sys s) !! name = Some ino0 →
              os_inodes (sys s) !! ino0 = Some content →
              ino = ino0
              ∧ os_inodes (sys s') = os_inodes (sys s)
              ∧ g_outByteCount s' = Z.of_nat (String.length content))
         ∧ (os_dir (sys s) !! name = None →
            ino = List.length (os_inodes (sys s))
            ∧ os_inodes (sys s') = os_inodes (sys s) ++ [EmptyString]
            ∧ g_outByteCount s' = 0))
  ∧ (∀ s name e,
       g_outputFileName s = Some name →
       os_fault (sys s) (SysOpen name) = Some e →
       setupOutput s
       = Exit (-1)
           (set_sys (os_perror "couldn't open output file"
                       (os_fail e (os_log (SysOpen name) (sys s))))
              (set_outFD (-1) s))).
Proof.
  split; [|split].
  - intros s Hn. unfold setupOutput. run. by rewrite Hn.
  - intros s name Hname Hopen. unfold setupOutput. run. rewrite Hname. run.
    unfold sys_open. cbn. rewrite Hopen.
    pose proof (fresh_fd_nonneg (os_fds (sys s))) as Hfd.
    destruct (os_dir (sys s) !! name) as [ino0|] eqn:Hdir; cbn.
    + destruct (Z.ltb_spec (fresh_fd (os_fds (sys s))) 0); [lia|]. cbn.
      do 2 eexists. split; [reflexivity|]. cbn.
      rewrite lookup_insert_eq. split; [done|]. split; [done|].
      split; [|done]. intros ino1 content [= <-] Hcontent.
      split; [done|]. split; [done|].
      unfold sys_fstat_size. cbn. by rewrite lookup_insert_eq, Hcontent.
    + destruct (Z.ltb_spec (fresh_fd (os_fds (sys s))) 0); [lia|]. cbn.
      do 2 eexists. split; [reflexivity|]. cbn.
      rewrite !lookup_insert_eq. split; [done|]. split; [done|].
      split; [done|]. intros _. split; [done|]. split; [done|].
      unfold sys_fstat_size. cbn. rewrite lookup_insert_eq.
      by rewrite list_lookup_middle.
  - intros s name e Hname Hopen. unfold setupOutput. run. rewrite Hname. run.
    unfold sys_open. cbn. rewrite Hopen. reflexivity.
Qed.

(** [logcat -f out] on an [out] that holds one byte. *)
Lemma setupOutput_counts_existing_witness :
  ∃ s' ino,
    setupOutput (mkState (Some "out"%string) 0 4 (-1) 0 0 1 os_out_files) = Ret tt s'
    ∧ os_fds (sys s') !! g_outFD s' = Some ino
    ∧ ino = 1%nat
    ∧ os_inodes (sys s') = [EmptyString; "A"; "B"; "C"]%string
    ∧ g_outByteCount s' = 1.
Proof.
  destruct (proj1 (proj2 setupOutput_counts_existing)
              (mkState (Some "out"%string) 0 4 (-1) 0 0 1 os_out_files) "out"%string
              eq_refl eq_refl) as (s' & ino & Hrun & Hfd & _ & Hold & _).
  destruct (Hold 1%nat "A"%string eq_refl eq_refl) as (Hino & Hin & Hc).
  exists s', ino. split; [exact Hrun|]. split; [exact Hfd|].
  split; [exact Hino|]. split; [exact Hin|exact Hc].
Defined.

(** ** The byte counter and the threshold *)

Lemma rotateLogs_keeps s s' :
  rotateLogs s = Ret tt s' →
  g_outputFileName s' = g_outputFileName s
  ∧ g_logRotateSizeKBytes s' = g_logRotateSizeKBytes s
  ∧ g_printBinary s' = g_printBinary s
  ∧ (is_Some (g_outputFileName s) → g_outByteCount s' = 0).
Proof.
  destruct (g_outputFileName s) as [name|] eqn:Hname.
  - destruct (rotateLogs_eq s name Hname) as (w1 & _ & ->).
    destruct (_ <? 0); [discriminate|]. intros [= <-]. cbn. by rewrite Hname.
  - rewrite rotateLogs_no_file by done. intros [= <-]. rewrite Hname.
    repeat (split; [done|]). by intros [? [=]].
Qed.

Section Threshold.
Context `{LogIds} `{LogPrint}.

Lemma processBuffer_keeps dev msg s s' :
  processBuffer dev msg s = Ret tt s' →
  g_outputFileName s' = g_outputFileName s
  ∧ g_logRotateSizeKBytes s' = g_logRotateSizeKBytes s
  ∧ g_printBinary s' = g_printBinary s
  ∧ (is_Some (g_outputFileName s) →
     0 < g_logRotateSizeKBytes s →
     Z.quot (g_outByteCount s) 1024 < g_logRotateSizeKBytes s
     ∨ is_Some (if binary dev then android_log_processBinaryLogBuffer msg
                else android_log_processLogBuffer msg) →
     Z.quot (g_outByteCount s') 1024 < g_logRotateSizeKBytes s').
Proof.
  destruct (if binary dev then android_log_processBinaryLogBuffer msg
            else android_log_processLogBuffer msg) as [entry|] eqn:Hdec.
  2:{ unfold processBuffer. rewrite Hdec.
      intros [= <-]. repeat (split; [done|]). intros _ _ [?|[? [=]]]. done. }
  assert (∀ s2 (c : bool),
            g_outputFileName s2 = g_outputFileName s →
            g_logRotateSizeKBytes s2 = g_logRotateSizeKBytes s →
            g_printBinary s2 = g_printBinary s →
            c = (0 <? g_logRotateSizeKBytes s2)
                && (g_logRotateSizeKBytes s2 <=? Z.quot (g_outByteCount s2) 1024) →
            (if c then rotateLogs s2 else Ret tt s2) = Ret tt s' →
            g_outputFileName s' = g_outputFileName s
            ∧ g_logRotateSizeKBytes s' = g_logRotateSizeKBytes s
            ∧ g_printBinary s' = g_printBinary s
            ∧ (is_Some (g_outputFileName s) →
               0 < g_logRotateSizeKBytes s →
               Z.quot (g_outByteCount s') 1024 < g_logRotateSizeKBytes s'))
    as Hcheck.
  { intros s2 c Hn Hr Hb ->.
    destruct (Z.ltb_spec 0 (g_logRotateSizeKBytes s2)) as [Hpos|Hnp]; cbn [andb].
    - destruct (Z.leb_spec (g_logRotateSizeKBytes s2) (Z.quot (g_outByteCount s2) 1024)).
      + intros Hrot. destruct (rotateLogs_keeps s2 s' Hrot) as (Hn' & Hr' & Hb' & Hc).
        rewrite Hn in Hn', Hc. rewrite Hr in Hr'. rewrite Hb in Hb'.
        repeat (split; [done|]). intros Hsome ?. rewrite (Hc Hsome), Hr'.
        replace (Z.quot 0 1024) with 0 by reflexivity. lia.
      + intros [= <-]. repeat (split; [done|]). intros _ _. lia.
    - intros [= <-]. repeat (split; [done|]). intros _ ?. lia. }
  destruct (android_log_shouldPrintLine entry) eqn:Hshow.
  - rewrite (processBuffer_printed dev msg s entry Hdec Hshow). cbv zeta.
    destruct (_ && _); [discriminate|]. destruct (_ <? 0); [discriminate|].
    set (s2 := set_outByteCount _ _). intros Hrun.
    apply (Hcheck s2 _ eq_refl eq_refl eq_refl eq_refl) in Hrun.
    destruct Hrun as (? & ? & ? & Hinv). repeat (split; [done|]). auto.
  - unfold processBuffer. rewrite Hdec, Hshow. run.
    set (s2 := set_outByteCount _ _). set (c := _ && _). intros Hrun.
    assert ((if c then rotateLogs s2 else Ret tt s2) = Ret tt s') as Hrun'
      by (by destruct c).
    apply (Hcheck s2 _ eq_refl eq_refl eq_refl eq_refl) in Hrun'.
    destruct Hrun' as (? & ? & ? & Hinv). repeat (split; [done|]). auto.
Qed.

Lemma loop_pass_keeps pd v ret_ msg s v' s' :
  loop_pass pd v ret_ msg s = Ret (Continue v') s' →
  g_outputFileName s' = g_outputFileName s
  ∧ g_logRotateSizeKBytes s' = g_logRotateSizeKBytes s
  ∧ g_printBinary s' = g_printBinary s
  ∧ (is_Some (g_outputFileName s) →
     0 < g_logRotateSizeKBytes s →
     Z.quot (g_outByteCount s) 1024 < g_logRotateSizeKBytes s →
     Z.quot (g_outByteCount s') 1024 < g_logRotateSizeKBytes s').
Proof.
  unfold loop_pass.
  destruct (ret_ =? 0); [discriminate|].
  destruct (ret_ <? 0).
  { destruct (ret_ =? - EAGAIN); [discriminate|].
    destruct (ret_ =? - EIO); [discriminate|].
    destruct (ret_ =? - EINVAL); discriminate. }
  set (pick := match find_device _ _ with Some i => _ | None => _ end).
  assert (∃ d v1 s1, pick s = Ret (d, v1) s1
                     ∧ g_outputFileName s1 = g_outputFileName s
                     ∧ g_logRotateSizeKBytes s1 = g_logRotateSizeKBytes s
                     ∧ g_printBinary s1 = g_printBinary s
                     ∧ g_outByteCount s1 = g_outByteCount s)
    as (d & v1 & s1 & Hpick & Hn1 & Hr1 & Hb1 & Hc1).
  { unfold pick. destruct (find_device _ _); run; eauto 10. }
  rewrite (bind_Ret _ _ _ _ _ Hpick). cbn beta iota.
  set (announce := if bool_decide _ then _ else _).
  assert (g_outputFileName (final_state (announce s1)) = g_outputFileName s
          ∧ g_logRotateSizeKBytes (final_state (announce s1)) = g_logRotateSizeKBytes s
          ∧ g_printBinary (final_state (announce s1)) = g_printBinary s
          ∧ g_outByteCount (final_state (announce s1)) = g_outByteCount s)
    as (Hn2 & Hr2 & Hb2 & Hc2).
  { unfold announce. case_bool_decide; [|done]. unfold bind.
    pose proof (maybePrintStart_globals (deref (set_dev d v1) d) pd s1)
      as (Hgn & Hgr & _ & _ & Hgc & Hgb & _).
    destruct (maybePrintStart _ _ _); cbn in *; split_and!; congruence. }
  unfold bind at 1.
  destruct (announce s1) as [v2 s2|]; [|done]. cbn in Hn2, Hr2, Hb2, Hc2.
  unfold bind at 1. cbn.
  destruct (negb (g_printBinary s2 =? 0)).
  - destruct (printBinary_state msg s2) as [w Hw]. unfold bind, ret.
    destruct (printBinary msg s2) as [[] s3|]; [|done]. cbn in Hw. subst s3.
    intros [= <- <-]. cbn. repeat (split; [done|]). intros _ _. congruence.
  - unfold bind. destruct (processBuffer _ _ _) as [[] s3|] eqn:Hp; [|done].
    cbn. intros [= <- <-].
    destruct (processBuffer_keeps _ _ _ _ Hp) as (Hn3 & Hr3 & Hb3 & Hinv).
    split; [congruence|]. split; [congruence|]. split; [congruence|].
    intros Hsome Hpos Hlt. apply Hinv.
    + by rewrite Hn2.
    + by rewrite Hr2.
    + left. by rewrite Hr2, Hc2.
Qed.

(** X8. With a pathname and a threshold, the byte counter stays below
    the threshold from record to record: if [g_outByteCount / 1024] is
    below [g_logRotateSizeKBytes] when the loop starts, it is below it
    whenever the loop returns or waits for the next record.  And whatever
    the counter was (the size of a file found at start-up, say), it is
    below the threshold after any record that decodes. *)
Theorem counter_stays_below_threshold :
  (∀ pd reads v s e s',
     is_Some (g_outputFileName s) →
     0 < g_logRotateSizeKBytes s →
     Z.quot (g_outByteCount s) 1024 < g_logRotateSizeKBytes s →
     read_loop pd reads v s = Ret e s' →
     Z.quot (g_outByteCount s') 1024 < g_logRotateSizeKBytes s'
     ∧ g_logRotateSizeKBytes s' = g_logRotateSizeKBytes s)
  ∧ (∀ dev msg s s',
       is_Some (g_outputFileName s) →
       0 < g_logRotateSizeKBytes s →
       is_Some (if binary dev then android_log_processBinaryLogBuffer msg
                else android_log_processLogBuffer msg) →
       processBuffer dev msg s = Ret tt s' →
       Z.quot (g_outByteCount s') 1024 < g_logRotateSizeKBytes s').
Proof.
  split.
  - intros pd reads. induction reads as [|[ret_ msg] rest IH];
      intros v s e s' Hsome Hpos Hlt Hrun.
    { injection Hrun as <- <-. done. }
    cbn [read_loop] in Hrun. unfold bind in Hrun.
    destruct (loop_pass pd v ret_ msg s) as [[v1|] s1|] eqn:Hp; [| |done].
    + destruct (loop_pass_keeps _ _ _ _ _ _ _ Hp) as (Hn & Hr & _ & Hinv).
      specialize (Hinv Hsome Hpos Hlt).
      destruct (IH v1 s1 e s') as [Hlt' Hr']; try done.
      * by rewrite Hn.
      * by rewrite Hr.
      * split; [done|congruence].
    + injection Hrun as <- <-.
      assert (s1 = s) as ->; [|done].
      revert Hp. unfold loop_pass.
      destruct (ret_ =? 0); [discriminate|].
      destruct (ret_ <? 0).
      * destruct (ret_ =? - EAGAIN); [by intros [= <-]|].
        destruct (ret_ =? - EIO); [discriminate|].
        destruct (ret_ =? - EINVAL); discriminate.
      * intros Hp. exfalso. revert Hp.
        set (pick := match find_device _ _ with Some i => _ | None => _ end).
        unfold bind at 1. destruct (pick s) as [[d v1] s2|]; [|done].
        set (announce := if bool_decide _ then _ else _).
        unfold bind at 1. destruct (announce s2) as [v2 s3|]; [|done].
        unfold bind at 1. cbn. unfold bind.
        destruct (if negb _ then _ else _) as [[] s4|]; done.
  - intros dev msg s s' Hsome Hpos Hdec Hrun.
    destruct (processBuffer_keeps _ _ _ _ Hrun) as (_ & _ & _ & Hinv).
    apply Hinv; auto.
Qed.
End Threshold.

(** One record of five bytes plus the newline, with 1023 bytes counted and a
    threshold of 1 KB: the loop returns with the counter below it. *)
Lemma counter_stays_below_threshold_witness :
  Z.quot (g_outByteCount (final_state
    (read_loop (H := std_ids) (H0 := raw_logprint) false
      [(10, mkMsg 0 "hello"); (- EAGAIN, mkMsg 0 "")]
      (loop_start [new_log_device_t "main" false]) (sink_state 0)))) 1024 < 1.
Proof.
  destruct (read_loop _ _ _ _) as [e s'|c s'] eqn:Hrun.
  - destruct (proj1 (counter_stays_below_threshold (H := std_ids) (H0 := raw_logprint))
                false _ _ (sink_state 0) e s'
                (ex_intro _ "out"%string eq_refl) eq_refl eq_refl Hrun) as [Hlt Hr].
    cbn [final_state]. rewrite Hr in Hlt. exact Hlt.
  - vm_compute in Hrun. discriminate.
Defined.

(** ** Sessions without a threshold; failed writes *)

Lemma wrote_only_refl s : wrote_only s s.
Proof. split; [exists []; by rewrite app_nil_r|done]. Qed.

Lemma wrote_only_trans s1 s2 s3 :
  wrote_only s1 s2 → wrote_only s2 s3 → wrote_only s1 s3.
Proof.
  intros ((ws1 & Ht1 & Hw1) & Hfd1 & Hd1 & Hf1 & Hr1)
         ((ws2 & Ht2 & Hw2) & Hfd2 & Hd2 & Hf2 & Hr2).
  split; [|split_and!; congruence].
  exists (ws1 ++ ws2). rewrite Ht2, Ht1, <- app_assoc. split; [done|].
  rewrite forallb_app, Hw1. rewrite Hfd1 in Hw2. by rewrite Hw2.
Qed.

Lemma wrote_only_write s data :
  wrote_only s (set_sys (sys_write (g_outFD s) data (sys s)).2 s).
Proof.
  destruct (sys_write_fds (g_outFD s) data (sys s)) as (Hf & Hd & _ & _).
  split; [|by cbn].
  exists [SysWrite (g_outFD s) data]. cbn [sys set_sys].
  rewrite sys_write_trace. split; [done|]. cbn. by rewrite Z.eqb_refl.
Qed.

Lemma wrote_only_perror s msg :
  wrote_only s (set_sys (os_perror msg (sys s)) s).
Proof. split; [exists []; by rewrite app_nil_r|done]. Qed.

Lemma maybePrintStart_wrote_only dev pd s :
  wrote_only s (final_state (maybePrintStart dev pd s)).
Proof.
  pose proof (maybePrintStart_globals dev pd s) as (_ & Hr & _ & Hfd & _).
  pose proof (maybePrintStart_trace dev pd s) as Ht.
  split; [|split; [done|]].
  - eexists. split; [exact Ht|]. destruct (emits dev pd s); [|done].
    cbn. by rewrite Z.eqb_refl.
  - rewrite maybePrintStart_eq. cbv zeta.
    destruct (negb (printed dev) || pd); [|done].
    destruct ((1 <? g_devCount s) && (g_printBinary s =? 0)); [|done].
    destruct (sys_write_fds (g_outFD s) (banner dev) (sys s)) as (Hf & Hd & _ & _).
    destruct (_ && _); [done|]. destruct (_ <? 0); by cbn.
Qed.

Lemma printBinary_wrote_only msg s :
  wrote_only s (final_state (printBinary msg s)).
Proof.
  rewrite printBinary_eq. cbv zeta.
  pose proof (wrote_only_write s (msg_raw msg)) as Hw1.
  pose proof (wrote_only_write
                (set_sys (sys_write (g_outFD s) (msg_raw msg) (sys s)).2 s)
                (msg_raw msg)) as Hw2.
  cbn [sys set_sys g_outFD] in Hw2.
  assert (wrote_only s
            (set_sys (sys_write (g_outFD s) (msg_raw msg)
                        (sys_write (g_outFD s) (msg_raw msg) (sys s)).2).2 s))
    as Hw by (by eapply wrote_only_trans).
  destruct (_ && _); [done|].
  destruct (_ && _); [|done].
  by destruct (_ && _).
Qed.

Section Quiet.
Context `{LogIds} `{LogPrint}.

Lemma processBuffer_wrote_only dev msg s :
  g_logRotateSizeKBytes s ≤ 0 →
  wrote_only s (final_state (processBuffer dev msg s)).
Proof.
  intros Hr.
  destruct (if binary dev then android_log_processBinaryLogBuffer msg
            else android_log_processLogBuffer msg) as [entry|] eqn:Hdec.
  2:{ unfold processBuffer. rewrite Hdec. apply wrote_only_refl. }
  destruct (android_log_shouldPrintLine entry) eqn:Hshow.
  - rewrite (processBuffer_printed dev msg s entry Hdec Hshow). cbv zeta.
    pose proof (wrote_only_write s (android_log_formatLogLine entry)) as Hw.
    destruct (_ && _); [exact Hw|].
    destruct (_ <? 0); cbn [final_state].
    { eapply wrote_only_trans; [exact Hw|].
      exact (wrote_only_perror (set_sys _ s) _). }
    destruct (Z.ltb_spec 0 (g_logRotateSizeKBytes s)); [lia|]. exact Hw.
  - unfold processBuffer. rewrite Hdec, Hshow. run.
    destruct (Z.ltb_spec 0 (g_logRotateSizeKBytes s)); [lia|]. cbn.
    split; [exists []; by rewrite app_nil_r|done].
Qed.

Lemma loop_pass_wrote_only pd v ret_ msg s :
  g_logRotateSizeKBytes s ≤ 0 →
  wrote_only s (final_state (loop_pass pd v ret_ msg s)).
Proof.
  intros Hr. unfold loop_pass.
  destruct (ret_ =? 0); [apply wrote_only_perror|].
  destruct (ret_ <? 0).
  { destruct (ret_ =? - EAGAIN); [apply wrote_only_refl|].
    destruct (ret_ =? - EIO); [apply wrote_only_perror|].
    destruct (ret_ =? - EINVAL); apply wrote_only_perror. }
  set (pick := match find_device _ _ with Some i => _ | None => _ end).
  assert (∃ d v1 s1, pick s = Ret (d, v1) s1 ∧ wrote_only s s1)
    as (d & v1 & s1 & Hpick & Hw1).
  { unfold pick. destruct (find_device _ _); run; eexists _, _, _; (split; [done|]).
    - apply wrote_only_refl.
    - split; [exists []; by rewrite app_nil_r|done]. }
  rewrite (bind_Ret _ _ _ _ _ Hpick). cbn beta iota.
  set (announce := if bool_decide _ then _ else _).
  assert (wrote_only s1 (final_state (announce s1))) as Hw2.
  { unfold announce. case_bool_decide; [|apply wrote_only_refl]. unfold bind.
    pose proof (maybePrintStart_wrote_only (deref (set_dev d v1) d) pd s1) as Hm.
    destruct (maybePrintStart _ _ _); exact Hm. }
  unfold bind at 1.
  destruct (announce s1) as [v2 s2|]; cbn [final_state] in *;
    [|by eapply wrote_only_trans].
  assert (g_logRotateSizeKBytes s2 ≤ 0) as Hr2.
  { destruct Hw1 as (_ & _ & _ & _ & E1). destruct Hw2 as (_ & _ & _ & _ & E2). lia. }
  eapply wrote_only_trans; [exact Hw1|]. eapply wrote_only_trans; [exact Hw2|].
  unfold bind at 1. cbn.
  destruct (negb (g_printBinary s2 =? 0)).
  - unfold bind, ret. pose proof (printBinary_wrote_only msg s2) as Hp.
    destruct (printBinary msg s2) as [[] s3|]; exact Hp.
  - unfold bind. pose proof (processBuffer_wrote_only (deref v2 d) msg s2 Hr2) as Hp.
    destruct (processBuffer _ _ _) as [[] s3|]; exact Hp.
Qed.

End Quiet.

(** X9. Without a rotation threshold (none given, or one that is not
    positive) the read loop makes no system call but writes on [g_outFD],
    however it ends: nothing is closed, renamed or opened, the directory
    and the descriptor table stay as they were. *)
Theorem no_threshold_only_writes `{LogIds} `{LogPrint} pd reads v s :
  g_logRotateSizeKBytes s ≤ 0 →
  let s' := final_state (read_loop pd reads v s) in
  (∃ ws, os_trace (sys s') = os_trace (sys s) ++ ws
         ∧ forallb (is_write_to (g_outFD s)) ws = true)
  ∧ g_outFD s' = g_outFD s
  ∧ os_dir (sys s') = os_dir (sys s)
  ∧ os_fds (sys s') = os_fds (sys s)
  ∧ g_logRotateSizeKBytes s' = g_logRotateSizeKBytes s.
Proof.
  revert v s. induction reads as [|[ret_ msg] rest IH]; intros v s Hr; cbv zeta.
  { apply wrote_only_refl. }
  change (wrote_only s (final_state (read_loop pd ((ret_, msg) :: rest) v s))).
  cbn [read_loop]. unfold bind.
  pose proof (loop_pass_wrote_only pd v ret_ msg s Hr) as Hp.
  destruct (loop_pass pd v ret_ msg s) as [[v1|] s1|]; cbn [final_state] in *;
    try exact Hp.
  eapply wrote_only_trans; [exact Hp|]. apply (IH v1 s1).
  destruct Hp as (_ & _ & _ & _ & E). lia.
Qed.

(** Two records of two buffers with dividers, then end of file: [out],
    [out.1] and [out.2] are the files they were. *)
Lemma no_threshold_only_writes_witness :
  os_dir (sys (final_state
    (read_loop (H := std_ids) (H0 := raw_logprint) true
       [(10, mkMsg 0 "m1"); (10, mkMsg 3 "s1"); (0, mkMsg 0 "")]
       (loop_start [new_log_device_t "main" false; new_log_device_t "system" false])
       (mkState (Some "out"%string) 0 2 3 4096 0 2 os_out_files))))
  = os_dir os_out_files.
Proof.
  pose proof (no_threshold_only_writes (H := std_ids) (H0 := raw_logprint) true
       [(10, mkMsg 0 "m1"); (10, mkMsg 3 "s1"); (0, mkMsg 0 "")]
       (loop_start [new_log_device_t "main" false; new_log_device_t "system" false])
       (mkState (Some "out"%string) 0 2 3 4096 0 2 os_out_files)
       ltac:(cbn; lia)) as (_ & _ & Hd & _).
  exact Hd.
Defined.



Section OutputErrors.
Context `{LogPrint}.

End OutputErrors.


(** ** Rotation without backups *)

(** X11. With no backups to keep ([-n 0], or a count that is not positive)
    [rotateLogs] renames nothing: it closes the file and opens it again as
    it is, to append.  The directory and every content are unchanged and
    only the byte counter starts again, so the file keeps growing. *)
Theorem rotateLogs_without_backups s name ino :
  g_outputFileName s = Some name →
  g_maxRotatedLogs s ≤ 0 →
  os_fault (sys s) (SysOpen name) = None →
  os_dir (sys s) !! name = Some ino →
  ∃ s',
    rotateLogs s = Ret tt s'
    ∧ os_trace (sys s') = os_trace (sys s) ++ [SysClose (g_outFD s); SysOpen name]
    ∧ os_dir (sys s') = os_dir (sys s)
    ∧ os_inodes (sys s') = os_inodes (sys s)
    ∧ os_fds (sys s') !! g_outFD s' = Some ino
    ∧ g_outByteCount s' = 0.
Proof.
  intros Hname Hk Hopen Hino.
  destruct (rotateLogs_eq s name Hname) as (w1 & Hloop & ->).
  replace (Z.to_nat (g_maxRotatedLogs s)) with 0%nat in Hloop by lia.
  cbn [rotate_loop] in Hloop. injection Hloop as Hw.
  assert (w1 = sys_close (g_outFD s) (sys s)) as ->.
  { by rewrite <- Hw. }
  clear Hw.
  set (w1 := sys_close (g_outFD s) (sys s)).
  assert (os_fault w1 (SysOpen name) = None) as Hopen1 by done.
  assert (os_dir w1 !! name = Some ino) as Hino1 by done.
  destruct (sys_open_spec name w1) as (Ht & _ & _ & _ & Hok).
  destruct (Hok Hopen1) as (Hfd & ino' & Hfds & Hdir & _ & Hsame).
  destruct (Hsame ltac:(by eexists)) as [Hino' Hinodes].
  assert (ino' = ino) as -> by congruence.
  destruct (Z.ltb_spec (sys_open name w1).1 0); [lia|].
  eexists. split; [done|].
  cbn [sys set_sys set_outByteCount set_outFD g_outFD g_outByteCount].
  rewrite Ht, Hinodes. split_and!; try done.
  - unfold w1, sys_close, os_log. cbn. by rewrite <- app_assoc.
  - unfold sys_open. cbn [os_log os_fault os_dir].
    change (os_fault (sys s) (SysOpen name)) with (os_fault w1 (SysOpen name)).
    rewrite Hopen1. change (os_dir (sys s)) with (os_dir w1). by rewrite Hino1.
Qed.

(** [logcat -f out -r 1 -n 0] with 2048 bytes counted: [out] keeps its
    content "A". *)
Lemma rotateLogs_without_backups_witness :
  ∃ s',
    rotateLogs (mkState (Some "out"%string) 1 0 3 2048 0 1 os_out_files) = Ret tt s'
    ∧ os_inodes (sys s') = os_inodes os_out_files.
Proof.
  destruct (rotateLogs_without_backups
              (mkState (Some "out"%string) 1 0 3 2048 0 1 os_out_files)
              "out"%string 1%nat eq_refl ltac:(cbn; lia) eq_refl eq_refl)
    as (s' & Hrun & _ & _ & Hi & _).
  exists s'. split; [exact Hrun|exact Hi].
Defined.

(** ** The registry and its count *)

Lemma int_wrap_small z : - 2 ^ 31 ≤ z < 2 ^ 31 → int_wrap z = z.
Proof.
  intros Hz. unfold int_wrap, wrap.
  change (2 ^ (32 - 1)) with (2 ^ 31). rewrite Z.mod_small; lia.
Qed.

Section RegistryCount.
Context `{LogIds}.

Lemma select_all_loop_counted ids devs s :
  counted devs s →
  Z.of_nat (List.length devs + List.length ids) < 2 ^ 31 →
  ∃ devs' s',
    select_all_loop ids devs s = Ret devs' s'
    ∧ counted devs' s'
    ∧ sys s' = sys s
    ∧ (List.length devs' ≤ List.length devs + List.length ids)%nat.
Proof.
  revert devs s. induction ids as [|i ids IH]; intros devs s [Hc Hall] Hlen.
  { exists devs, s. cbn. split_and!; try done. lia. }
  cbn [select_all_loop]. unfold select_all_step.
  cbn [List.length] in Hlen.
  case_bool_decide as Hid.
  - run. destruct (IH devs s) as (devs' & s' & Hrun & Hcnt & Hsys & Hle);
      [done|lia|].
    exists devs', s'. split_and!; try done. lia.
  - unfold devCount_incr. run.
    set (d := new_log_device_t _ _). set (s1 := set_devCount _ s).
    destruct (IH (devs ++ [d]) s1) as (devs' & s' & Hrun & Hcnt & Hsys & Hle).
    + split.
      * unfold s1. cbn. rewrite Hc, int_wrap_small, length_app by lia. cbn. lia.
      * apply Forall_app. split; [done|]. by repeat constructor.
    + rewrite length_app. cbn. lia.
    + exists devs', s'. split_and!; try done. rewrite length_app in Hle. cbn in Hle. lia.
Qed.

Lemma options_b_counted optargs devs s :
  counted devs s →
  Z.of_nat (List.length devs + List.length optargs) < 2 ^ 31 →
  Z.of_nat (LOG_ID_MAX + List.length optargs) < 2 ^ 31 →
  ∃ devs' s',
    options_b optargs devs s = Ret devs' s'
    ∧ counted devs' s'
    ∧ sys s' = sys s.
Proof.
  revert devs s. induction optargs as [|a rest IH]; intros devs s [Hc Hall] Hlen Hmax.
  { exists devs, s. by cbn. }
  cbn [options_b]. unfold option_b. cbn [List.length] in Hlen, Hmax.
  case_bool_decide as Hall_.
  - run.
    destruct (select_all_loop_counted (seqZ LOG_ID_MIN (Z.of_nat LOG_ID_MAX)) []
                (set_devCount 0 s)) as (devs1 & s1 & Hrun & Hcnt & Hsys & Hle).
    { split; [done|constructor]. }
    { rewrite length_seqZ, Nat2Z.id. cbn [List.length]. lia. }
    rewrite Hrun. rewrite length_seqZ, Nat2Z.id in Hle. cbn [List.length] in Hle.
    destruct (IH devs1 s1 Hcnt) as (devs' & s' & Hrun' & Hcnt' & Hsys'); [lia|lia|].
    exists devs', s'. split_and!; try done. by rewrite Hsys'.
  - unfold devCount_incr. run.
    set (d := new_log_device_t _ _). set (s1 := set_devCount _ s).
    destruct (IH (devs ++ [d]) s1) as (devs' & s' & Hrun' & Hcnt' & Hsys').
    + split.
      * unfold s1. cbn. rewrite Hc, int_wrap_small, length_app by lia. cbn. lia.
      * apply Forall_app. split; [done|]. by repeat constructor.
    + rewrite length_app. cbn. lia.
    + lia.
    + exists devs', s'. by split_and!.
Qed.

Lemma default_devices_counted devs s :
  counted devs s →
  ∃ devs' s',
    default_devices devs s = Ret devs' s'
    ∧ counted devs' s'
    ∧ devs' ≠ []
    ∧ sys s' = sys s.
Proof.
  intros Hcnt. unfold default_devices. destruct devs as [|d devs].
  - unfold devCount_incr. run.
    repeat case_bool_decide; run; eexists _, _; (split; [done|]);
      (split_and!; [|done|done]); (split; [by vm_compute|]);
      by repeat constructor.
  - exists (d :: devs), s. by split_and!.
Qed.
End RegistryCount.

(** X12. The option loop and the default set leave a registry that is
    not empty, with [g_devCount] the number of its devices (so a banner can
    be due at the start only with two devices or more), every device
    binary exactly when it is named "events" and none announced; no system
    call is made.  This holds for any [-b] options, "all" among them, as
    long as the count stays within [int]. *)
Theorem registry_counted `{LogIds} optargs s :
  g_devCount s = 0 →
  Z.of_nat (LOG_ID_MAX + List.length optargs) < 2 ^ 31 →
  ∃ devs s',
    (let* d := options_b optargs [] in default_devices d) s = Ret devs s'
    ∧ sys s' = sys s
    ∧ devs ≠ []
    ∧ g_devCount s' = Z.of_nat (List.length devs)
    ∧ Forall (λ d, binary d = bool_decide (device d = "events"%string)
                   ∧ printed d = false) devs.
Proof.
  intros Hzero Hlen.
  destruct (options_b_counted optargs [] s) as (devs1 & s1 & Hrun1 & Hcnt1 & Hsys1).
  { split; [done|constructor]. }
  { cbn [List.length]. lia. }
  { done. }
  destruct (default_devices_counted devs1 s1 Hcnt1)
    as (devs & s' & Hrun & [Hc Hall] & Hne & Hsys).
  exists devs, s'. unfold bind. rewrite Hrun1, Hrun.
  split_and!; try done. by rewrite Hsys.
Qed.

(** [-b main -b events -b main]: three devices, counted three. *)
Lemma registry_counted_witness :
  ∃ devs s',
    (let* d := options_b (H := std_ids) ["main"; "events"; "main"]%string [] in
     default_devices (H := std_ids) d) (initial_state os_stdout_only) = Ret devs s'
    ∧ g_devCount s' = Z.of_nat (List.length devs).
Proof.
  destruct (registry_counted (H := std_ids) ["main"; "events"; "main"]%string
              (initial_state os_stdout_only) eq_refl eq_refl)
    as (devs & s' & Hrun & _ & _ & Hc & _).
  exists devs, s'. split; [exact Hrun|exact Hc].
Defined.

(** ** Attribution of records; the output of a plain session *)

Lemma registry_view_insert devs i d d' :
  devs !! i = Some d →
  device d' = device d → binary d' = binary d →
  registry_view (<[i := d']> devs) = registry_view devs.
Proof.
  intros Hi Hn Hb. unfold registry_view.
  rewrite list_fmap_insert, Hn, Hb.
  apply list_insert_id. by rewrite list_lookup_fmap, Hi.
Qed.

Lemma registry_view_lookup devs devs' i :
  registry_view devs = registry_view devs' →
  (λ d, (device d, binary d)) <$> devs !! i = (λ d, (device d, binary d)) <$> devs' !! i.
Proof.
  intros Hv. unfold registry_view in Hv.
  by rewrite <- !list_lookup_fmap, Hv.
Qed.

Lemma sys_write_ok fd data w :
  os_fault w (SysWrite fd data) = None →
  is_Some (os_fds w !! fd) →
  (sys_write fd data w).1 = Z.of_nat (String.length data).
Proof.
  intros Hf [ino Hfd]. unfold sys_write. cbn [os_log os_fault os_fds].
  by rewrite Hf, Hfd.
Qed.

Section Attribution.
Context `{LogIds} `{LogPrint}.

Lemma find_device_view devs devs' id :
  registry_view devs = registry_view devs' →
  find_device devs id = find_device devs' id.
Proof.
  revert devs'. induction devs as [|d devs IH]; intros [|d' devs'] Hv; try done.
  injection Hv as Hn Hb Hv. unfold find_device in *. cbn [list_find].
  rewrite Hn. destruct (decide _); [done|].
  specialize (IH devs' Hv).
  destruct (list_find _ devs) as [[i x]|], (list_find _ devs') as [[i' x']|];
    cbn in *; congruence.
Qed.

Lemma find_device_Some devs id i :
  find_device devs id = Some i →
  ∃ d, devs !! i = Some d
       ∧ android_name_to_log_id (device d) = id
       ∧ ∀ j d', (j < i)%nat → devs !! j = Some d' →
                 android_name_to_log_id (device d') ≠ id.
Proof.
  unfold find_device. intros Hf.
  destruct (list_find _ devs) as [[i' d]|] eqn:Hl; [|done].
  injection Hf as ->. apply list_find_Some in Hl as (Hi & Hd & Hbefore).
  exists d. split_and!; try done. intros j d' Hj Hd'. by apply (Hbefore j).
Qed.

Lemma find_device_None devs id :
  find_device devs id = None →
  ∀ d, d ∈ devs → android_name_to_log_id (device d) ≠ id.
Proof.
  unfold find_device. intros Hf.
  destruct (list_find _ devs) as [[i' d]|] eqn:Hl; [done|].
  apply list_find_None in Hl. intros d Hd. by eapply Forall_forall in Hl.
Qed.
End Attribution.

Lemma announced_dev pd r v : dev (announced pd r v) = Some r.
Proof.
  unfold announced. case_bool_decide as Hd.
  - by destruct r.
  - done.
Qed.

Lemma announced_view pd r v :
  match r with DevAt i => is_Some (devices v !! i) | DevUnexpected => True end →
  registry_view (devices (announced pd r v)) = registry_view (devices v)
  ∧ device (unexpected (announced pd r v)) = device (unexpected v)
  ∧ binary (unexpected (announced pd r v)) = binary (unexpected v)
  ∧ binary (deref (announced pd r v) r) = binary (deref v r).
Proof.
  intros Hr. unfold announced. case_bool_decide; [|done].
  destruct r as [i|]; cbn [store set_dev devices unexpected deref].
  - destruct Hr as [d Hd]. rewrite Hd. cbn [default].
    rewrite list_lookup_insert_eq by (by eapply lookup_lt_Some). cbn [default].
    split_and!; try done.
    + eapply registry_view_insert; [done|..]; by destruct (_ || _).
    + by destruct (_ || _).
  - split_and!; try done; by destruct (_ || _).
Qed.

Section Attributed.
Context `{LogIds} `{LogPrint}.

Lemma announce_spec pd r v s :
  let a :=
    (if bool_decide (dev v ≠ Some r) then
       let* d' := maybePrintStart (deref (set_dev r v) r) pd in
       ret (store (set_dev r v) r d')
     else ret v) s in
  (∃ code s', a = Exit code s')
  ∨ (∃ s', a = Ret (announced pd r v) s' ∧ g_devCount s' = g_devCount s).
Proof.
  cbv zeta. unfold announced. case_bool_decide; [|right; by eexists].
  unfold bind.
  pose proof (maybePrintStart_globals (deref (set_dev r v) r) pd s) as (_ & _ & _ & _ & _ & _ & Hc).
  destruct (maybePrintStart _ _ _) as [d' s'|code s'] eqn:Hm.
  - right. exists s'. apply maybePrintStart_device in Hm. subst d'.
    split; [|done]. unfold ret. by destruct r.
  - left. by eexists _, _.
Qed.

Lemma print_spec (d : log_device_t) msg (v : loop_vars) s :
  let p :=
    (let* s := get in
     (if negb (g_printBinary s =? 0) then printBinary msg
      else processBuffer d msg);;
     ret (Continue v)) s in
  (∃ code s', p = Exit code s')
  ∨ (∃ s', p = Ret (Continue v) s' ∧ g_devCount s' = g_devCount s).
Proof.
  cbv zeta. unfold bind, get, ret.
  destruct (negb (g_printBinary s =? 0)).
  - destruct (printBinary_state msg s) as [w Hw].
    destruct (printBinary msg s) as [[] s'|code s'].
    + right. cbn in Hw. subst s'. by eexists.
    + left. by eexists _, _.
  - pose proof (processBuffer_devCount d msg s) as Hc.
    destruct (processBuffer d msg s) as [[] s'|code s'] eqn:Hp.
    + right. by eexists.
    + left. by eexists _, _.
Qed.

Lemma loop_pass_found pd v ret_ msg s i :
  0 < ret_ →
  find_device (devices v) (msg_id msg) = Some i →
  loop_pass pd v ret_ msg s
  = (let* v2 :=
       (if bool_decide (dev v ≠ Some (DevAt i)) then
          let* d' := maybePrintStart (deref (set_dev (DevAt i) v) (DevAt i)) pd in
          ret (store (set_dev (DevAt i) v) (DevAt i) d')
        else ret v) in
     let* s := get in
     (if negb (g_printBinary s =? 0) then printBinary msg
      else processBuffer (deref v2 (DevAt i)) msg);;
     ret (Continue v2)) s.
Proof.
  intros Hpos Hfind. unfold loop_pass.
  destruct (Z.eqb_spec ret_ 0); [lia|].
  destruct (Z.ltb_spec ret_ 0); [lia|].
  by rewrite Hfind.
Qed.

Lemma loop_pass_missing pd v ret_ msg s :
  0 < ret_ →
  find_device (devices v) (msg_id msg) = None →
  let v1 := store v DevUnexpected
              (set_binary (msg_id msg =? LOG_ID_EVENTS) (unexpected v)) in
  loop_pass pd v ret_ msg s
  = (let* v2 :=
       (if bool_decide (dev v1 ≠ Some DevUnexpected) then
          let* d' := maybePrintStart (deref (set_dev DevUnexpected v1) DevUnexpected) pd in
          ret (store (set_dev DevUnexpected v1) DevUnexpected d')
        else ret v1) in
     let* s := get in
     (if negb (g_printBinary s =? 0) then printBinary msg
      else processBuffer (deref v2 DevUnexpected) msg);;
     ret (Continue v2)) (set_devCount 2 s).
Proof.
  intros Hpos Hfind. unfold loop_pass.
  destruct (Z.eqb_spec ret_ 0); [lia|].
  destruct (Z.ltb_spec ret_ 0); [lia|].
  by rewrite Hfind.
Qed.

Lemma attributed_spec pd r v msg s :
  let p :=
    (let* v2 :=
       (if bool_decide (dev v ≠ Some r) then
          let* d' := maybePrintStart (deref (set_dev r v) r) pd in
          ret (store (set_dev r v) r d')
        else ret v) in
     let* s := get in
     (if negb (g_printBinary s =? 0) then printBinary msg
      else processBuffer (deref v2 r) msg);;
     ret (Continue v2)) s in
  (∃ code s', p = Exit code s')
  ∨ (∃ s', p = Ret (Continue (announced pd r v)) s' ∧ g_devCount s' = g_devCount s).
Proof.
  cbv zeta.
  destruct (announce_spec pd r v s) as [(c1 & s1 & Ha)|(s1 & Ha & Hc1)]; cbv zeta in Ha.
  { left. exists c1, s1. unfold bind at 1. by rewrite Ha. }
  destruct (print_spec (deref (announced pd r v) r) msg (announced pd r v) s1)
    as [(c2 & s2 & Hp)|(s2 & Hp & Hc2)]; cbv zeta in Hp.
  - left. exists c2, s2. unfold bind at 1. by rewrite Ha.
  - right. exists s2. split; [|congruence]. unfold bind at 1. by rewrite Ha.
Qed.

Lemma record_line_binary d d' fd msg :
  binary d' = binary d → record_line d' fd msg = record_line d fd msg.
Proof. unfold record_line. by intros ->. Qed.

Lemma same_sink_refl s : same_sink s s.
Proof. done. Qed.

Lemma same_sink_trans s1 s2 s3 :
  same_sink s1 s2 → same_sink s2 s3 → same_sink s1 s3.
Proof.
  intros (? & ? & ? & ? & ? & ? & ?) (? & ? & ? & ? & ? & ? & ?).
  split_and!; congruence.
Qed.

Lemma same_sink_writable s s' : same_sink s s' → writable s → writable s'.
Proof.
  intros (_ & _ & _ & Hfd & Hfds & Hfa & _) [Hopen Hfault]. split.
  - by rewrite Hfds, Hfd.
  - intros data. by rewrite Hfa, Hfd.
Qed.

Lemma emits_suppressed dev pd s :
  (1 <? g_devCount s) && (g_printBinary s =? 0) = false → emits dev pd s = false.
Proof.
  unfold emits. intros Hs. rewrite <- andb_assoc, Hs. apply andb_false_r.
Qed.

(** A write that is not refused. *)
Lemma write_writable data s :
  writable s →
  let w := (sys_write (g_outFD s) data (sys s)).2 in
  write (g_outFD s) data s = Ret (Z.of_nat (String.length data)) (set_sys w s)
  ∧ os_trace w = os_trace (sys s) ++ [SysWrite (g_outFD s) data]
  ∧ same_sink s (set_sys w s).
Proof.
  intros [Hopen Hfault]. cbv zeta. rewrite write_eq.
  destruct (sys_write_tests (g_outFD s) data (sys s)) as [-> _].
  rewrite bool_decide_eq_false_2 by (by rewrite Hfault).
  rewrite (sys_write_ok _ _ _ (Hfault _) Hopen).
  destruct (sys_write_fds (g_outFD s) data (sys s)) as (Hf & _ & _ & He).
  pose proof (sys_write_fault _ _ _ (Hfault data)) as Hfa.
  split; [done|]. split; [apply sys_write_trace|]. by split_and!.
Qed.

Lemma maybePrintStart_writable dev pd s :
  writable s →
  ∃ s',
    maybePrintStart dev pd s
    = Ret (if negb (printed dev) || pd then set_printed true dev else dev) s'
    ∧ os_trace (sys s')
      = os_trace (sys s)
        ++ (if emits dev pd s then [SysWrite (g_outFD s) (banner dev)] else [])
    ∧ same_sink s s'.
Proof.
  intros Hw. pose proof (maybePrintStart_trace dev pd s) as Ht.
  destruct (write_writable (banner dev) s Hw) as (Hrun & _ & Hsame).
  rewrite write_eq in Hrun. revert Ht. rewrite maybePrintStart_eq. cbv zeta.
  destruct (negb (printed dev) || pd); [|by eexists].
  destruct ((1 <? g_devCount s) && (g_printBinary s =? 0)); [|by eexists].
  destruct (_ && _); [done|]. injection Hrun as Hn.
  rewrite Hn.
  destruct (Z.ltb_spec (Z.of_nat (String.length (banner dev))) 0); [lia|].
  by eexists.
Qed.

Lemma printBinary_writable msg s :
  writable s →
  ∃ s',
    printBinary msg s = Ret tt s'
    ∧ os_trace (sys s') = os_trace (sys s) ++ [SysWrite (g_outFD s) (msg_raw msg)]
    ∧ same_sink s s'.
Proof.
  intros Hw. destruct (write_writable (msg_raw msg) s Hw) as (_ & Ht & Hsame).
  destruct Hw as [_ Hfault].
  rewrite printBinary_eq. cbv zeta.
  destruct (sys_write_tests (g_outFD s) (msg_raw msg) (sys s)) as [-> ->].
  rewrite !bool_decide_eq_false_2 by (by rewrite Hfault).
  by eexists.
Qed.

Lemma processBuffer_line d msg s :
  g_logRotateSizeKBytes s ≤ 0 →
  writable s →
  ∃ s',
    processBuffer d msg s = Ret tt s'
    ∧ os_trace (sys s') = os_trace (sys s) ++ record_line d (g_outFD s) msg
    ∧ same_sink s s'.
Proof.
  intros Hr Hw. unfold record_line.
  destruct (if binary d then _ else _) as [entry|] eqn:Hdec.
  2:{ exists s. unfold processBuffer. rewrite Hdec, app_nil_r. by split_and!. }
  destruct (android_log_shouldPrintLine entry) eqn:Hshow.
  - rewrite (processBuffer_printed d msg s entry Hdec Hshow). cbv zeta.
    destruct (write_writable (android_log_formatLogLine entry) s Hw)
      as (_ & Ht & Hsame).
    destruct Hw as [Hopen Hfault].
    destruct (sys_write_tests (g_outFD s) (android_log_formatLogLine entry) (sys s))
      as [-> _].
    rewrite bool_decide_eq_false_2 by (by rewrite Hfault).
    rewrite (sys_write_ok _ _ _ (Hfault _) Hopen).
    destruct (Z.ltb_spec (Z.of_nat (String.length (android_log_formatLogLine entry))) 0);
      [lia|].
    destruct (Z.ltb_spec 0 (g_logRotateSizeKBytes s)); [lia|]. cbn [andb].
    eexists. split; [done|]. by cbn [sys set_sys set_outByteCount].
  - unfold processBuffer. rewrite Hdec, Hshow. run.
    destruct (Z.ltb_spec 0 (g_logRotateSizeKBytes s)); [lia|]. cbn.
    eexists. split; [done|]. cbn. rewrite app_nil_r. by split_and!.
Qed.

(** What a pass writes for a record, the banner apart: the record as it is
    in binary mode, its line otherwise. *)
Lemma print_writable d msg (v : loop_vars) s :
  g_logRotateSizeKBytes s ≤ 0 →
  writable s →
  ∃ s',
    (let* s := get in
     (if negb (g_printBinary s =? 0) then printBinary msg
      else processBuffer d msg);;
     ret (Continue v)) s = Ret (Continue v) s'
    ∧ os_trace (sys s')
      = os_trace (sys s)
        ++ (if g_printBinary s =? 0 then record_line d (g_outFD s) msg
            else [SysWrite (g_outFD s) (msg_raw msg)])
    ∧ same_sink s s'.
Proof.
  intros Hr Hw. unfold bind, get, ret.
  destruct (g_printBinary s =? 0); cbn [negb].
  - destruct (processBuffer_line d msg s Hr Hw) as (s' & -> & Ht & Hsame).
    by exists s'.
  - destruct (printBinary_writable msg s Hw) as (s' & -> & Ht & Hsame).
    by exists s'.
Qed.

(** A pass on a record attributed to [r], when the output is never refused
    and no threshold is set: the banner, if one is due, then the record; the
    loop goes on with the flag of the device as [maybePrintStart] left it. *)
Lemma attributed_writable pd r v msg s :
  g_logRotateSizeKBytes s ≤ 0 →
  writable s →
  ∃ s',
    (let* v2 :=
       (if bool_decide (dev v ≠ Some r) then
          let* d' := maybePrintStart (deref (set_dev r v) r) pd in
          ret (store (set_dev r v) r d')
        else ret v) in
     let* s := get in
     (if negb (g_printBinary s =? 0) then printBinary msg
      else processBuffer (deref v2 r) msg);;
     ret (Continue v2)) s = Ret (Continue (announced pd r v)) s'
    ∧ os_trace (sys s')
      = os_trace (sys s)
        ++ (if bool_decide (dev v ≠ Some r) && emits (deref v r) pd s
            then [SysWrite (g_outFD s) (banner (deref v r))] else [])
        ++ (if g_printBinary s =? 0
            then record_line (deref (announced pd r v) r) (g_outFD s) msg
            else [SysWrite (g_outFD s) (msg_raw msg)])
    ∧ same_sink s s'.
Proof.
  intros Hr Hw.
  assert (∃ s1,
            (if bool_decide (dev v ≠ Some r) then
               let* d' := maybePrintStart (deref (set_dev r v) r) pd in
               ret (store (set_dev r v) r d')
             else ret v) s = Ret (announced pd r v) s1
            ∧ os_trace (sys s1)
              = os_trace (sys s)
                ++ (if bool_decide (dev v ≠ Some r) && emits (deref v r) pd s
                    then [SysWrite (g_outFD s) (banner (deref v r))] else [])
            ∧ same_sink s s1) as (s1 & Ha & Ht1 & Hs1).
  { unfold announced. case_bool_decide; cbn [andb].
    - destruct (maybePrintStart_writable (deref (set_dev r v) r) pd s Hw)
        as (s1 & Hm & Ht & Hsame).
      exists s1. unfold bind. rewrite Hm. split; [by destruct r|].
      split; [|done]. rewrite Ht. by destruct r.
    - exists s. by rewrite app_nil_r. }
  pose proof (same_sink_writable _ _ Hs1 Hw) as Hw1.
  pose proof Hs1 as (Hc1 & Hb1 & Hr1 & Hfd1 & _).
  destruct (print_writable (deref (announced pd r v) r) msg (announced pd r v) s1)
    as (s' & Hp & Ht & Hs'); [lia|done|].
  exists s'. rewrite (bind_Ret _ _ _ _ _ Ha). split; [exact Hp|].
  split.
  - by rewrite Ht, Ht1, Hb1, Hfd1, <- app_assoc.
  - by eapply same_sink_trans.
Qed.

(** The same for the pass as a whole: [r], [v1] and [s1] are the device the
    record is attributed to and what the search leaves. *)
Lemma loop_pass_writable pd v ret_ msg s :
  0 < ret_ →
  g_logRotateSizeKBytes s ≤ 0 →
  writable s →
  let found := find_device (devices v) (msg_id msg) in
  let r := match found with Some i => DevAt i | None => DevUnexpected end in
  let v1 := match found with
            | Some _ => v
            | None => store v DevUnexpected
                        (set_binary (msg_id msg =? LOG_ID_EVENTS) (unexpected v))
            end in
  let s1 := match found with Some _ => s | None => set_devCount 2 s end in
  ∃ s',
    loop_pass pd v ret_ msg s = Ret (Continue (announced pd r v1)) s'
    ∧ os_trace (sys s')
      = os_trace (sys s)
        ++ (if bool_decide (dev v1 ≠ Some r) && emits (deref v1 r) pd s1
            then [SysWrite (g_outFD s) (banner (deref v1 r))] else [])
        ++ (if g_printBinary s =? 0
            then record_line (deref (announced pd r v1) r) (g_outFD s) msg
            else [SysWrite (g_outFD s) (msg_raw msg)])
    ∧ same_sink s1 s'.
Proof.
  intros Hpos Hr Hw. cbv zeta.
  destruct (find_device (devices v) (msg_id msg)) as [i|] eqn:Hfind.
  - rewrite (loop_pass_found pd v ret_ msg s i Hpos Hfind).
    apply attributed_writable; done.
  - rewrite (loop_pass_missing pd v ret_ msg s Hpos Hfind). cbv zeta.
    apply (attributed_writable pd DevUnexpected _ msg (set_devCount 2 s)); done.
Qed.

(** X13. A record that is handled is attributed to the first device of the
    registry whose name resolves to the record's buffer, so a device
    registered again further down is never chosen; [g_devCount] is then
    unchanged.  When no device resolves to it, the record goes to the local
    [unexpected] device, which is made binary exactly for the events
    buffer, and [g_devCount] becomes 2.  Either way the names and kinds of
    the registry stay as they were.  A record never ends the loop normally.
    It is handled whenever the output is never refused and no threshold is
    set; a pass that exits on a record exits on output, with -1 or with the
    status of the SIGPIPE handler. *)
Theorem record_attribution pd v ret_ msg s :
  0 < ret_ →
  (∀ v' s',
     loop_pass pd v ret_ msg s = Ret (Continue v') s' →
     registry_view (devices v') = registry_view (devices v)
     ∧ device (unexpected v') = device (unexpected v)
     ∧ ((∃ i d,
           dev v' = Some (DevAt i)
           ∧ devices v !! i = Some d
           ∧ android_name_to_log_id (device d) = msg_id msg
           ∧ (∀ j d', (j < i)%nat → devices v !! j = Some d' →
                      android_name_to_log_id (device d') ≠ msg_id msg)
           ∧ g_devCount s' = g_devCount s
           ∧ binary (unexpected v') = binary (unexpected v))
        ∨ (dev v' = Some DevUnexpected
           ∧ (∀ d, d ∈ devices v → android_name_to_log_id (device d) ≠ msg_id msg)
           ∧ g_devCount s' = 2
           ∧ binary (unexpected v') = (msg_id msg =? LOG_ID_EVENTS))))
  ∧ (∀ s', loop_pass pd v ret_ msg s ≠ Ret Break s')
  ∧ (∀ code s',
       loop_pass pd v ret_ msg s = Exit code s' →
       (code = -1 ∨ code = SIGPIPE)
       ∧ ¬ (writable s ∧ g_logRotateSizeKBytes s ≤ 0))
  ∧ (writable s → g_logRotateSizeKBytes s ≤ 0 →
     ∃ v' s', loop_pass pd v ret_ msg s = Ret (Continue v') s').
Proof.
  intros Hpos.
  assert (writable s → g_logRotateSizeKBytes s ≤ 0 →
          ∃ v' s', loop_pass pd v ret_ msg s = Ret (Continue v') s') as Hgoes.
  { intros Hw Hr.
    destruct (loop_pass_writable pd v ret_ msg s Hpos Hr Hw) as (s' & Hrun & _).
    by eexists _, _. }
  split_and!; [| | |exact Hgoes].
  - intros v' s' Hrun.
    destruct (find_device (devices v) (msg_id msg)) as [i|] eqn:Hfind.
    + destruct (find_device_Some _ _ _ Hfind) as (d & Hd & Hid & Hfirst).
      rewrite (loop_pass_found pd v ret_ msg s i Hpos Hfind) in Hrun.
      destruct (attributed_spec pd (DevAt i) v msg s)
        as [(c & s2 & Hexit)|(s2 & Hret & Hc)]; cbv zeta in *; [congruence|].
      rewrite Hret in Hrun. injection Hrun as <- <-.
      destruct (announced_view pd (DevAt i) v) as (Hv & Hn & Hb & _); [by eexists|].
      split; [done|]. split; [done|]. left. exists i, d.
      rewrite announced_dev. by split_and!.
    + pose proof (find_device_None _ _ Hfind) as Hnone.
      rewrite (loop_pass_missing pd v ret_ msg s Hpos Hfind) in Hrun.
      cbv zeta in Hrun.
      set (v1 := store v DevUnexpected _) in Hrun.
      destruct (attributed_spec pd DevUnexpected v1 msg (set_devCount 2 s))
        as [(c & s2 & Hexit)|(s2 & Hret & Hc)]; cbv zeta in *; [congruence|].
      rewrite Hret in Hrun. injection Hrun as <- <-.
      destruct (announced_view pd DevUnexpected v1) as (Hv & Hn & Hb & _); [done|].
      split; [done|]. split; [done|]. right.
      rewrite announced_dev. by split_and!.
  - intros s' Hrun.
    destruct (loop_pass_record pd v ret_ msg s Hpos)
      as [(v' & s2 & Hgo)|(c & s2 & Hexit & _)]; congruence.
  - intros code s' Hrun. split.
    + destruct (loop_pass_record pd v ret_ msg s Hpos)
        as [(v' & s2 & Hgo)|(c & s2 & Hexit & Hcode)]; [congruence|].
      rewrite Hexit in Hrun. by injection Hrun as <- _.
    + intros [Hw Hr]. destruct (Hgoes Hw Hr) as (v' & s2 & Hgo). congruence.
Qed.
End Attributed.

Section Session.
Context `{LogIds} `{LogPrint}.

Lemma line_of_view devs devs' fd msg :
  registry_view devs = registry_view devs' →
  line_of devs fd msg = line_of devs' fd msg.
Proof.
  intros Hv. unfold line_of. rewrite (find_device_view devs devs' _ Hv).
  destruct (find_device devs' (msg_id msg)) as [i|]; [|done].
  pose proof (registry_view_lookup devs devs' i Hv) as Hl.
  destruct (devs !! i) as [d|], (devs' !! i) as [d'|]; try done.
  cbn in Hl. injection Hl as _ Hb. by rewrite Hb.
Qed.

Lemma loop_pass_line pd v ret_ msg s i :
  0 < ret_ →
  find_device (devices v) (msg_id msg) = Some i →
  plain_session s →
  writable s →
  ∃ s',
    loop_pass pd v ret_ msg s = Ret (Continue (announced pd (DevAt i) v)) s'
    ∧ os_trace (sys s') = os_trace (sys s) ++ line_of (devices v) (g_outFD s) msg
    ∧ same_sink s s'.
Proof.
  intros Hpos Hfind (Hc & Hb & Hr) Hw.
  destruct (find_device_Some _ _ _ Hfind) as (d & Hd & _).
  pose proof (loop_pass_writable pd v ret_ msg s Hpos Hr Hw) as Hpass.
  cbv zeta in Hpass. rewrite Hfind in Hpass.
  destruct Hpass as (s' & Hrun & Ht & Hsame).
  exists s'. split; [done|]. split; [|done]. rewrite Ht.
  rewrite emits_suppressed, andb_false_r
    by (destruct (Z.ltb_spec 1 (g_devCount s)); [lia|done]).
  rewrite Hb. cbn [Z.eqb app]. f_equal.
  destruct (announced_view pd (DevAt i) v) as (_ & _ & _ & Hbin); [by eexists|].
  rewrite (record_line_binary _ _ _ _ Hbin).
  unfold line_of, record_line. rewrite Hfind, Hd. cbn [deref]. by rewrite Hd.
Qed.
End Session.

Section SessionOutput.
Context `{LogIds} `{LogPrint}.

Lemma loop_pass_ends pd v ret_ msg s :
  ret_ ≤ 0 →
  loop_pass pd v ret_ msg s = Ret Break s
  ∨ ∃ s', loop_pass pd v ret_ msg s = Exit EXIT_FAILURE s'
          ∧ os_trace (sys s') = os_trace (sys s).
Proof.
  intros Hle. unfold loop_pass.
  destruct (Z.eqb_spec ret_ 0); [right; by eexists|].
  destruct (Z.ltb_spec ret_ 0); [|lia].
  destruct (ret_ =? - EAGAIN); [by left|].
  destruct (ret_ =? - EIO); [right; by eexists|].
  destruct (ret_ =? - EINVAL); right; by eexists.
Qed.

End SessionOutput.

(** X14. A text session with one device counted and no threshold whose
    output is never refused, on records that all belong to registered
    buffers: the system calls it makes are exactly one write on [g_outFD]
    per record that decodes and passes the filter, of the formatted line,
    in the order of arrival.  No banner is written, with or without [-D],
    and the only way to exit is a failing read, with [EXIT_FAILURE]. *)
Theorem single_buffer_session_output `{LogIds} `{LogPrint} pd reads v s :
  g_devCount s ≤ 1 →
  g_printBinary s = 0 →
  g_logRotateSizeKBytes s ≤ 0 →
  is_Some (os_fds (sys s) !! g_outFD s) →
  (∀ data, os_fault (sys s) (SysWrite (g_outFD s) data) = None) →
  (∀ msg, msg ∈ delivered reads → is_Some (find_device (devices v) (msg_id msg))) →
  os_trace (sys (final_state (read_loop pd reads v s)))
  = os_trace (sys s)
    ++ List.concat (line_of (devices v) (g_outFD s) <$> delivered reads)
  ∧ (∀ code s', read_loop pd reads v s = Exit code s' → code = EXIT_FAILURE).
Proof.
  intros Hc Hb Hr Hopen Hfault.
  assert (plain_session s) as Hplain by done.
  assert (writable s) as Hw by done.
  clear Hc Hb Hr Hopen Hfault. revert Hplain Hw.
  revert v s. induction reads as [|[ret_ msg] rest IH]; intros v s Hplain Hw Hknown.
  { cbn. by rewrite app_nil_r. }
  cbn [read_loop delivered] in *. unfold bind.
  destruct (Z.ltb_spec 0 ret_) as [Hpos|Hle].
  - destruct (Hknown msg ltac:(left)) as [i Hfind].
    destruct (loop_pass_line pd v ret_ msg s i Hpos Hfind Hplain Hw)
      as (s' & -> & Ht & Hc' & Hb' & Hr' & Hfd' & Hfds' & Hfa' & He').
    destruct (find_device_Some _ _ _ Hfind) as (d & Hd & _).
    destruct (announced_view pd (DevAt i) v) as (Hv & _); [by eexists|].
    destruct (IH (announced pd (DevAt i) v) s') as [IHt IHe].
    + destruct Hplain as (? & ? & ?). split_and!; congruence.
    + destruct Hw as [Hopen Hfault]. split.
      * by rewrite Hfds', Hfd'.
      * intros data. by rewrite Hfa', Hfd'.
    + intros m Hm. rewrite (find_device_view _ _ _ Hv). apply Hknown. by right.
    + split; [|exact IHe]. rewrite IHt, Ht, <- app_assoc. f_equal.
      cbn [fmap list_fmap List.concat]. f_equal. f_equal.
      apply list_fmap_ext. intros k m _. rewrite Hfd'. by apply line_of_view.
  - cbn [fmap list_fmap List.concat]. rewrite app_nil_r.
    destruct (loop_pass_ends pd v ret_ msg s Hle) as [->|(s' & -> & Ht)];
      cbn [final_state]; [done|].
    split; [done|]. by intros code s'' [= <- _].
Qed.

(** Three records of [main], the second of which does not decode, then
    [-EAGAIN]: two lines. *)
Lemma single_buffer_session_output_witness :
  os_trace (sys (final_state
    (read_loop (H := std_ids) (H0 := raw_logprint) true
       [(10, mkMsg 0 "a"); (10, mkMsg 0 ""); (10, mkMsg 0 "b"); (- EAGAIN, mkMsg 0 "")]
       (loop_start [new_log_device_t "main" false])
       (mkState None 0 4 1 0 0 1 os_stdout_only))))
  = [SysWrite 1 ("a" +:+ newline); SysWrite 1 ("b" +:+ newline)].
Proof.
  pose proof (proj1 (single_buffer_session_output (H := std_ids) (H0 := raw_logprint) true
       [(10, mkMsg 0 "a"); (10, mkMsg 0 ""); (10, mkMsg 0 "b"); (- EAGAIN, mkMsg 0 "")]
       (loop_start [new_log_device_t "main" false])
       (mkState None 0 4 1 0 0 1 os_stdout_only)
       ltac:(cbn; lia) eq_refl ltac:(cbn; lia) (ex_intro _ 0%nat eq_refl)
       (λ _, eq_refl)
       ltac:(intros msg Hm; cbn in Hm;
             repeat (apply elem_of_cons in Hm as [->|Hm]; [by exists 0%nat|]);
             by apply elem_of_nil in Hm))) as Ht.
  vm_compute in Ht. vm_compute. exact Ht.
Defined.


(** [main] registered twice behind [system], and a record of [main]: it
    goes to the first of the two. *)
Lemma record_attribution_witness :
  ∃ v' s',
    loop_pass (H := std_ids) (H0 := raw_logprint) false
      (loop_start [new_log_device_t "system" false; new_log_device_t "main" false;
                   new_log_device_t "main" false])
      10 (mkMsg 0 "m") (mkState None 0 4 1 0 0 3 os_stdout_only) = Ret (Continue v') s'
    ∧ registry_view (devices v')
      = [("system", false); ("main", false); ("main", false)]%string
    ∧ dev v' = Some (DevAt 1).
Proof.
  pose proof (record_attribution (H := std_ids) (H0 := raw_logprint) false
                (loop_start [new_log_device_t "system" false; new_log_device_t "main" false;
                             new_log_device_t "main" false])
                10 (mkMsg 0 "m") (mkState None 0 4 1 0 0 3 os_stdout_only) ltac:(lia))
    as (Hfacts & _ & _ & Hgoes).
  destruct (Hgoes (conj (ex_intro _ 0%nat eq_refl) (λ _, eq_refl)) ltac:(cbn; lia))
    as (v' & s' & Hrun).
  destruct (Hfacts v' s' Hrun) as (Hv & _ & Hwhich).
  exists v', s'. split; [exact Hrun|]. split; [exact Hv|].
  vm_compute in Hrun. injection Hrun as <- _. reflexivity.
Defined.

(** ** A channel announced while banners are suppressed *)

Section SuppressedBanner.
Context `{LogIds} `{LogPrint}.

(** A pass on a record of the device at [i], which the previous record did
    not belong to, when the output is never refused and no threshold is
    set. *)
Lemma loop_pass_at pd v ret_ msg s i d :
  0 < ret_ →
  find_device (devices v) (msg_id msg) = Some i →
  devices v !! i = Some d →
  dev v ≠ Some (DevAt i) →
  g_logRotateSizeKBytes s ≤ 0 →
  writable s →
  let d' := if negb (printed d) || pd then set_printed true d else d in
  ∃ s',
    loop_pass pd v ret_ msg s
    = Ret (Continue (mkVars (<[i := d']> (devices v)) (unexpected v) (Some (DevAt i)))) s'
    ∧ os_trace (sys s')
      = os_trace (sys s)
        ++ (if emits d pd s then [SysWrite (g_outFD s) (banner d)] else [])
        ++ (if g_printBinary s =? 0 then record_line d (g_outFD s) msg
            else [SysWrite (g_outFD s) (msg_raw msg)])
    ∧ same_sink s s'.
Proof.
  intros Hpos Hfind Hd Hdev Hr Hw d'.
  pose proof (loop_pass_writable pd v ret_ msg s Hpos Hr Hw) as Hpass.
  cbv zeta in Hpass. rewrite Hfind in Hpass.
  destruct Hpass as (s' & Hrun & Ht & Hsame).
  assert (announced pd (DevAt i) v
          = mkVars (<[i := d']> (devices v)) (unexpected v) (Some (DevAt i))) as Ha.
  { unfold announced. rewrite bool_decide_eq_true_2 by done.
    cbn [deref store set_dev devices unexpected dev]. by rewrite Hd. }
  rewrite Ha in Hrun, Ht. rewrite bool_decide_eq_true_2 in Ht by done.
  cbn [deref devices andb] in Ht. rewrite Hd in Ht. cbn [default] in Ht.
  rewrite list_lookup_insert_eq in Ht by (by eapply lookup_lt_Some).
  cbn [default] in Ht.
  rewrite (record_line_binary d d') in Ht by (unfold d'; by destruct (_ || _)).
  by exists s'.
Qed.

(** A pass on a record of a buffer that is not registered, after a record
    of a registered one. *)
Lemma loop_pass_other pd v ret_ msg s :
  0 < ret_ →
  find_device (devices v) (msg_id msg) = None →
  dev v ≠ Some DevUnexpected →
  g_logRotateSizeKBytes s ≤ 0 →
  writable s →
  let u := set_binary (msg_id msg =? LOG_ID_EVENTS) (unexpected v) in
  let u' := if negb (printed u) || pd then set_printed true u else u in
  ∃ s',
    loop_pass pd v ret_ msg s
    = Ret (Continue (mkVars (devices v) u' (Some DevUnexpected))) s'
    ∧ os_trace (sys s')
      = os_trace (sys s)
        ++ (if emits u pd (set_devCount 2 s)
            then [SysWrite (g_outFD s) (banner u)] else [])
        ++ (if g_printBinary s =? 0 then record_line u (g_outFD s) msg
            else [SysWrite (g_outFD s) (msg_raw msg)])
    ∧ same_sink (set_devCount 2 s) s'.
Proof.
  intros Hpos Hfind Hdev Hr Hw u u'.
  pose proof (loop_pass_writable pd v ret_ msg s Hpos Hr Hw) as Hpass.
  cbv zeta in Hpass. rewrite Hfind in Hpass.
  destruct Hpass as (s' & Hrun & Ht & Hsame).
  fold u in Hrun, Ht.
  assert (announced pd DevUnexpected (store v DevUnexpected u)
          = mkVars (devices v) u' (Some DevUnexpected)) as Ha.
  { unfold announced. cbn [store dev]. by rewrite bool_decide_eq_true_2. }
  rewrite Ha in Hrun, Ht. cbn [store dev] in Ht.
  rewrite bool_decide_eq_true_2 in Ht by done.
  cbn [deref unexpected andb] in Ht.
  rewrite (record_line_binary u u') in Ht by (unfold u'; by destruct (_ || _)).
  by exists s'.
Qed.

(** C10. A call of [maybePrintStart] that passes the test (flag clear, or
    dividers forced) while banners are suppressed (one channel, or binary
    mode) writes nothing and still sets the flag, and the loop stores the
    flag in the device: a pass on a record of a registered device that
    the previous record did not belong to, made while banners are
    suppressed, writes the record without a banner and goes on with the
    flag of that device set.  Hence the session in which a record of a
    registered device, a record of a buffer that is not registered and a
    second record of the device arrive, with one device counted, in text
    mode: the first record gets no banner, the second one "beginning of
    unexpected", and the third one "switch to X" when dividers are forced
    and no banner at all otherwise; "beginning of X" is never written.  A
    record of an unregistered buffer sets [g_devCount] to 2, which lifts
    the suppression in formatted mode; the loop never clears a flag; and
    for a device whose flag is set the only banner [maybePrintStart] can
    write is "switch to X", which differs from "beginning of X". *)
Theorem suppressed_banner_still_marks :
  (∀ dev pd s,
     negb (printed dev) || pd = true →
     (1 <? g_devCount s) && (g_printBinary s =? 0) = false →
     maybePrintStart dev pd s = Ret (set_printed true dev) s)
  ∧ (∀ pd v ret_ msg s i d,
       0 < ret_ →
       find_device (devices v) (msg_id msg) = Some i →
       devices v !! i = Some d →
       dev v ≠ Some (DevAt i) →
       negb (printed d) || pd = true →
       (1 <? g_devCount s) && (g_printBinary s =? 0) = false →
       g_logRotateSizeKBytes s ≤ 0 →
       writable s →
       ∃ v' s',
         loop_pass pd v ret_ msg s = Ret (Continue v') s'
         ∧ devices v' !! i = Some (set_printed true d)
         ∧ dev v' = Some (DevAt i)
         ∧ os_trace (sys s')
           = os_trace (sys s)
             ++ (if g_printBinary s =? 0 then record_line d (g_outFD s) msg
                 else [SysWrite (g_outFD s) (msg_raw msg)]))
  ∧ (∀ pd devs i d r1 m1 r2 m2 r3 m3 s,
       devs !! i = Some d →
       printed d = false →
       0 < r1 → 0 < r2 → 0 < r3 →
       find_device devs (msg_id m1) = Some i →
       find_device devs (msg_id m2) = None →
       find_device devs (msg_id m3) = Some i →
       g_devCount s ≤ 1 →
       g_printBinary s = 0 →
       g_logRotateSizeKBytes s ≤ 0 →
       writable s →
       ∃ v' s',
         read_loop pd [(r1, m1); (r2, m2); (r3, m3)] (loop_start devs) s
         = Ret (Waiting v') s'
         ∧ os_trace (sys s')
           = os_trace (sys s)
             ++ record_line d (g_outFD s) m1
             ++ [SysWrite (g_outFD s)
                   (snprintf_1024 ("--------- beginning of unexpected" +:+ newline)%string)]
             ++ record_line (new_log_device_t "unexpected" (msg_id m2 =? LOG_ID_EVENTS))
                  (g_outFD s) m2
             ++ (if pd
                 then [SysWrite (g_outFD s)
                         (snprintf_1024
                            ("--------- switch to " +:+ device d +:+ newline)%string)]
                 else [])
             ++ record_line d (g_outFD s) m3
         ∧ devices v' !! i = Some (set_printed true d))
  ∧ (∀ pd v ret_ msg s v' s',
       0 < ret_ →
       find_device (devices v) (msg_id msg) = None →
       loop_pass pd v ret_ msg s = Ret (Continue v') s' →
       g_devCount s' = 2)
  ∧ (∀ pd v ret_ msg s v' s' r,
       loop_pass pd v ret_ msg s = Ret (Continue v') s' →
       printed (deref v r) = true →
       printed (deref v' r) = true)
  ∧ (∀ dev pd s,
       printed dev = true →
       os_trace (sys (final_state (maybePrintStart dev pd s)))
       = os_trace (sys s)
         ++ (if emits dev pd s
             then [SysWrite (g_outFD s)
                     (snprintf_1024
                        ("--------- switch to " +:+ device dev +:+ newline)%string)]
             else [])
       ∧ snprintf_1024 ("--------- switch to " +:+ device dev +:+ newline)%string
         ≠ snprintf_1024 ("--------- beginning of " +:+ device dev +:+ newline)%string).
Proof.
  split_and!.
  - intros dev pd s Htest Hsup.
    rewrite maybePrintStart_suppressed by done. by rewrite Htest.
  - intros pd v ret_ msg s i d Hpos Hfind Hd Hdev Htest Hsup Hr Hw.
    destruct (loop_pass_at pd v ret_ msg s i d Hpos Hfind Hd Hdev Hr Hw)
      as (s' & Hrun & Ht & _).
    cbv zeta in Hrun. rewrite Htest in Hrun.
    rewrite (emits_suppressed d pd s Hsup) in Ht.
    eexists _, s'. split; [exact Hrun|]. cbn [devices dev].
    split; [|done]. apply list_lookup_insert_eq. by eapply lookup_lt_Some.
  - intros pd devs i d r1 m1 r2 m2 r3 m3 s Hd Hp Hr1 Hr2 Hr3 Hf1 Hf2 Hf3
      Hc Hb Hr Hw.
    set (d1 := set_printed true d).
    assert (i < List.length devs)%nat as Hi by (by eapply lookup_lt_Some).
    assert (registry_view (<[i := d1]> devs) = registry_view devs) as Hview
      by (by eapply registry_view_insert).
    (* the first record of the device *)
    destruct (loop_pass_at pd (loop_start devs) r1 m1 s i d Hr1 Hf1 Hd
                ltac:(done) Hr Hw) as (s1 & Hrun1 & Ht1 & Hs1).
    cbv zeta in Hrun1. rewrite Hp in Hrun1. cbn [negb orb] in Hrun1.
    fold d1 in Hrun1. cbn [loop_start devices unexpected] in Hrun1.
    rewrite emits_suppressed in Ht1
      by (destruct (Z.ltb_spec 1 (g_devCount s)); [lia|done]).
    rewrite Hb in Ht1. cbn [Z.eqb app] in Ht1.
    pose proof (same_sink_writable _ _ Hs1 Hw) as Hw1.
    destruct Hs1 as (Hc1 & Hb1 & Hrot1 & Hfd1 & Hfds1 & Hfa1 & He1).
    (* the record of the buffer that is not registered *)
    set (v1 := mkVars (<[i := d1]> devs) (new_log_device_t "unexpected" false)
                 (Some (DevAt i))) in Hrun1.
    destruct (loop_pass_other pd v1 r2 m2 s1 Hr2) as (s2 & Hrun2 & Ht2 & Hs2);
      [by rewrite (find_device_view _ _ _ Hview)|done|lia|done|].
    cbv zeta in Hrun2, Ht2. cbn [v1 devices unexpected] in Hrun2, Ht2.
    set (u := set_binary (msg_id m2 =? LOG_ID_EVENTS)
                (new_log_device_t "unexpected" false)) in Hrun2, Ht2.
    assert (emits u pd (set_devCount 2 s1) = true) as Hemit2.
    { unfold emits. cbn. by rewrite Hb1, Hb. }
    rewrite Hemit2, Hb1, Hb, Hfd1 in Ht2. cbn [Z.eqb negb orb] in Hrun2, Ht2.
    assert (writable s2) as Hw2.
    { eapply same_sink_writable; [exact Hs2|]. exact Hw1. }
    destruct Hs2 as (Hc2 & Hb2 & Hrot2 & Hfd2 & Hfds2 & Hfa2 & He2).
    cbn [g_devCount g_printBinary g_logRotateSizeKBytes g_outFD set_devCount]
      in Hc2, Hb2, Hrot2, Hfd2.
    (* the second record of the device *)
    set (v2 := mkVars (<[i := d1]> devs) (set_printed true u) (Some DevUnexpected))
      in Hrun2.
    destruct (loop_pass_at pd v2 r3 m3 s2 i d1 Hr3) as (s3 & Hrun3 & Ht3 & Hs3);
      [by rewrite (find_device_view _ _ _ Hview)
      |by apply list_lookup_insert_eq|done|lia|done|].
    cbv zeta in Hrun3. cbn [v2 devices unexpected] in Hrun3.
    assert (emits d1 pd s2 = pd) as Hemit3.
    { unfold emits. cbn [d1 printed set_printed negb orb].
      rewrite Hc2, Hb2, Hb1, Hb. cbn. by rewrite !andb_true_r. }
    rewrite Hemit3, Hb2, Hb1, Hb, Hfd2, Hfd1 in Ht3. cbn [Z.eqb] in Ht3.
    rewrite (banner_switch d1 eq_refl) in Ht3.
    rewrite (record_line_binary d d1) in Ht3 by done.
    eexists _, s3. split_and!.
    + cbn [read_loop]. rewrite (bind_Ret _ _ _ _ _ Hrun1).
      rewrite (bind_Ret _ _ _ _ _ Hrun2). rewrite (bind_Ret _ _ _ _ _ Hrun3).
      reflexivity.
    + rewrite Ht3, Ht2, Ht1. rewrite <- !app_assoc. reflexivity.
    + cbn [devices]. rewrite list_lookup_insert_eq by (by rewrite length_insert).
      f_equal. by destruct pd.
  - intros pd. apply loop_pass_unexpected.
  - intros pd. apply loop_pass_printed.
  - intros dev pd s Hp. split.
    + rewrite maybePrintStart_trace, (banner_switch dev Hp). done.
    + pose proof (banner_switch_ne_beginning dev) as Hne.
      unfold banner in Hne. cbn [printed set_printed device] in Hne. exact Hne.
Qed.
End SuppressedBanner.

(** [logcat -D -b main]: a record of main, one of radio, one of main.  The
    only banner main gets reads "switch to main". *)
Lemma suppressed_banner_still_marks_witness :
  ∃ v' s',
    read_loop (H := std_ids) (H0 := raw_logprint) true
      [(10, mkMsg 0 "m1"); (10, mkMsg 1 "r1"); (10, mkMsg 0 "m2")]
      (loop_start [new_log_device_t "main" false])
      (mkState None 0 4 1 0 0 1 os_stdout_only) = Ret (Waiting v') s'
    ∧ os_trace (sys s')
      = [SysWrite 1 ("m1" +:+ newline)%string;
         SysWrite 1 ("--------- beginning of unexpected" +:+ newline)%string;
         SysWrite 1 ("r1" +:+ newline)%string;
         SysWrite 1 ("--------- switch to main" +:+ newline)%string;
         SysWrite 1 ("m2" +:+ newline)%string]
    ∧ devices v' !! 0%nat = Some (set_printed true (new_log_device_t "main" false)).
Proof.
  destruct (proj1 (proj2 (proj2 (suppressed_banner_still_marks (H := std_ids)
                                   (H0 := raw_logprint))))
              true [new_log_device_t "main" false] 0%nat (new_log_device_t "main" false)
              10 (mkMsg 0 "m1") 10 (mkMsg 1 "r1") 10 (mkMsg 0 "m2")
              (mkState None 0 4 1 0 0 1 os_stdout_only)
              eq_refl eq_refl ltac:(lia) ltac:(lia) ltac:(lia)
              eq_refl eq_refl eq_refl ltac:(cbn; lia) eq_refl ltac:(cbn; lia)
              (conj (ex_intro _ 0%nat eq_refl) (λ _, eq_refl)))
    as (v' & s' & Hrun & Ht & Hflag).
  exists v', s'. split; [exact Hrun|]. split; [|exact Hflag].
  rewrite Ht. reflexivity.
Defined.

(** ** The query: a well-formed reply, and the retry budget *)

Lemma isdigit_plain c :
  isdigit c = true →
  isspace c = false ∧ c ≠ "-"%char ∧ c ≠ "+"%char ∧ c ≠ NUL ∧ c ≠ LF.
Proof.
  unfold isdigit, isspace. intros Hd. apply andb_prop in Hd as [Hlo Hhi].
  apply Z.leb_le in Hlo, Hhi.
  split; [|split_and!; intros ->; vm_compute in Hlo; done].
  destruct (Z.eqb_spec (code c) 32); [lia|]. cbn [orb].
  destruct (Z.leb_spec 9 (code c)); [|done].
  destruct (Z.leb_spec (code c) 13); [lia|done].
Qed.

Lemma decimal_go_head fuel n acc :
  (∃ d r, 0 ≤ d ≤ 9 ∧ acc = String (digit_char d) r) →
  0 ≤ n →
  ∃ d r, 0 ≤ d ≤ 9 ∧ decimal_go fuel n acc = String (digit_char d) r.
Proof.
  revert n acc. induction fuel as [|fuel IH]; intros n acc Hacc Hn; [done|].
  rewrite decimal_go_S.
  pose proof (Z.mod_pos_bound n 10 ltac:(lia)) as Hmod.
  destruct (n <? 10); [exists (n mod 10), acc; split; [lia|done]|].
  apply IH; [exists (n mod 10), acc; split; [lia|done]|]. apply Z.div_pos; lia.
Qed.

Lemma decimal_head n :
  0 ≤ n → ∃ d r, 0 ≤ d ≤ 9 ∧ decimal n = String (digit_char d) r.
Proof.
  intros Hn. unfold decimal. rewrite decimal_go_S.
  pose proof (Z.mod_pos_bound n 10 ltac:(lia)) as Hmod.
  destruct (n <? 10); [exists (n mod 10), EmptyString; split; [lia|done]|].
  apply decimal_go_head; [exists (n mod 10), EmptyString; split; [lia|done]|]. apply Z.div_pos; lia.
Qed.

Lemma list_ascii_of_string_app a b :
  list_ascii_of_string (a +:+ b) = list_ascii_of_string a ++ list_ascii_of_string b.
Proof.
  induction a as [|x a IH]; [done|].
  change (x :: list_ascii_of_string (a +:+ b)
          = x :: (list_ascii_of_string a ++ list_ascii_of_string b)).
  by rewrite IH.
Qed.

Lemma read_digits_decimal n c rest :
  0 ≤ n → isdigit c = false →
  read_digits (list_ascii_of_string (decimal n) ++ c :: rest) 0 = n.
Proof.
  intros Hn Hc.
  pose proof (read_decimal (λ s a, read_digits (list_ascii_of_string s ++ c :: rest) a)
                (λ _, True)) as Hread.
  cbv beta in Hread.
  rewrite <- (string_app_nil_r (decimal n)).
  rewrite Hread; try done.
  - cbn. by rewrite Hc.
  - intros d r a Hd _ _. destruct (digit_char_spec d Hd) as [Hdig Hcode].
    cbn [list_ascii_of_string app read_digits]. by rewrite Hdig, Hcode.
Qed.

Lemma skip_digits_decimal n c rest :
  0 ≤ n → isdigit c = false →
  skip_digits (list_ascii_of_string (decimal n) ++ c :: rest) = c :: rest.
Proof.
  intros Hn Hc.
  pose proof (read_decimal (λ s (a : Z), skip_digits (list_ascii_of_string s ++ c :: rest))
                (λ _, True)) as Hread.
  cbv beta in Hread.
  rewrite <- (string_app_nil_r (decimal n)).
  rewrite Hread; try done.
  - cbn. by rewrite Hc.
  - intros d r a Hd _ _. destruct (digit_char_spec d Hd) as [Hdig Hcode].
    cbn [list_ascii_of_string app skip_digits]. by rewrite Hdig.
Qed.

Lemma atol_decimal n c rest :
  0 ≤ n ≤ LONG_MAX → isdigit c = false →
  atol (list_ascii_of_string (decimal n) ++ c :: rest) = n.
Proof.
  intros Hn Hc.
  pose proof (read_digits_decimal n c rest ltac:(lia) Hc) as Hread.
  destruct (decimal_head n ltac:(lia)) as (d & r & Hd & Hhead).
  rewrite Hhead in Hread |- *.
  destruct (digit_char_spec d Hd) as [Hdig _].
  destruct (isdigit_plain _ Hdig) as (Hsp & Hminus & Hplus & _).
  unfold atol. cbn [list_ascii_of_string app skip_spaces]. rewrite Hsp.
  rewrite !bool_decide_eq_false_2 by done.
  cbn [list_ascii_of_string app] in Hread. rewrite Hread.
  unfold LONG_MIN, LONG_MAX in *. lia.
Qed.

Lemma cstring_payload payload rest :
  NUL ∉ payload → cstring (payload ++ NUL :: rest) = payload.
Proof.
  induction payload as [|c payload IH]; intros Hnul.
  - cbn. by rewrite bool_decide_eq_true_2.
  - apply not_elem_of_cons in Hnul as [Hc Hnul].
    cbn. rewrite bool_decide_eq_false_2 by done. by rewrite IH.
Qed.

Lemma decimal_digits_bound n :
  1 ≤ n ≤ LONG_MAX → (String.length (decimal n) ≤ 19)%nat.
Proof.
  intros Hn. pose proof (decimal_length n ltac:(lia)) as Hlen.
  pose proof (ilog10_mono n LONG_MAX Hn) as Hmono.
  replace (ilog10 LONG_MAX) with 18 in Hmono by (by vm_compute). lia.
Qed.

Lemma framed_length n payload :
  List.length (framed n payload)
  = (String.length (decimal n) + List.length payload + 2)%nat.
Proof.
  unfold framed. rewrite length_app. cbn [List.length]. rewrite length_app.
  cbn [List.length].
  assert (∀ s, List.length (list_ascii_of_string s) = String.length s) as ->.
  { intros s. induction s as [|c s IH]; [done|]. cbn. by rewrite IH. }
  lia.
Qed.

Lemma copy_out_prefix n payload len :
  0 ≤ n →
  Z.of_nat (String.length (decimal n)) + 2 ≤ len →
  ∃ rest,
    terminate len (copy_out (framed n payload) len)
    = list_ascii_of_string (decimal n) ++ LF :: rest.
Proof.
  intros Hn Hlen. unfold terminate, copy_out, framed.
  set (ds := list_ascii_of_string (decimal n)).
  assert (List.length ds = String.length (decimal n)) as Hds.
  { unfold ds. generalize (decimal n). intros s.
    induction s as [|c s IH]; [done|]. cbn. by rewrite IH. }
  rewrite <- app_assoc. rewrite take_app_ge by lia.
  destruct (Z.to_nat len - List.length ds)%nat as [|k] eqn:Hk; [lia|].
  cbn [app take]. rewrite insert_app_r_alt by lia.
  destruct (Z.to_nat (len - 1) - List.length ds)%nat as [|j] eqn:Hj; [lia|].
  cbn [list_insert]. by eexists.
Qed.

Lemma copy_out_full n payload len :
  Z.of_nat (List.length (framed n payload)) + 1 ≤ len →
  terminate len (copy_out (framed n payload) len)
  = framed n payload
    ++ replicate (Z.to_nat len - List.length (framed n payload)) NUL.
Proof.
  intros Hlen. unfold terminate, copy_out.
  rewrite take_app_ge by lia. rewrite take_replicate.
  rewrite insert_app_r_alt by lia. rewrite insert_replicate.
  f_equal. f_equal. lia.
Qed.

Lemma response_text_framed n payload k :
  0 ≤ n →
  Z.of_nat (List.length (framed n payload)) = n →
  NUL ∉ payload →
  response_text (framed n payload ++ replicate (S k) NUL) (n + 1) = payload.
Proof.
  intros Hn Hlen Hnul. unfold response_text, terminate.
  replace (Z.to_nat (n + 1 - 1)) with (List.length (framed n payload)) by lia.
  replace (Z.to_nat (n + 1 - 2)) with (List.length (framed n payload) - 1)%nat by lia.
  rewrite insert_app_r_alt by lia. rewrite insert_replicate.
  pose proof (framed_length n payload) as Hfl.
  set (ds := list_ascii_of_string (decimal n)).
  assert (framed n payload = (ds ++ LF :: payload) ++ [FF]) as Hsplit.
  { unfold framed, ds. by rewrite <- app_assoc. }
  assert (List.length (framed n payload) - 1 = List.length (ds ++ LF :: payload))%nat
    as Hidx.
  { rewrite Hsplit, length_app. cbn [List.length]. lia. }
  rewrite Hidx, Hsplit. clear Hidx Hsplit Hfl Hlen.
  set (pre := ds ++ LF :: payload).
  rewrite <- (app_assoc pre [FF]).
  change ([FF] ++ replicate (S k) NUL) with (FF :: replicate (S k) NUL).
  rewrite (list_lookup_middle pre) by done.
  rewrite bool_decide_eq_true_2 by done. cbn [negb].
  rewrite insert_app_r_alt by lia.
  rewrite Nat.sub_diag. cbn [list_insert].
  unfold pre. rewrite <- app_assoc. cbn [app].
  unfold ds. rewrite skip_digits_decimal by done.
  rewrite bool_decide_eq_true_2 by done.
  by apply cstring_payload.
Qed.

Section FramedResponse.
Variable alloc : Z → bool.
Variable service : Z → Z → list ascii.
Variable n : Z.
Variable payload : list ascii.
Hypothesis Hcount : Z.of_nat (List.length (framed n payload)) = n.
Hypothesis Hlong : n ≤ LONG_MAX.
Hypothesis Hnul : NUL ∉ payload.
Hypothesis Hservice : ∀ retry len, service retry len = copy_out (framed n payload) len.

Lemma framed_declared retry len :
  Z.of_nat (String.length (decimal n)) + 2 ≤ len →
  declared_size (terminate len (service retry len)) = n + 1.
Proof.
  intros Hlen. rewrite Hservice.
  destruct (copy_out_prefix n payload len ltac:(lia) Hlen) as [rest ->].
  unfold declared_size. rewrite atol_decimal by (done || lia).
  unfold size_t, LONG_MAX in *. rewrite Z.mod_small; lia.
Qed.

Lemma framed_text retry len :
  n + 1 ≤ len →
  response_text (terminate len (service retry len)) (n + 1) = payload.
Proof.
  intros Hlen. rewrite Hservice, copy_out_full by lia.
  destruct (Z.to_nat len - List.length (framed n payload))%nat as [|k] eqn:Hk; [lia|].
  apply response_text_framed; (done || lia).
Qed.

Lemma framed_query :
  alloc 8192 = true →
  alloc (n + 1) = true →
  ∃ retry len,
    n + 1 ≤ len
    ∧ query alloc service
      = mkQueryEnd (BufLive (terminate len (service retry len))) (n + 1)
          (if n + 1 <=? 8192 then [8192] else [8192; n + 1]).
Proof.
  intros Ha1 Ha2. pose proof (framed_length n payload) as Hfl.
  assert (3 ≤ n) as Hthree.
  { destruct (decimal_head n ltac:(lia)) as (d & r & _ & Hhead).
    rewrite Hhead in Hfl. cbn [String.length] in Hfl. lia. }
  pose proof (decimal_digits_bound n ltac:(lia)) as Hdigits.
  unfold query.
  assert (declared_size (terminate 8192 (service 32 8192)) = n + 1) as Hfirst
    by (apply framed_declared; lia).
  destruct (Z.leb_spec (n + 1) 8192) as [Hfit|Hbig].
  - exists 32, 8192. split; [done|].
    rewrite (query_loop_accept alloc service 32 32 8192 []);
      [|reflexivity|exact Ha1|lia|lia].
    rewrite Hfirst. reflexivity.
  - exists 31, (n + 1). split; [lia|].
    assert (declared_size (terminate (n + 1) (service 31 (n + 1))) = n + 1) as Hsecond
      by (apply framed_declared; lia).
    rewrite (query_loop_grow alloc service 32 32 8192 []);
      [|reflexivity|exact Ha1|lia|lia].
    rewrite Hfirst.
    rewrite (query_loop_accept alloc service 31 31 (n + 1));
      [|reflexivity|exact Ha2|lia|lia].
    rewrite Hsecond. reflexivity.
Qed.
End FramedResponse.

(** X15. A service that answers every attempt with what fits of one
    well-formed reply (the byte count of the whole reply in decimal, a
    newline, a payload without NUL, a form feed) gets exactly its payload
    printed on standard output, the count, the newline and the form feed
    removed, and the command exits with 0 with nothing on [stderr]: after
    one attempt when the reply and its terminator fit 8192 bytes, after a
    second one of exactly the size needed otherwise.  The one exception is
    standard output being a broken pipe: the write of the payload then ends
    the process with the status of the SIGPIPE handler. *)
Theorem framed_response_printed alloc service n payload s :
  Z.of_nat (List.length (framed n payload)) = n →
  n ≤ LONG_MAX →
  NUL ∉ payload →
  (∀ retry len, service retry len = copy_out (framed n payload) len) →
  alloc 8192 = true →
  alloc (n + 1) = true →
  ∃ s',
    query_command alloc service s
    = Some (Exit (if bool_decide
                       (os_fault (sys s)
                          (SysWrite STDOUT_FILENO (string_of_list_ascii payload))
                        = Some EPIPE)
                  then SIGPIPE else 0) s')
    ∧ os_trace (sys s')
      = os_trace (sys s) ++ [SysWrite STDOUT_FILENO (string_of_list_ascii payload)]
    ∧ os_stderr (sys s') = os_stderr (sys s)
    ∧ q_attempts (query alloc service)
      = (if n + 1 <=? 8192 then [8192] else [8192; n + 1]).
Proof.
  intros Hcount Hlong Hnul Hservice Ha1 Ha2.
  destruct (framed_query alloc service n payload Hcount Hlong Hservice Ha1 Ha2)
    as (retry & len & Hlen & Hq).
  unfold query_command. rewrite Hq. cbn [q_buf q_len q_attempts].
  rewrite (framed_text service n payload Hcount Hnul Hservice) by done.
  unfold bind. rewrite write_eq.
  destruct (sys_write_tests STDOUT_FILENO (string_of_list_ascii payload) (sys s))
    as [-> _].
  destruct (sys_write_fds STDOUT_FILENO (string_of_list_ascii payload) (sys s))
    as (_ & _ & _ & He).
  pose proof (sys_write_trace STDOUT_FILENO (string_of_list_ascii payload) (sys s)) as Ht.
  destruct (bool_decide _); eexists; (split; [done|]); cbn [sys set_sys]; by split_and!.
Qed.

(** The reply "9", newline, "abcdef", form feed: nine bytes. *)
Lemma framed_response_printed_witness :
  ∃ s',
    query_command (λ _, true)
      (λ _ len, copy_out (framed 9 (list_ascii_of_string "abcdef")) len)
      (initial_state os_stdout_only) = Some (Exit 0 s')
    ∧ os_trace (sys s') = [SysWrite 1 "abcdef"].
Proof.
  destruct (framed_response_printed (λ _, true)
              (λ _ len, copy_out (framed 9 (list_ascii_of_string "abcdef")) len)
              9 (list_ascii_of_string "abcdef") (initial_state os_stdout_only)
              eq_refl ltac:(by vm_compute)
              ltac:(intros Hin; cbn in Hin;
                    repeat (apply elem_of_cons in Hin as [Hin|Hin]; [discriminate|]);
                    by apply elem_of_nil in Hin)
              (λ _ _, eq_refl) eq_refl eq_refl)
    as (s' & Hrun & Ht & _).
  exists s'. split; [exact Hrun|exact Ht].
Defined.

Section BudgetFacts.
Variable alloc : Z → bool.
Variable service : Z → Z → list ascii.

Lemma query_loop_budget k len atts :
  (List.length (q_attempts (query_loop alloc service k len atts))
   ≤ List.length atts + k)%nat
  ∧ (q_buf (query_loop alloc service k len atts) = BufDeleted
     ↔ insatiable alloc service k len = true)
  ∧ (insatiable alloc service k len = true →
     List.length (q_attempts (query_loop alloc service k len atts))
     = (List.length atts + k)%nat).
Proof.
  revert len atts. induction k as [|k IH]; intros len atts.
  { cbn. split; [lia|]. split; [done|]. lia. }
  cbn [query_loop insatiable].
  destruct (alloc len); cbn [negb andb].
  2:{ cbn. split; [lia|]. split; done. }
  set (ret_ := declared_size _).
  destruct (ret_ <? 4); cbn [negb andb].
  { cbn. rewrite length_app. cbn. split; [lia|]. split; done. }
  destruct (ret_ <=? len); cbn [negb andb].
  { cbn. rewrite length_app. cbn. split; [lia|]. split; done. }
  destruct (IH ret_ (atts ++ [len])) as (Hle & Hiff & Hall).
  rewrite length_app in Hle, Hall. cbn [List.length] in Hle, Hall.
  split; [lia|]. split; [done|]. intros Hins. rewrite (Hall Hins). lia.
Qed.

(** X16. The query makes at most 33 attempts.  It leaves the loop with
    the buffer deleted and the pointer not null exactly when all 33
    attempts were allocated and each was answered with a demand that is
    not degenerate and exceeds its capacity; then "failed to read data" is
    not reported: the command goes on to read the deleted buffer, which
    has no defined result.  That is the only way for it to have none. *)
Theorem retry_budget_exhausted :
  (List.length (q_attempts (query alloc service)) ≤ 33)%nat
  ∧ (q_buf (query alloc service) = BufDeleted ↔ insatiable alloc service 33 8192 = true)
  ∧ (insatiable alloc service 33 8192 = true →
     List.length (q_attempts (query alloc service)) = 33%nat
     ∧ ∀ s, query_command alloc service s = None)
  ∧ (∀ s, query_command alloc service s = None → insatiable alloc service 33 8192 = true).
Proof.
  destruct (query_loop_budget 33 8192 []) as (Hle & Hiff & Hall).
  unfold query_command, query.
  split; [exact Hle|]. split; [exact Hiff|]. split.
  - intros Hins. split; [exact (Hall Hins)|].
    intros s. apply Hiff in Hins. cbv zeta. by rewrite Hins.
  - intros s. cbv zeta.
    destruct (q_buf (query_loop alloc service 33 8192 [])) eqn:Hb; try done.
    intros _. by apply Hiff.
Qed.
End BudgetFacts.

(** A service that always answers with its capacity asks for one byte
    more at each of the 33 attempts. *)
Lemma retry_budget_exhausted_witness :
  query_command (λ _, true) (λ _ len, list_ascii_of_string (decimal len))
    (initial_state os_stdout_only) = None.
Proof.
  exact (proj2 (proj1 (proj2 (proj2
           (retry_budget_exhausted (λ _, true)
              (λ _ len, list_ascii_of_string (decimal len)))))
           ltac:(vm_compute; reflexivity))
         (initial_state os_stdout_only)).
Defined.

(** ** A refused allocation *)

Section RefusedAllocation.
Variable alloc : Z → bool.
Variable service : Z → Z → list ascii.

Lemma query_loop_refused k len atts :
  alloc len = false →
  query_loop alloc service (S k) len atts = mkQueryEnd BufThrown len atts.
Proof. intros Ha. cbn [query_loop]. by rewrite Ha. Qed.

(** X17. [new char [len]] does not return null: when memory is refused,
    at the first attempt or at the retry a larger demand leads to, the
    exception ends the process by [abort], with no further attempt,
    nothing written and nothing reported; "failed to read data" is not
    printed. *)
Theorem refused_allocation_aborts :
  (alloc 8192 = false →
   q_attempts (query alloc service) = []
   ∧ ∀ s, query_command alloc service s = Some (Exit (128 + SIGABRT) s))
  ∧ (∀ n,
       atol (terminate 8192 (service 32 8192)) = n →
       8192 ≤ n →
       alloc 8192 = true →
       alloc (n + 1) = false →
       q_attempts (query alloc service) = [8192]
       ∧ ∀ s, query_command alloc service s = Some (Exit (128 + SIGABRT) s))
  ∧ exit_status (128 + SIGABRT) = 134.
Proof.
  split_and!; [| |done].
  - intros Ha.
    assert (query alloc service = mkQueryEnd BufThrown 8192 []) as Hq.
    { unfold query. by apply query_loop_refused. }
    unfold query_command. rewrite Hq. split; reflexivity.
  - intros n Hn Hbig Ha1 Ha2.
    assert (declared_size (terminate 8192 (service 32 8192)) = n + 1) as Hd
      by (rewrite declared_size_count; lia).
    assert (query alloc service = mkQueryEnd BufThrown (n + 1) [8192]) as Hq.
    { unfold query.
      rewrite (query_loop_grow alloc service 32 32 8192 []);
        [|reflexivity|exact Ha1|lia|lia].
      rewrite Hd. by apply query_loop_refused. }
    unfold query_command. rewrite Hq. split; reflexivity.
Qed.
End RefusedAllocation.

(** No memory for the first buffer: the statistics command aborts. *)
Lemma refused_allocation_aborts_witness :
  query_command (λ _, false) (λ _ len, mock_response "9999" len)
    (initial_state os_stdout_only)
  = Some (Exit 134 (initial_state os_stdout_only)).
Proof.
  exact (proj2 (proj1 (refused_allocation_aborts (λ _, false)
                         (λ _ len, mock_response "9999" len)) eq_refl)
           (initial_state os_stdout_only)).
Defined.

(** ** Opening the loggers *)

Section Loggers.
Context `{LogIds} `{LogPrint}.



End Loggers.

